(** * LibrarAI: the taxonomy-gated routing core

    A shallow embedding of the routing core of the repository
    ([app/agents/taxonomy_v2.py], [app/agents/taxonomy.py],
    [app/agents/domain_mapper.py], [app/agents/contracts.py],
    [app/agents/routing_cache.py], [app/agents/reading_router.py]) and the
    properties of it that the specification states.

    Conventions of the embedding.
    - A Python [dict] used by key only is a [gmap]; a Python [set] of
      strings is a [gset string].  The order in which CPython iterates a
      set is fixed inside one process but otherwise unspecified: it is a
      parameter [set_iter] of the gate, constrained only to enumerate the
      set without repetition.
    - Python [str] is [string]; [str.lower], [str.strip] and [str.split]
      are written out on ASCII text.
    - A value decoded from JSON (what the proposer returns) is a [json],
      its numbers integers; operations on it that raise in Python return
      [Raise e].
    - [time.time()] readings are rationals ([Q]).
    - [hashlib.sha256(..).hexdigest()] is a parameter [sha256_hexdigest].
    - The module singletons ([_gate], [_cache]) are passed as state.  Inside
      one request every call of [get_taxonomy_gate()] has the same outcome
      (the gate once built is kept, and a directory without artifacts keeps
      failing): the cache and the router take that outcome as [gate_now].
    - The prompt text sent to the proposer is not built: the proposer's
      answer is an input, and every statement holds for all answers. *)

From Stdlib Require Import ZArith QArith String Ascii List Lia DecimalString.
From stdpp Require Import base gmap sets list strings.

Open Scope string_scope.
Set Warnings "-register-all,-clear-no-such-hyp".


(** ** Python exceptions and fallible results *)

Inductive exn : Type :=
  | ValueError            (* also raised by LLMProvider for invalid JSON *)
  | JSONDecodeError       (* json.JSONDecodeError, a subclass of ValueError *)
  | TypeError
  | AttributeError
  | KeyError
  | FileNotFoundError
  | APIError
  | APITimeoutError
  | RateLimitError
  | UnboundLocalError     (* a local variable read before it was bound *)
  | OtherException.       (* raise Exception(...) after retries ran out *)

(** [isinstance(e, ValueError)]: what [except ValueError] catches. *)
Definition isinstance_ValueError (e : exn) : bool :=
  match e with
  | ValueError | JSONDecodeError => true
  | _ => false
  end.

Inductive outcome (A : Type) : Type :=
  | Ok (a : A)
  | Raise (e : exn).
Arguments Ok {A} a.
Arguments Raise {A} e.

(** Sequencing: the first exception raised ends the computation
    (stdpp's [x ← m; k] notation). *)
#[global] Instance outcome_ret : MRet outcome := fun A a => Ok a.
#[global] Instance outcome_bind : MBind outcome := fun A B k m =>
  match m with
  | Ok a => k a
  | Raise e => Raise e
  end.

(** ** Python values decoded from JSON *)

Inductive json : Type :=
  | JNull
  | JBool (b : bool)
  | JInt (z : Z)
  | JStr (s : string)
  | JList (l : list json)
  | JDict (d : list (string * json)).

Module py.

(** Truth value of an object ([not x] is its negation). *)
Definition truthy (v : json) : bool :=
  match v with
  | JNull => false
  | JBool b => b
  | JInt z => negb (z =? 0)%Z
  | JStr s => negb (String.eqb s "")
  | JList l => match l with [] => false | _ => true end
  | JDict d => match d with [] => false | _ => true end
  end.

(** [n == v] for an [int] [n]: booleans are the integers 0 and 1. *)
Definition eq_int (n : Z) (v : json) : bool :=
  match v with
  | JInt z => (n =? z)%Z
  | JBool b => (n =? (if b then 1 else 0))%Z
  | _ => false
  end.

Fixpoint assoc (k : string) (d : list (string * json)) : option json :=
  match d with
  | [] => None
  | (k', v) :: d' => if String.eqb k k' then Some v else assoc k d'
  end.

(** [v.get(k, default)]: only a dict has [get]. *)
Definition get (v : json) (k : string) (default : json) : outcome json :=
  match v with
  | JDict d => Ok (match assoc k d with Some x => x | None => default end)
  | _ => Raise AttributeError
  end.

Fixpoint chars (s : string) : list json :=
  match s with
  | EmptyString => []
  | String c s' => JStr (String c EmptyString) :: chars s'
  end.

(** The items a [for] loop over [v] visits. *)
Definition iter (v : json) : outcome (list json) :=
  match v with
  | JList l => Ok l
  | JStr s => Ok (chars s)
  | JDict d => Ok (map (fun kv => JStr (fst kv)) d)
  | _ => Raise TypeError
  end.

(** [l[:n]]: a negative bound counts from the end. *)
Definition slice_to {A} (n : Z) (l : list A) : list A :=
  if (0 <=? n)%Z then take (Z.to_nat n) l
  else take (Z.to_nat (Z.of_nat (length l) + n)) l.

(** [v[:n]] for a literal [n >= 0]: strings and lists can be sliced. *)
Definition slice_prefix (n : nat) (v : json) : outcome json :=
  match v with
  | JStr s => Ok (JStr (String.substring 0 n s))
  | JList l => Ok (JList (take n l))
  | _ => Raise TypeError
  end.

(** [str(n)] for an [int]. *)
Definition str_of_int (z : Z) : string := NilZero.string_of_int (Z.to_int z).

(** [f"{v}"] for the values the router interpolates: a chapter number
    taken from the proposer is an [int] or a [bool] by then (it compared
    equal to a stored number); the [repr] of a container is never asked
    for and is abbreviated. *)
Definition format (v : json) : string :=
  match v with
  | JNull => "None"
  | JBool true => "True"
  | JBool false => "False"
  | JInt z => str_of_int z
  | JStr s => s
  | JList _ => "[...]"
  | JDict _ => "{...}"
  end.

(** [s or default] for an optional string. *)
Definition str_or (s : option string) (default : string) : string :=
  match s with
  | Some x => if String.eqb x "" then default else x
  | None => default
  end.

(** [str.lower] on ASCII text: the letters A-Z are lowered, every other
    character is kept.  ([str.lower] itself follows the Unicode tables
    beyond ASCII.) *)
Definition lower_ascii (c : ascii) : ascii :=
  let n := nat_of_ascii c in
  if (65 <=? n)%nat && (n <=? 90)%nat then ascii_of_nat (n + 32) else c.

Fixpoint lower (s : string) : string :=
  match s with
  | EmptyString => EmptyString
  | String c s' => String (lower_ascii c) (lower s')
  end.

(** [c.isspace()] on ASCII text, which is what [str.strip] and
    [str.split] go by there.  (Beyond ASCII Python knows more kinds of
    white space.) *)
Definition isspace (c : ascii) : bool :=
  let n := nat_of_ascii c in
  ((9 <=? n)%nat && (n <=? 13)%nat) || ((28 <=? n)%nat && (n <=? 32)%nat).

Fixpoint lstrip (s : string) : string :=
  match s with
  | EmptyString => EmptyString
  | String c s' => if isspace c then lstrip s' else s
  end.

Fixpoint rstrip (s : string) : string :=
  match s with
  | EmptyString => EmptyString
  | String c s' =>
      match rstrip s' with
      | EmptyString => if isspace c then EmptyString else String c EmptyString
      | r => String c r
      end
  end.

Definition strip (s : string) : string := rstrip (lstrip s).

(** [s.replace(c, "")] for a one-character [c]. *)
Fixpoint remove_char (c : ascii) (s : string) : string :=
  match s with
  | EmptyString => EmptyString
  | String x s' => if Ascii.eqb x c then remove_char c s' else String x (remove_char c s')
  end.

(** [s.split()]: the maximal runs of non-space characters. *)
Fixpoint split_go (cur : string) (s : string) : list string :=
  match s with
  | EmptyString => if String.eqb cur "" then [] else [cur]
  | String c s' =>
      if isspace c
      then (if String.eqb cur "" then split_go "" s' else cur :: split_go "" s')
      else split_go (cur ++ String c EmptyString) s'
  end.

Definition split (s : string) : list string := split_go "" s.

(** [sep.join(l)]. *)
Fixpoint join (sep : string) (l : list string) : string :=
  match l with
  | [] => ""
  | [x] => x
  | x :: l' => x ++ sep ++ join sep l'
  end.

End py.

(** ** [app/agents/domain_mapper.py] *)

Module domain_mapper.

Definition DOMAIN_NAME_TO_ID : gmap string string :=
  list_to_map
    [ ("Philosophy", "philosophy"); ("Strategy", "strategy");
      ("Psychology", "psychology"); ("Technology", "technology");
      ("Economics", "economics"); ("Business", "business");
      ("History", "history"); ("Literature", "literature");
      ("Science", "science"); ("Security", "security");
      ("Self-Improvement", "psychology") ].

Definition SUBDOMAIN_NAME_TO_ID : gmap string string :=
  list_to_map
    [ ("Stoicism", "stoicism"); ("Ethics", "ethics");
      ("Epistemology", "ethics"); ("Metaphysics", "ethics");
      ("Political Philosophy", "power"); ("Existentialism", "existentialism");
      ("Military Strategy", "military"); ("Game Theory", "negotiation");
      ("Negotiation", "negotiation"); ("Decision Making", "negotiation");
      ("Software Engineering", "software"); ("Systems Design", "systems");
      ("Security", "security"); ("Databases", "software");
      ("Cognitive Science", "cognitive"); ("Behavioral Economics", "behavioral");
      ("Social Psychology", "social"); ("Mindfulness", "mindfulness");
      ("Microeconomics", "micro"); ("Macroeconomics", "macro");
      ("Political Economy", "macro");
      ("Management", "management"); ("Leadership", "management");
      ("Entrepreneurship", "entrepreneurship"); ("Productivity", "management");
      ("Habits", "mindfulness") ].

Definition domain_name_to_id (domain_name : string) : string :=
  default (py.lower domain_name) (DOMAIN_NAME_TO_ID !! domain_name).

Definition subdomain_name_to_id (subdomain_name : option string) : option string :=
  match subdomain_name with
  | None => None
  | Some s =>
      if String.eqb s "" then None
      else Some (default (py.lower s) (SUBDOMAIN_NAME_TO_ID !! s))
  end.

Definition map_to_ids (domain_name : string) (subdomain_name : option string)
  : string * option string :=
  (domain_name_to_id domain_name, subdomain_name_to_id subdomain_name).

End domain_mapper.

(** ** Chapter dicts

    A chapter is passed around as a dict.  The rows of
    [CanonService.get_chapters] carry the key ["id"]; the entries of the
    [chapter_index] artifact carry ["chapter_id"] (and ["word_count"])
    instead.  Both carry ["book_id"], ["number"], ["title"] and the
    offsets. *)

Record chapter : Type := {
  ch_id : option string;           (* key "id" *)
  ch_chapter_id : option string;   (* key "chapter_id" *)
  ch_book_id : string;
  ch_number : Z;
  ch_title : string;
  ch_start_offset : Z;
  ch_end_offset : Z;
  ch_word_count : option Z
}.

(** ** [app/agents/taxonomy_v2.py] *)

Module taxonomy_v2.

(** An entry of [book_index["books"]]. *)
Record book_entry : Type := {
  book_id : string;
  title : string;
  author : string;
  domain_ids : list string;
  subdomain_ids : list string;
  is_public : bool
}.

(** [taxonomy.v1.json]: only its ["version"] is read by the core. *)
Record taxonomy_json : Type := { taxonomy_version : Z }.

Record TaxonomyArtifacts : Type := {
  taxonomy : taxonomy_json;
  book_index : list book_entry;
  chapter_index : list chapter;
  books_by_id : gmap string book_entry;
  chapters_by_book : gmap string (list chapter);
  books_by_domain : gmap string (gset string);
  books_by_subdomain : gmap string (gset string)
}.

Record TaxonomyGateV2 : Type := {
  version : Z;
  artifacts : TaxonomyArtifacts
}.

(** The artifact directory: [taxonomy.v1.json] when it exists, and the
    [book_index.v{N}.json] and [chapter_index.v{N}.json] files by [N]. *)
Record artifacts_dir : Type := {
  taxonomy_file : option taxonomy_json;
  book_index_files : gmap Z (list book_entry);
  chapter_index_files : gmap Z (list chapter)
}.

Definition _find_latest_version (dir : artifacts_dir) : outcome Z :=
  match elements (dom (book_index_files dir)) with
  | [] => Raise FileNotFoundError
  | v :: versions => Ok (foldr Z.max v versions)
  end.

(** [books_by_id = {book["book_id"]: book for book in books}] *)
Definition index_books_by_id (books : list book_entry) : gmap string book_entry :=
  foldl (fun m book => <[book_id book := book]> m) ∅ books.

(** [chapters_by_book[book_id].append(chapter)], in index order. *)
Definition index_chapters_by_book (chapters : list chapter) : gmap string (list chapter) :=
  foldl (fun m ch => <[ch_book_id ch := (default [] (m !! ch_book_id ch) ++ [ch])%list]> m)
        ∅ chapters.

(** [index[tag].add(book["book_id"])] for every tag of every book. *)
Definition add_tags (tags : list string) (id : string) (m : gmap string (gset string))
  : gmap string (gset string) :=
  foldl (fun m tag => <[tag := default ∅ (m !! tag) ∪ {[id]}]> m) m tags.

Definition index_books_by_domain (books : list book_entry) : gmap string (gset string) :=
  foldl (fun m book => add_tags (domain_ids book) (book_id book) m) ∅ books.

Definition index_books_by_subdomain (books : list book_entry) : gmap string (gset string) :=
  foldl (fun m book => add_tags (subdomain_ids book) (book_id book) m) ∅ books.

Definition build_indexes (tax : taxonomy_json) (books : list book_entry)
    (chapters : list chapter) : TaxonomyArtifacts :=
  {| taxonomy := tax;
     book_index := books;
     chapter_index := chapters;
     books_by_id := index_books_by_id books;
     chapters_by_book := index_chapters_by_book chapters;
     books_by_domain := index_books_by_domain books;
     books_by_subdomain := index_books_by_subdomain books |}.

Definition _load_artifacts (dir : artifacts_dir) (v : Z) : outcome TaxonomyArtifacts :=
  match taxonomy_file dir with
  | None => Raise FileNotFoundError
  | Some tax =>
      match book_index_files dir !! v with
      | None => Raise FileNotFoundError
      | Some books =>
          match chapter_index_files dir !! v with
          | None => Raise FileNotFoundError
          | Some chapters => Ok (build_indexes tax books chapters)
          end
      end
  end.

(** [TaxonomyGateV2(version)]: [version or self._find_latest_version()]. *)
Definition __init__ (dir : artifacts_dir) (v : option Z) : outcome TaxonomyGateV2 :=
  v' ← match v with
       | Some n => if (n =? 0)%Z then _find_latest_version dir else Ok n
       | None => _find_latest_version dir
       end;
  a ← _load_artifacts dir v';
  Ok {| version := v'; artifacts := a |}.

Section gate.

(** [list(s)] for a set [s]: CPython's iteration order. *)
Variable set_iter : gset string -> list string.

Definition get_candidate_books (self : TaxonomyGateV2) (domain_id : string)
    (subdomain_id : option string) (max_books : Z) : list string :=
  let candidates : gset string := ∅ in
  let candidates :=
    match subdomain_id with
    | Some s =>
        if negb (String.eqb s "") then
          match books_by_subdomain (artifacts self) !! s with
          | Some books => candidates ∪ books
          | None => candidates
          end
        else candidates
    | None => candidates
    end in
  let candidates :=
    match books_by_domain (artifacts self) !! domain_id with
    | Some books => candidates ∪ books
    | None => candidates
    end in
  py.slice_to max_books (set_iter candidates).

End gate.

Definition get_candidate_chapters (self : TaxonomyGateV2) (book_ids : list string)
    (max_chapters_per_book : Z) : gmap string (list chapter) :=
  foldl (fun result id =>
           let chapters := default [] (chapters_by_book (artifacts self) !! id) in
           <[id := py.slice_to max_chapters_per_book chapters]> result)
        ∅ book_ids.

Definition validate_book_id (self : TaxonomyGateV2) (id : string) : bool :=
  bool_decide (is_Some (books_by_id (artifacts self) !! id)).

Definition validate_chapter_id (self : TaxonomyGateV2) (chapter_id id : string) : bool :=
  existsb (fun ch => bool_decide (ch_chapter_id ch = Some chapter_id))
          (default [] (chapters_by_book (artifacts self) !! id)).

Definition get_taxonomy_version (self : TaxonomyGateV2) : Z :=
  taxonomy_version (taxonomy (artifacts self)).

Definition get_artifact_version (self : TaxonomyGateV2) : Z := version self.

(** The module-level singleton [_gate] and [get_taxonomy_gate()]: the
    gate is built on first use and kept; a failed construction leaves
    [_gate] unset and raises. *)
Definition get_taxonomy_gate (dir : artifacts_dir) (_gate : option TaxonomyGateV2)
  : outcome TaxonomyGateV2 * option TaxonomyGateV2 :=
  match _gate with
  | Some g => (Ok g, Some g)
  | None =>
      match __init__ dir None with
      | Ok g => (Ok g, Some g)
      | Raise e => (Raise e, None)
      end
  end.

Definition reset_taxonomy_gate (_gate : option TaxonomyGateV2) : option TaxonomyGateV2 :=
  None.

(** The module-level [get_candidate_books] and [validate_book_id]: the
    methods, called on the singleton. *)
Definition module_get_candidate_books (set_iter : gset string -> list string)
    (dir : artifacts_dir) (_gate : option TaxonomyGateV2)
    (domain_id : string) (subdomain_id : option string) (max_books : Z)
  : outcome (list string) * option TaxonomyGateV2 :=
  let got := get_taxonomy_gate dir _gate in
  (gate ← fst got; Ok (get_candidate_books set_iter gate domain_id subdomain_id max_books),
   snd got).

Definition module_validate_book_id (dir : artifacts_dir) (_gate : option TaxonomyGateV2)
    (id : string) : outcome bool * option TaxonomyGateV2 :=
  let got := get_taxonomy_gate dir _gate in
  (gate ← fst got; Ok (validate_book_id gate id), snd got).

(** [self.artifacts.books_by_id.get(book_id)] *)
Definition get_book_metadata (self : TaxonomyGateV2) (id : string) : option book_entry :=
  books_by_id (artifacts self) !! id.

End taxonomy_v2.

(** ** [app/agents/taxonomy.py]: the hardcoded table (V1) *)

Module taxonomy.

Record TaxonomyMapping : Type := {
  domain : string;
  subdomain : option string;
  book_ids : list string
}.

Definition TAXONOMY_VERSION : Z := 1.

Definition TAXONOMY : list TaxonomyMapping :=
  [ {| domain := "Philosophy"; subdomain := Some "Stoicism";
       book_ids := ["book_d9d95145167f"] |};
    {| domain := "Philosophy"; subdomain := None;
       book_ids := ["book_d9d95145167f"] |};
    {| domain := "Strategy"; subdomain := Some "Military Strategy";
       book_ids := ["book_e500fb226315"] |};
    {| domain := "Strategy"; subdomain := Some "Political Philosophy";
       book_ids := ["book_062ae004ce4a"] |};
    {| domain := "Strategy"; subdomain := None;
       book_ids := ["book_e500fb226315"; "book_062ae004ce4a"] |};
    {| domain := "Technology"; subdomain := Some "Systems Design";
       book_ids := ["book_5e3b6dc26640"] |};
    {| domain := "Technology"; subdomain := None;
       book_ids := ["book_5e3b6dc26640"] |};
    {| domain := "Psychology"; subdomain := Some "Mindfulness";
       book_ids := ["book_aaf47b37c1b4"] |};
    {| domain := "Psychology"; subdomain := None;
       book_ids := ["book_aaf47b37c1b4"] |};
    {| domain := "Business"; subdomain := None;
       book_ids := ["book_062ae004ce4a"] |};
    {| domain := "Economics"; subdomain := None;
       book_ids := ["book_5e3b6dc26640"] |};
    {| domain := "Self-Improvement"; subdomain := None;
       book_ids := ["book_aaf47b37c1b4"] |} ].

(** [_build_index()] over a table. *)
Definition _build_index (table : list TaxonomyMapping) : gmap string (list string) :=
  foldl (fun idx mapping =>
           let key := domain mapping ++ "::" ++ py.str_or (subdomain mapping) "*" in
           <[key := (default [] (idx !! key) ++ book_ids mapping)%list]> idx)
        ∅ table.

Definition _TAXONOMY_INDEX : gmap string (list string) := _build_index TAXONOMY.

Section gate.

Variable set_iter : gset string -> list string.

Definition get_candidate_books_in (index : gmap string (list string))
    (domain : string) (subdomain : option string) (max_books : Z) : list string :=
  let candidates : gset string := ∅ in
  let candidates :=
    match subdomain with
    | Some s =>
        if negb (String.eqb s "") then
          match index !! (domain ++ "::" ++ s) with
          | Some ids => candidates ∪ list_to_set ids
          | None => candidates
          end
        else candidates
    | None => candidates
    end in
  let candidates :=
    match index !! (domain ++ "::*") with
    | Some ids => candidates ∪ list_to_set ids
    | None => candidates
    end in
  py.slice_to max_books (set_iter candidates).

Definition get_candidate_books := get_candidate_books_in _TAXONOMY_INDEX.

End gate.

Definition get_taxonomy_version : Z := TAXONOMY_VERSION.

Definition validate_book_id (id : string) : bool :=
  existsb (fun mapping => bool_decide (id ∈ book_ids mapping)) TAXONOMY.

(** [all_ids.update(mapping.book_ids)] for every mapping of a table. *)
Definition all_book_ids_in (table : list TaxonomyMapping) : gset string :=
  foldl (fun all_ids mapping => all_ids ∪ list_to_set (book_ids mapping)) ∅ table.

Definition get_all_taxonomy_book_ids : gset string := all_book_ids_in TAXONOMY.

End taxonomy.

(** ** [app/agents/contracts.py] *)

Module contracts.

(** [chapter_number] and [rationale] hold what the router puts there: a
    number or text taken from the proposer's JSON is stored as it came. *)
Record ReadingRecommendation : Type := {
  book_id : string;
  book_title : string;
  book_author : string;
  chapter_id : string;
  chapter_number : json;
  chapter_title : string;
  rationale : json
}.

Record ReadingPath : Type := {
  angle : json;
  recommendations : list ReadingRecommendation
}.

Record RoutingResult : Type := {
  paths : list ReadingPath;
  is_valid : bool;
  refusal_reason : option string
}.

(** The [recommendations] property of a result: all paths flattened. *)
Definition all_recommendations (r : RoutingResult) : list ReadingRecommendation :=
  concat (map recommendations (paths r)).

Definition total_count (r : RoutingResult) : nat :=
  sum_list (map (fun p => length (recommendations p)) (paths r)).

End contracts.

(** ** [app/agents/routing_cache.py] *)

Module routing_cache.

Import contracts.

Record CacheEntry : Type := {
  routing_result : RoutingResult;
  cached_at : Q;
  taxonomy_version : Z;
  query_hash : string
}.

Record RoutingCache : Type := {
  cache : gmap string CacheEntry;
  ttl_seconds : Z;
  hits : nat;
  misses : nat
}.

(** [RoutingCache(ttl_seconds=3600)] *)
Definition __init__ (ttl : Z) : RoutingCache :=
  {| cache := ∅; ttl_seconds := ttl; hits := 0; misses := 0 |}.

(** The module's [get_taxonomy_version()]: the gate's artifact version,
    and 1 when the gate cannot be had.  [gate_now] is the outcome of
    [get_taxonomy_gate()] at the time of the call. *)
Definition get_taxonomy_version (gate_now : outcome taxonomy_v2.TaxonomyGateV2) : Z :=
  match gate_now with
  | Ok gate => taxonomy_v2.get_artifact_version gate
  | Raise _ => 1
  end.

Definition _normalize_query (query : string) : string :=
  let normalized := py.strip (py.lower query) in
  let normalized :=
    foldl (fun s c => py.remove_char c s) normalized
          (list_ascii_of_string "?!.,;:") in
  py.join " " (py.split normalized).

Section cache.

(** [hashlib.sha256(s.encode()).hexdigest()] *)
Variable sha256_hexdigest : string -> string.

Definition _compute_cache_key (gate_now : outcome taxonomy_v2.TaxonomyGateV2)
    (query domain : string) (subdomain : option string) : string :=
  let normalized := _normalize_query query in
  let taxonomy_ver := get_taxonomy_version gate_now in
  let key_components :=
    normalized ++ "::" ++ domain ++ "::" ++ py.str_or subdomain "" ++ "::"
               ++ py.str_of_int taxonomy_ver in
  String.substring 0 16 (sha256_hexdigest key_components).

Definition record_miss (self : RoutingCache) (c : gmap string CacheEntry) : RoutingCache :=
  {| cache := c; ttl_seconds := ttl_seconds self;
     hits := hits self; misses := S (misses self) |}.

Definition get (self : RoutingCache) (gate_now : outcome taxonomy_v2.TaxonomyGateV2)
    (now : Q) (query domain : string) (subdomain : option string)
  : option RoutingResult * RoutingCache :=
  let cache_key := _compute_cache_key gate_now query domain subdomain in
  match cache self !! cache_key with
  | None => (None, record_miss self (cache self))
  | Some entry =>
      let age := (now - cached_at entry)%Q in
      if negb (Qle_bool age (inject_Z (ttl_seconds self))) then
        (None, record_miss self (delete cache_key (cache self)))
      else if negb (taxonomy_version entry =? get_taxonomy_version gate_now)%Z then
        (None, record_miss self (delete cache_key (cache self)))
      else
        (Some (routing_result entry),
         {| cache := cache self; ttl_seconds := ttl_seconds self;
            hits := S (hits self); misses := misses self |})
  end.

Definition set (self : RoutingCache) (gate_now : outcome taxonomy_v2.TaxonomyGateV2)
    (now : Q) (query domain : string) (subdomain : option string)
    (result : RoutingResult) : RoutingCache :=
  let cache_key := _compute_cache_key gate_now query domain subdomain in
  let entry :=
    {| routing_result := result;
       cached_at := now;
       taxonomy_version := get_taxonomy_version gate_now;
       query_hash := cache_key |} in
  {| cache := <[cache_key := entry]> (cache self);
     ttl_seconds := ttl_seconds self;
     hits := hits self; misses := misses self |}.

End cache.

Definition clear (self : RoutingCache) : RoutingCache :=
  {| cache := ∅; ttl_seconds := ttl_seconds self; hits := 0; misses := 0 |}.

(** The module-level singleton [_cache] and [get_routing_cache()]. *)
Definition get_routing_cache (_cache : option RoutingCache)
  : RoutingCache * option RoutingCache :=
  match _cache with
  | Some c => (c, Some c)
  | None => (__init__ 3600, Some (__init__ 3600))
  end.

(** [(now - entry.cached_at) > self.ttl_seconds] *)
Definition is_expired (self : RoutingCache) (now : Q) (entry : CacheEntry) : bool :=
  negb (Qle_bool (now - cached_at entry) (inject_Z (ttl_seconds self))).

(** [prune_expired]: the keys of the expired entries are collected, then
    deleted one by one; their number is returned. *)
Definition prune_expired (self : RoutingCache) (now : Q) : nat * RoutingCache :=
  let expired_keys :=
    (filter (fun item => is_expired self now (snd item) = true)
            (map_to_list (cache self))).*1 in
  (length expired_keys,
   {| cache := foldl (fun c key => delete key c) (cache self) expired_keys;
      ttl_seconds := ttl_seconds self;
      hits := hits self; misses := misses self |}).

(** [reset_routing_cache()]: the cache object that was the singleton,
    cleared, and the singleton, unset. *)
Definition reset_routing_cache (_cache : option RoutingCache)
  : option RoutingCache * option RoutingCache :=
  (clear <$> _cache, None).

End routing_cache.

(** ** [app/agents/reading_router.py] *)

Module reading_router.

Import contracts.

(** A book dict of [available_books] (a row of [CanonService.get_books]):
    the router reads its keys ["id"], ["title"] and ["author"]. *)
Record book : Type := { id : string; title : string; author : string }.

(** The import of [taxonomy_v2] at the top of the module does no I/O and
    cannot fail: the artifact-based gate is the one in use. *)
Definition USE_TAXONOMY_V2 : bool := true.

(** [chapters[0] if chapters else {"id": mock_id, "number": 1, "title":
    "Chapter 1"}], read through [.get("id", mock_id)], [.get("number", 1)]
    and [.get("title", "Chapter 1")]. *)
Definition mock_chapter (chapters : list chapter) (mock_id : string)
  : string * json * string :=
  match chapters with
  | c :: _ => (default mock_id (ch_id c), JInt (ch_number c), ch_title c)
  | [] => (mock_id, JInt 1, "Chapter 1")
  end.

Definition mock_path (b : book) (chapters_by_book : gmap string (list chapter))
    (mock_id angle_text rationale_text : string) : ReadingPath :=
  let chapters := default [] (chapters_by_book !! id b) in
  let '(cid, cnum, ctitle) := mock_chapter chapters mock_id in
  {| angle := JStr angle_text;
     recommendations :=
       [ {| book_id := id b;
            book_title := title b;
            book_author := author b;
            chapter_id := cid;
            chapter_number := cnum;
            chapter_title := ctitle;
            rationale := JStr rationale_text |} ] |}.

Definition _mock_route (question domain : string) (subdomain : option string)
    (available_books : list book) (chapters_by_book : gmap string (list chapter))
  : RoutingResult :=
  match available_books with
  | [] =>
      {| paths := []; is_valid := true;
         refusal_reason := Some "No books available in this domain." |}
  | book1 :: others =>
      let paths :=
        [ mock_path book1 chapters_by_book "ch_mock_1" "Foundational understanding"
            "This text addresses the core concepts related to your question." ] in
      let paths :=
        match others with
        | book2 :: _ =>
            (paths ++
             [ mock_path book2 chapters_by_book "ch_mock_2" "Alternative perspective"
                 "A different approach to the same question." ])%list
        | [] => paths
        end in
      {| paths := paths; is_valid := true; refusal_reason := None |}
  end.

(** The merge of the gate's chapters into the caller's dict:
    [if book_id not in chapters_by_book or not chapters_by_book[book_id]:
       chapters_by_book[book_id] = chapters]. *)
Definition merge_chapters (candidate_chapters chapters_by_book : gmap string (list chapter))
  : gmap string (list chapter) :=
  foldl (fun cbb item =>
           match cbb !! fst item with
           | Some (_ :: _) => cbb
           | _ => <[fst item := snd item]> cbb
           end)
        chapters_by_book (map_to_list candidate_chapters).

(** [k in d] for a dict with string keys: a list or dict is unhashable. *)
Definition dict_contains {V} (d : gmap string V) (k : json) : outcome bool :=
  match k with
  | JStr s => Ok (bool_decide (is_Some (d !! s)))
  | JList _ | JDict _ => Raise TypeError
  | _ => Ok false
  end.

(** What the body of the inner loop does with one proposed
    recommendation: append one, or [continue]. *)
Inductive verdict : Type :=
  | Keep (r : ReadingRecommendation)
  | Discard.

Definition refusal (reason : string) : RoutingResult :=
  {| paths := []; is_valid := false; refusal_reason := Some reason |}.

Section router.

Variable sha256_hexdigest : string -> string.
Variable set_iter : gset string -> list string.

(** The chapter the recommendation will point at and the number it
    will carry: the first chapter whose number equals the proposed one,
    else the first chapter of the book, else nothing. *)
Definition resolve_chapter (chapters : list chapter) (ch_num : json)
  : option (chapter * json) :=
  match find (fun c => py.eq_int (ch_number c) ch_num) chapters with
  | Some c => Some (c, ch_num)
  | None =>
      match chapters with
      | c :: _ => Some (c, JInt (ch_number c))
      | [] => None
      end
  end.

Definition validate_rec (gate_now : outcome taxonomy_v2.TaxonomyGateV2)
    (books_by_id : gmap string book)
    (chapters_by_book : gmap string (list chapter)) (rec : json) : outcome verdict :=
  book_id_v ← py.get rec "book_id" JNull;
  if negb (py.truthy book_id_v) then Ok Discard else
  known ← dict_contains books_by_id book_id_v;
  if negb known then Ok Discard else
  match book_id_v with
  | JStr bid =>
      gate ← gate_now;
      if negb (taxonomy_v2.validate_book_id gate bid) then Ok Discard else
      match books_by_id !! bid with
      | None => Raise KeyError
      | Some b =>
          let chapters := default [] (chapters_by_book !! bid) in
          ch_num ← py.get rec "chapter_number" (JInt 1);
          match resolve_chapter chapters ch_num with
          | None => Ok Discard
          | Some (ch, ch_num) =>
              r ← py.get rec "rationale" (JStr "Relevant to your question");
              r ← py.slice_prefix 200 r;
              Ok (Keep
                {| book_id := bid;
                   book_title := title b;
                   book_author := author b;
                   chapter_id :=
                     default ("ch_" ++ bid ++ "_" ++ py.format ch_num) (ch_id ch);
                   chapter_number := ch_num;
                   chapter_title := ch_title ch;
                   rationale := r |})
          end
      end
  | _ => Ok Discard
  end.

(** [for rec in ...]: the inner loop, with its counter [total_recs] and
    the list [recommendations] it appends to. *)
Fixpoint recs_loop (gate_now : outcome taxonomy_v2.TaxonomyGateV2)
    (books_by_id : gmap string book)
    (chapters_by_book : gmap string (list chapter))
    (recs : list json) (total_recs : nat)
    (recommendations : list ReadingRecommendation)
  : outcome (nat * list ReadingRecommendation) :=
  match recs with
  | [] => Ok (total_recs, recommendations)
  | rec :: recs' =>
      if (6 <=? total_recs)%nat then Ok (total_recs, recommendations)
      else
        v ← validate_rec gate_now books_by_id chapters_by_book rec;
        match v with
        | Discard =>
            recs_loop gate_now books_by_id chapters_by_book recs'
                      total_recs recommendations
        | Keep r =>
            recs_loop gate_now books_by_id chapters_by_book recs'
                      (S total_recs) (recommendations ++ [r])%list
        end
  end.

(** [for path_data in result.get("paths", [])]: the outer loop. *)
Fixpoint paths_loop (gate_now : outcome taxonomy_v2.TaxonomyGateV2)
    (books_by_id : gmap string book)
    (chapters_by_book : gmap string (list chapter))
    (path_items : list json) (path_count total_recs : nat)
    (paths : list ReadingPath) : outcome (list ReadingPath) :=
  match path_items with
  | [] => Ok paths
  | path_data :: rest =>
      if (4 <=? path_count)%nat then Ok paths
      else
        angle_v ← py.get path_data "angle" (JStr "Reading path");
        recs_v ← py.get path_data "recommendations" (JList []);
        recs ← py.iter recs_v;
        st ← recs_loop gate_now books_by_id chapters_by_book recs total_recs [];
        match snd st with
        | [] =>
            paths_loop gate_now books_by_id chapters_by_book rest
                       path_count (fst st) paths
        | _ :: _ =>
            a ← py.slice_prefix 100 angle_v;
            paths_loop gate_now books_by_id chapters_by_book rest
                       (S path_count) (fst st)
                       (paths ++ [ {| angle := a; recommendations := snd st |} ])%list
        end
  end.

(** [{b["id"]: b for b in candidate_books}] *)
Definition index_by_id (candidate_books : list book) : gmap string book :=
  foldl (fun m b => <[id b := b]> m) ∅ candidate_books.

(** The body of the [try] in [_llm_route]: the caller's
    [chapters_by_book] as the body left it (the gate's chapters are merged
    into that dict in place, and the handler passes it on), and the result
    or the exception the body ended with.  [proposer] is the outcome of
    [get_llm_provider().call(...)]: the parsed response, or what it
    raised; it is consulted only once the candidate books are known to be
    non-empty. *)
Definition _llm_route_try (gate_now : outcome taxonomy_v2.TaxonomyGateV2)
    (proposer : outcome json) (question domain : string) (subdomain : option string)
    (available_books : list book) (chapters_by_book : gmap string (list chapter))
  : gmap string (list chapter) * outcome RoutingResult :=
  match gate_now with
  | Raise e => (chapters_by_book, Raise e)
  | Ok gate =>
      let ids := domain_mapper.map_to_ids domain subdomain in
      let candidate_book_ids :=
        taxonomy_v2.get_candidate_books set_iter gate (fst ids) (snd ids) 12 in
      match candidate_book_ids with
      | [] =>
          (chapters_by_book,
           Ok (refusal ("No books mapped to " ++ domain ++ "/"
                         ++ py.str_or subdomain "general" ++ " in taxonomy")))
      | _ :: _ =>
          let candidate_chapters :=
            taxonomy_v2.get_candidate_chapters gate candidate_book_ids 8 in
          let chapters_by_book := merge_chapters candidate_chapters chapters_by_book in
          let candidate_books :=
            filter (fun b => id b ∈ candidate_book_ids) available_books in
          (chapters_by_book,
           match candidate_books with
           | [] => Ok (refusal "No candidate books available")
           | _ :: _ =>
               result ← proposer;
               let books_by_id := index_by_id candidate_books in
               paths_v ← py.get result "paths" (JList []);
               path_items ← py.iter paths_v;
               paths ← paths_loop gate_now books_by_id chapters_by_book
                                  path_items 0 0 [];
               match paths with
               | [] =>
                   Ok (refusal "Could not identify relevant reading for this question")
               | _ :: _ =>
                   Ok {| paths := paths; is_valid := true; refusal_reason := None |}
               end
           end)
      end
  end.

(** [_llm_route]: the [try] body under its two handlers. *)
Definition _llm_route (gate_now : outcome taxonomy_v2.TaxonomyGateV2)
    (proposer : outcome json) (question domain : string) (subdomain : option string)
    (available_books : list book) (chapters_by_book : gmap string (list chapter))
  : RoutingResult :=
  let body := _llm_route_try gate_now proposer question domain subdomain
                             available_books chapters_by_book in
  match snd body with
  | Ok result => result
  | Raise e =>
      if isinstance_ValueError e then refusal "Error processing routing request"
      else _mock_route question domain subdomain available_books (fst body)
  end.

(** [route]: [USE_MOCK_AGENTS] is the setting, [_cache] the cache
    module's singleton, [now_get] and [now_set] the clock readings of
    the cache's [get] and [set]. *)
Definition route (USE_MOCK_AGENTS : bool)
    (_cache : option routing_cache.RoutingCache)
    (gate_now : outcome taxonomy_v2.TaxonomyGateV2) (proposer : outcome json)
    (now_get now_set : Q)
    (question domain : string) (subdomain : option string)
    (available_books : list book)
    (chapters_by_book : option (gmap string (list chapter)))
  : RoutingResult * option routing_cache.RoutingCache :=
  let chapters := default ∅ chapters_by_book in
  if USE_MOCK_AGENTS then
    (_mock_route question domain subdomain available_books chapters, _cache)
  else
    let looked :=
      routing_cache.get sha256_hexdigest (fst (routing_cache.get_routing_cache _cache))
                        gate_now now_get question domain subdomain in
    match fst looked with
    | Some cached_result => (cached_result, Some (snd looked))
    | None =>
        let result := _llm_route gate_now proposer question domain subdomain
                                 available_books chapters in
        if is_valid result then
          (result,
           Some (routing_cache.set sha256_hexdigest (snd looked) gate_now now_set
                                   question domain subdomain result))
        else (result, Some (snd looked))
    end.

End router.

End reading_router.

(** ** [app/agents/llm_provider.py] *)

Module llm_provider.

(** [except (APITimeoutError, RateLimitError)] *)
Definition is_transient (e : exn) : bool :=
  match e with
  | APITimeoutError | RateLimitError => true
  | _ => false
  end.

Definition startswith (prefix s : string) : bool := String.prefix prefix s.

Definition endswith (suffix s : string) : bool :=
  let n := String.length s in
  let m := String.length suffix in
  (m <=? n)%nat && String.eqb (String.substring (n - m) m s) suffix.

(** [s[n:]] *)
Fixpoint drop_chars (n : nat) (s : string) : string :=
  match n, s with
  | O, _ => s
  | S n', String _ s' => drop_chars n' s'
  | S _, EmptyString => EmptyString
  end.

(** [s[:-n]] for a literal [n > 0]. *)
Definition drop_suffix (n : nat) (s : string) : string :=
  String.substring 0 (String.length s - n) s.

Record LLMProvider : Type := {
  api_key : string;
  max_retries : Z;
  timeout : Z
}.

(** [LLMProvider()]: the key comes from the settings; without one the
    constructor raises. *)
Definition __init__ (OPENAI_API_KEY : option string) : outcome LLMProvider :=
  match OPENAI_API_KEY with
  | Some key =>
      if String.eqb key "" then Raise ValueError
      else Ok {| api_key := key; max_retries := 3; timeout := 30 |}
  | None => Raise ValueError
  end.

(** The module-level singleton [_provider] and [get_llm_provider()]. *)
Definition get_llm_provider (OPENAI_API_KEY : option string)
    (_provider : option LLMProvider) : outcome LLMProvider * option LLMProvider :=
  match _provider with
  | Some p => (Ok p, Some p)
  | None =>
      match __init__ OPENAI_API_KEY with
      | Ok p => (Ok p, Some p)
      | Raise e => (Raise e, None)
      end
  end.

Section provider.

(** [json.loads] *)
Variable json_loads : string -> outcome json.

(** The [attempt]-th request: the text of the first choice of what
    [client.chat.completions.create(...)] returned, or what was raised on
    the way to it.  The usage log, which no result depends on, is left
    out. *)
Variable create : nat -> outcome string.

(** The parse of the reply, with one more try after the code fences
    are taken off. *)
Definition parse_json (content : string) : outcome json :=
  match json_loads content with
  | Raise JSONDecodeError =>
      let content_clean := py.strip content in
      let content_clean :=
        if startswith "```json" content_clean then drop_chars 7 content_clean
        else content_clean in
      let content_clean :=
        if startswith "```" content_clean then drop_chars 3 content_clean
        else content_clean in
      let content_clean :=
        if endswith "```" content_clean then drop_suffix 3 content_clean
        else content_clean in
      json_loads (py.strip content_clean)
  | r => r
  end.

(** The body of the [try] of one attempt. *)
Definition attempt_body (response_format : string) (attempt : nat) : outcome json :=
  content ← create attempt;
  if String.eqb response_format "json" then parse_json content
  else Ok (JDict [("text", JStr content)]).

(** The local [content] after the [attempt]-th request: the reply,
    when one came; what it was before, when the request raised. *)
Definition bind_content (content : option string) (attempt : nat) : option string :=
  match create attempt with
  | Ok reply => Some reply
  | Raise _ => content
  end.

(** [raise ValueError(f"LLM returned invalid JSON: {content[:200]}")]:
    with [content] still unbound, reading it raises instead. *)
Definition invalid_json_error (content : option string) : exn :=
  match content with
  | Some _ => ValueError
  | None => UnboundLocalError
  end.

(** [for attempt in range(self.max_retries)], with the local [content]
    and the seconds slept so far; falling out of the loop raises
    [Exception]. *)
Fixpoint call_from (max_retries : Z) (response_format : string)
    (attempts : list nat) (content : option string) (slept : list Z)
  : outcome json * list Z :=
  match attempts with
  | [] => (Raise OtherException, slept)
  | attempt :: rest =>
      let content := bind_content content attempt in
      match attempt_body response_format attempt with
      | Ok parsed => (Ok parsed, slept)
      | Raise e =>
          if is_transient e then
            if (Z.of_nat attempt <? max_retries - 1)%Z
            then call_from max_retries response_format rest content
                           (slept ++ [2 ^ Z.of_nat attempt]%Z)
            else (Raise e, slept)
          else
            match e with
            | APIError => (Raise e, slept)
            | JSONDecodeError => (Raise (invalid_json_error content), slept)
            | _ => (Raise e, slept)
            end
      end
  end.

Definition call (self : LLMProvider) (response_format : string)
  : outcome json * list Z :=
  call_from (max_retries self) response_format
            (seq 0 (Z.to_nat (max_retries self))) None [].

(** [get_llm_provider().call(..., response_format="json")], as the
    agents write it. *)
Definition provider_call (OPENAI_API_KEY : option string)
    (_provider : option LLMProvider) : outcome json :=
  provider ← fst (get_llm_provider OPENAI_API_KEY _provider);
  fst (call provider "json").

End provider.

Definition reset_llm_provider (_provider : option LLMProvider) : option LLMProvider :=
  None.

End llm_provider.

(** ** [app/services/agent_service.py] *)

Module agent_service.

Import contracts reading_router.

(** [IntentResult]; the confidence, a float, is carried as the
    rational it denotes. *)
Record IntentResult : Type := {
  domain : string;
  subdomain : option string;
  confidence : Q;
  is_valid : bool;
  refusal_reason : option string
}.

Record QuestionRouting : Type := {
  question : string;
  intent : IntentResult;
  paths : list ReadingPath;
  recommendations : list ReadingRecommendation;
  message : string
}.

Section service.

Variable sha256_hexdigest : string -> string.
Variable set_iter : gset string -> list string.

(** [CanonService.get_books_by_domain] and [CanonService.get_chapters]:
    what the database holds. *)
Variable get_books_by_domain : string -> list book.
Variable get_chapters : string -> list chapter.

(** [route_question]: [classified] is what
    [self.intent_classifier.classify(question)] returned; the other
    arguments are those of [ReadingRouter.route]. *)
Definition route_question (USE_MOCK_AGENTS : bool)
    (_cache : option routing_cache.RoutingCache)
    (gate_now : outcome taxonomy_v2.TaxonomyGateV2) (proposer : outcome json)
    (now_get now_set : Q)
    (classified : IntentResult) (question : string)
  : QuestionRouting * option routing_cache.RoutingCache :=
  let intent := classified in
  if negb (is_valid intent) then
    ({| question := question; intent := intent; paths := []; recommendations := [];
        message := py.str_or (refusal_reason intent)
                             "I couldn't understand your question." |},
     _cache)
  else
    let books := get_books_by_domain (domain intent) in
    match books with
    | [] =>
        ({| question := question; intent := intent; paths := []; recommendations := [];
            message := "No books available in " ++ domain intent
                         ++ " yet. You can request one." |},
         _cache)
    | _ :: _ =>
        let chapters_by_book :=
          foldl (fun m b => <[id b := get_chapters (id b)]> m) ∅
                (py.slice_to 10 books) in
        let routed :=
          route sha256_hexdigest set_iter USE_MOCK_AGENTS _cache gate_now proposer
                now_get now_set question (domain intent) (subdomain intent)
                books (Some chapters_by_book) in
        let routing := fst routed in
        match contracts.paths routing with
        | [] =>
            ({| question := question; intent := intent; paths := [];
                recommendations := [];
                message := "I found the domain but couldn't identify specific reading. Try browsing the library." |},
             snd routed)
        | _ :: _ =>
            ({| question := question; intent := intent;
                paths := contracts.paths routing;
                recommendations := all_recommendations routing;
                message := "" |},
             snd routed)
        end
    end.

End service.

End agent_service.

(** * Properties *)

(** ** Python slices *)

Lemma slice_to_nonneg {A} (n : Z) (l : list A) :
  (0 <= n)%Z -> py.slice_to n l = take (Z.to_nat n) l.
Proof.
  intros Hn. unfold py.slice_to.
  destruct (0 <=? n)%Z eqn:E; [reflexivity | lia].
Qed.

Lemma slice_to_length {A} (n : Z) (l : list A) :
  (0 <= n)%Z -> (Z.of_nat (length (py.slice_to n l)) <= n)%Z.
Proof.
  intros Hn. rewrite slice_to_nonneg by assumption.
  rewrite length_take. lia.
Qed.

Lemma slice_to_subseteq {A} (n : Z) (l : list A) x :
  x ∈ py.slice_to n l -> x ∈ l.
Proof.
  unfold py.slice_to. destruct (0 <=? n)%Z; intros H;
    apply list_elem_of_lookup in H as [i Hi];
    apply lookup_take_Some in Hi as [Hi _];
    apply list_elem_of_lookup; eauto.
Qed.

(** A negative bound: the last [-n] items are dropped. *)
Lemma slice_to_neg {A} (n : Z) (l : list A) :
  (n < 0)%Z -> py.slice_to n l = take (length l - Z.to_nat (- n)) l.
Proof.
  intros Hn. unfold py.slice_to.
  destruct (0 <=? n)%Z eqn:E; [apply Z.leb_le in E; lia|].
  f_equal. lia.
Qed.

Lemma slice_to_sublist {A} (n : Z) (l : list A) : py.slice_to n l `sublist_of` l.
Proof. unfold py.slice_to. destruct (0 <=? n)%Z; apply sublist_take. Qed.

(** A negative bound drops from the end instead of capping the length. *)
Example slice_to_negative : py.slice_to (-1) ["a"; "b"; "c"] = ["a"; "b"].
Proof. reflexivity. Qed.

(** ** The gate's indexes *)

(** [set_iter] enumerates a set: each member once, in some order. *)
Definition enumerates (set_iter : gset string -> list string) : Prop :=
  forall X, set_iter X ≡ₚ elements X.

Lemma enumerates_elem_of set_iter (H : enumerates set_iter) X x :
  x ∈ set_iter X <-> x ∈ X.
Proof. rewrite (H X). apply elem_of_elements. Qed.

Lemma enumerates_NoDup set_iter (H : enumerates set_iter) X : NoDup (set_iter X).
Proof. rewrite (H X). apply NoDup_elements. Qed.

Lemma enumerates_length set_iter (H : enumerates set_iter) X :
  length (set_iter X) = size X.
Proof. rewrite (H X). reflexivity. Qed.

Lemma enumerates_empty set_iter (H : enumerates set_iter) : set_iter ∅ = [].
Proof.
  apply Permutation_nil_r. rewrite (H ∅). rewrite elements_empty. reflexivity.
Qed.

Section tag_index.

Import taxonomy_v2.

Variable tags_of : book_entry -> list string.

(** The books carrying a tag, read off the book list itself. *)
Definition tagged_with (books : list book_entry) (tag : string) : gset string :=
  list_to_set (book_id <$> filter (fun b => tag ∈ tags_of b) books).

Definition tag_index (books : list book_entry) (m : gmap string (gset string))
  : gmap string (gset string) :=
  foldl (fun m book => add_tags (tags_of book) (book_id book) m) m books.

Lemma add_tags_lookup tags bid (m : gmap string (gset string)) tag :
  add_tags tags bid m !! tag =
    if decide (tag ∈ tags) then Some (default ∅ (m !! tag) ∪ {[bid]}) else m !! tag.
Proof.
  unfold add_tags. revert m. induction tags as [|t tags IH]; intros m; simpl.
  - destruct (decide (tag ∈ [])) as [H|H]; [inversion H | reflexivity].
  - rewrite IH. destruct (decide (t = tag)) as [->|Hne].
    + rewrite lookup_insert_eq. simpl.
      destruct (decide (tag ∈ tags)) as [Hin|Hnin].
      * rewrite decide_True by (apply elem_of_cons; auto).
        f_equal. set_solver.
      * rewrite decide_True by (apply elem_of_cons; auto). reflexivity.
    + rewrite lookup_insert_ne by assumption.
      destruct (decide (tag ∈ tags)) as [Hin|Hnin].
      * rewrite decide_True by (apply elem_of_cons; auto). reflexivity.
      * rewrite decide_False; [reflexivity|].
        intros [?|?]%elem_of_cons; congruence.
Qed.

Lemma tag_index_lookup books (m : gmap string (gset string)) tag :
  default ∅ (tag_index books m !! tag) = default ∅ (m !! tag) ∪ tagged_with books tag
  /\ (is_Some (tag_index books m !! tag) <->
      is_Some (m !! tag) \/ exists b, b ∈ books /\ tag ∈ tags_of b).
Proof.
  unfold tag_index, tagged_with. revert m.
  induction books as [|b books IH]; intros m; simpl.
  - split; [set_solver|]. split; [auto|]. intros [H|(b & Hb & _)]; [done|inversion Hb].
  - destruct (IH (add_tags (tags_of b) (book_id b) m)) as [IH1 IH2].
    rewrite IH1, IH2. rewrite add_tags_lookup. rewrite filter_cons.
    destruct (decide (tag ∈ tags_of b)) as [Hin|Hnin]; simpl.
    + split; [set_solver|]. split.
      * intros _. right. exists b. split; [left|assumption].
      * intros _. left. eauto.
    + split; [reflexivity|]. split.
      * intros [H|(b' & Hb' & Ht)]; [auto|]. right. exists b'. split; [by right|done].
      * intros [H|(b' & Hb' & Ht)]; [auto|].
        apply elem_of_cons in Hb' as [->|Hb']; [done|]. right. eauto.
Qed.

(** A key of the index maps to exactly the books carrying the tag, and
    a tag no book carries is not a key. *)
Lemma tag_index_spec books tag :
  match tag_index books ∅ !! tag with
  | Some X => X = tagged_with books tag
  | None => tagged_with books tag = ∅
  end.
Proof.
  destruct (tag_index_lookup books ∅ tag) as [H1 H2].
  rewrite lookup_empty in H1, H2. simpl in H1.
  destruct (tag_index books ∅ !! tag) as [X|] eqn:E; simpl in H1.
  - rewrite H1. set_solver.
  - symmetry. rewrite H1. set_solver.
Qed.

Lemma elem_of_tagged_with books tag x :
  x ∈ tagged_with books tag <-> exists b, b ∈ books /\ book_id b = x /\ tag ∈ tags_of b.
Proof.
  unfold tagged_with. rewrite elem_of_list_to_set, list_elem_of_fmap.
  split.
  - intros (b & -> & Hb). apply list_elem_of_filter in Hb as [? ?]. eauto.
  - intros (b & Hb & <- & Ht). exists b. split; [reflexivity|].
    apply list_elem_of_filter. auto.
Qed.

End tag_index.

Section gate_properties.

Import taxonomy_v2.

Lemma index_books_by_id_lookup books x :
  is_Some (index_books_by_id books !! x) <-> exists b, b ∈ books /\ book_id b = x.
Proof.
  unfold index_books_by_id.
  assert (G : forall (m : gmap string book_entry),
    is_Some (foldl (fun m book => <[book_id book := book]> m) m books !! x) <->
    is_Some (m !! x) \/ exists b, b ∈ books /\ book_id b = x).
  { induction books as [|b books IH]; intros m; simpl.
    - split; [auto|]. intros [H|(b & Hb & _)]; [done|inversion Hb].
    - rewrite IH. rewrite lookup_insert. split.
      + intros [H|(b' & Hb' & Hx)].
        * destruct (decide (book_id b = x)) as [Heq|Hne]; [|auto].
          right. exists b. split; [left|done].
        * right. exists b'. split; [by right|done].
      + intros [H|(b' & Hb' & Hx)].
        * left. destruct (decide (book_id b = x)); [eauto|done].
        * apply elem_of_cons in Hb' as [->|Hb'].
          -- left. rewrite decide_True by done. eauto.
          -- right. eauto. }
  rewrite G, lookup_empty. split.
  - intros [H|H]; [by destruct H|done].
  - auto.
Qed.

(** A gate is [loaded] when its indexes are the ones [_load_artifacts]
    builds from its own book and chapter lists. *)
Definition loaded (gate : TaxonomyGateV2) : Prop :=
  artifacts gate =
    build_indexes (taxonomy (artifacts gate)) (book_index (artifacts gate))
                  (chapter_index (artifacts gate)).

Lemma init_loaded dir v gate : __init__ dir v = Ok gate -> loaded gate.
Proof.
  unfold __init__, _load_artifacts, loaded. intros H.
  destruct (match v with
            | Some n => if (n =? 0)%Z then _find_latest_version dir else Ok n
            | None => _find_latest_version dir
            end) as [v'|e]; simpl in H; [|discriminate].
  destruct (taxonomy_file dir) as [tax|]; simpl in H; [|discriminate].
  destruct (book_index_files dir !! v') as [books|]; simpl in H; [|discriminate].
  destruct (chapter_index_files dir !! v') as [chapters|]; simpl in H; [|discriminate].
  inversion H; subst; reflexivity.
Qed.

(** The set [get_candidate_books] collects before it makes a list of it. *)
Definition candidate_set (books : list book_entry) (domain_id : string)
    (subdomain_id : option string) : gset string :=
  match subdomain_id with
  | Some s => if String.eqb s "" then ∅ else tagged_with subdomain_ids books s
  | None => ∅
  end ∪ tagged_with domain_ids books domain_id.

Lemma get_candidate_books_loaded set_iter gate domain_id subdomain_id max_books :
  loaded gate ->
  get_candidate_books set_iter gate domain_id subdomain_id max_books =
    py.slice_to max_books
      (set_iter (candidate_set (book_index (artifacts gate)) domain_id subdomain_id)).
Proof.
  intros Hl. unfold get_candidate_books, candidate_set. rewrite Hl. simpl.
  set (books := book_index (artifacts gate)).
  f_equal. f_equal.
  pose proof (tag_index_spec domain_ids books domain_id) as Hd.
  unfold tag_index in Hd. unfold index_books_by_domain.
  assert (Hs : forall s,
    match index_books_by_subdomain books !! s with
    | Some X => (∅ : gset string) ∪ X
    | None => ∅
    end = tagged_with subdomain_ids books s).
  { intros s. pose proof (tag_index_spec subdomain_ids books s) as Hs.
    unfold tag_index in Hs. unfold index_books_by_subdomain.
    destruct (foldl _ _ _ !! s); [subst; set_solver | done]. }
  destruct subdomain_id as [s|]; simpl.
  - destruct (String.eqb s "") eqn:E; simpl.
    + destruct (foldl _ _ _ !! domain_id); [subst; set_solver | set_solver].
    + rewrite Hs.
      destruct (foldl _ _ _ !! domain_id); [subst; set_solver | set_solver].
  - destruct (foldl _ _ _ !! domain_id); [subst; set_solver | set_solver].
Qed.

Lemma candidate_set_indexed books domain_id subdomain_id x :
  x ∈ candidate_set books domain_id subdomain_id ->
  is_Some (index_books_by_id books !! x).
Proof.
  unfold candidate_set. intros H. apply index_books_by_id_lookup.
  apply elem_of_union in H as [H|H].
  - destruct subdomain_id as [s|]; [|set_solver].
    destruct (String.eqb s ""); [set_solver|].
    apply elem_of_tagged_with in H as (b & ? & ? & ?). eauto.
  - apply elem_of_tagged_with in H as (b & ? & ? & ?). eauto.
Qed.

End gate_properties.

(** ** A small catalog, used to run the definitions *)

Module demo.

Import taxonomy_v2.

Definition meditations : book_entry :=
  {| book_id := "book_d9d95145167f"; title := "Meditations";
     author := "Marcus Aurelius";
     domain_ids := ["philosophy"]; subdomain_ids := ["stoicism"];
     is_public := true |}.

Definition art_of_war : book_entry :=
  {| book_id := "book_e500fb226315"; title := "The Art of War";
     author := "Sun Tzu";
     domain_ids := ["strategy"]; subdomain_ids := ["military"];
     is_public := true |}.

Definition laws_of_power : book_entry :=
  {| book_id := "book_062ae004ce4a"; title := "The 48 Laws of Power";
     author := "Robert Greene";
     domain_ids := ["strategy"; "psychology"]; subdomain_ids := ["power"];
     is_public := true |}.

(** A chapter as the artifact builder writes it: no ["id"] key. *)
Definition artifact_chapter (cid bid : string) (n : Z) (t : string) (a b : Z) : chapter :=
  {| ch_id := None; ch_chapter_id := Some cid; ch_book_id := bid; ch_number := n;
     ch_title := t; ch_start_offset := a; ch_end_offset := b;
     ch_word_count := Some ((b - a) `div` 5)%Z |}.

(** A chapter as [CanonService.get_chapters] returns it. *)
Definition canon_chapter (cid bid : string) (n : Z) (t : string) (a b : Z) : chapter :=
  {| ch_id := Some cid; ch_chapter_id := None; ch_book_id := bid; ch_number := n;
     ch_title := t; ch_start_offset := a; ch_end_offset := b;
     ch_word_count := None |}.

Definition chapters : list chapter :=
  [ artifact_chapter "ch_m1" "book_d9d95145167f" 1 "Book One" 0 1000;
    artifact_chapter "ch_m2" "book_d9d95145167f" 2 "Book Two" 1000 2500;
    artifact_chapter "ch_m3" "book_d9d95145167f" 3 "Book Three" 2500 4000;
    artifact_chapter "ch_w1" "book_e500fb226315" 1 "Laying Plans" 0 800 ].

Definition books : list book_entry := [ meditations; art_of_war; laws_of_power ].

Definition dir : artifacts_dir :=
  {| taxonomy_file := Some {| taxonomy_version := 1 |};
     book_index_files := {[ 1%Z := books ]};
     chapter_index_files := {[ 1%Z := chapters ]} |}.

Definition gate : TaxonomyGateV2 :=
  {| version := 1;
     artifacts := build_indexes {| taxonomy_version := 1 |} books chapters |}.

Lemma gate_init : __init__ dir None = Ok gate.
Proof. vm_compute. reflexivity. Qed.

Lemma elements_enumerates : enumerates elements.
Proof. intros X. reflexivity. Qed.

End demo.

(** ** The taxonomy gate: candidate books and chapters *)

Section gate_claims.

Import taxonomy_v2.

(** C9. Every id returned by [get_candidate_books] of a loaded gate is a
    key of the gate's book index ([validate_book_id] accepts it),
    whatever the bound; for a bound [max_books >= 0] the list has at most
    [max_books] ids; for a negative bound the slice drops the last
    [-max_books] candidates, so the list has that many ids fewer than
    there are candidates. *)
Theorem C9_candidate_books_in_book_index
    (set_iter : gset string -> list string) dir v gate
    domain_id subdomain_id (max_books : Z) :
  enumerates set_iter ->
  __init__ dir v = Ok gate ->
  let result := get_candidate_books set_iter gate domain_id subdomain_id max_books in
  let candidates :=
    candidate_set (book_index (artifacts gate)) domain_id subdomain_id in
  (forall x, x ∈ result -> validate_book_id gate x = true)
  /\ ((0 <= max_books)%Z -> (Z.of_nat (length result) <= max_books)%Z)
  /\ ((max_books < 0)%Z ->
      length result = size candidates - Z.to_nat (- max_books)).
Proof.
  intros Hiter Hinit result candidates. subst result candidates.
  apply init_loaded in Hinit.
  rewrite (get_candidate_books_loaded _ _ _ _ _ Hinit).
  split; [|split].
  - intros x Hx. apply slice_to_subseteq in Hx.
    apply (enumerates_elem_of _ Hiter) in Hx.
    apply candidate_set_indexed in Hx.
    unfold validate_book_id. rewrite Hinit. simpl.
    by apply bool_decide_eq_true.
  - intros Hmax. by apply slice_to_length.
  - intros Hneg. rewrite slice_to_neg by done.
    rewrite length_take, (enumerates_length _ Hiter). lia.
Qed.

Lemma get_taxonomy_gate_stable dir _gate :
  get_taxonomy_gate dir (snd (get_taxonomy_gate dir _gate)) = get_taxonomy_gate dir _gate.
Proof.
  unfold get_taxonomy_gate. destruct _gate as [g|]; simpl; [reflexivity|].
  destruct (__init__ dir None) eqn:E; simpl; reflexivity.
Qed.

(** C7. For a loaded gate, [get_candidate_books] lists, without
    repetition, books tagged with the subdomain or with the domain; for a
    bound [max_books >= 0] the list is the union cut to its first
    [max_books] ids, the whole union when it has no more than that; for a
    negative bound the slice drops the last [-max_books] ids of the union
    instead; with no subdomain, an empty one or one no book carries, the
    result is that of the domain alone; when neither tag has a book the
    result is the empty list; and a second call of the module-level
    function, with the same arguments and catalog, returns what the
    first returned. *)
Theorem C7_get_candidate_books_union
    (set_iter : gset string -> list string) dir v gate
    domain_id subdomain_id (max_books : Z) :
  enumerates set_iter ->
  __init__ dir v = Ok gate ->
  let books := book_index (artifacts gate) in
  let by_subdomain : gset string :=
    match subdomain_id with
    | Some s => if String.eqb s "" then ∅ else tagged_with subdomain_ids books s
    | None => ∅
    end in
  let by_domain := tagged_with domain_ids books domain_id in
  let result := get_candidate_books set_iter gate domain_id subdomain_id max_books in
  ((0 <= max_books)%Z ->
     result = take (Z.to_nat max_books) (set_iter (by_subdomain ∪ by_domain))
     /\ (Z.of_nat (length result) <= max_books)%Z
     /\ ((Z.of_nat (size (by_subdomain ∪ by_domain)) <= max_books)%Z ->
         forall x, x ∈ by_subdomain ∪ by_domain -> x ∈ result)
     /\ (by_subdomain = ∅ ->
         result = take (Z.to_nat max_books) (set_iter by_domain)))
  /\ ((max_books < 0)%Z ->
      result = take (size (by_subdomain ∪ by_domain) - Z.to_nat (- max_books))
                    (set_iter (by_subdomain ∪ by_domain)))
  /\ NoDup result
  /\ (forall x, x ∈ result -> x ∈ by_subdomain ∪ by_domain)
  /\ (by_subdomain = ∅ ->
      result = get_candidate_books set_iter gate domain_id None max_books)
  /\ (by_subdomain = ∅ -> by_domain = ∅ -> result = [])
  /\ (forall _gate,
        let first := module_get_candidate_books set_iter dir _gate
                       domain_id subdomain_id max_books in
        module_get_candidate_books set_iter dir (snd first)
          domain_id subdomain_id max_books = first).
Proof.
  intros Hiter Hinit books by_subdomain by_domain result.
  pose proof (init_loaded _ _ _ Hinit) as Hl.
  assert (Hres : result = py.slice_to max_books (set_iter (by_subdomain ∪ by_domain))).
  { subst result. by rewrite (get_candidate_books_loaded _ _ _ _ _ Hl). }
  split.
  { intros Hmax.
    assert (Htake : result
              = take (Z.to_nat max_books) (set_iter (by_subdomain ∪ by_domain))).
    { by rewrite Hres, slice_to_nonneg. }
    split; [exact Htake|]. split.
    { rewrite Hres. by apply slice_to_length. }
    split.
    - intros Hsize x Hx. rewrite Htake. rewrite take_ge.
      + by apply (enumerates_elem_of _ Hiter).
      + rewrite (enumerates_length _ Hiter). lia.
    - intros He. rewrite Htake, He. by rewrite (left_id_L ∅ (∪)). }
  split.
  { intros Hneg. rewrite Hres, slice_to_neg by done.
    by rewrite (enumerates_length _ Hiter). }
  split.
  { rewrite Hres. eapply sublist_NoDup; [|apply slice_to_sublist].
    by apply enumerates_NoDup. }
  split.
  { intros x Hx. rewrite Hres in Hx. apply slice_to_subseteq in Hx.
    by apply (enumerates_elem_of _ Hiter). }
  split.
  { intros He. subst result. rewrite !(get_candidate_books_loaded _ _ _ _ _ Hl).
    f_equal. f_equal. unfold candidate_set. fold books. fold by_subdomain.
    by rewrite He. }
  split.
  { intros He1 He2. rewrite Hres, He1, He2, (left_id_L ∅ (∪)).
    rewrite (enumerates_empty _ Hiter). unfold py.slice_to.
    by destruct (0 <=? max_books)%Z; rewrite take_nil. }
  intros _gate first. subst first. unfold module_get_candidate_books.
  cbv zeta. cbn [fst snd]. by rewrite get_taxonomy_gate_stable.
Qed.

Lemma get_candidate_chapters_lookup gate book_ids max_chapters_per_book x :
  get_candidate_chapters gate book_ids max_chapters_per_book !! x =
    if decide (x ∈ book_ids)
    then Some (py.slice_to max_chapters_per_book
                 (default [] (chapters_by_book (artifacts gate) !! x)))
    else None.
Proof.
  unfold get_candidate_chapters.
  set (f := fun (result : gmap string (list chapter)) (id : string) =>
              <[id := py.slice_to max_chapters_per_book
                        (default [] (chapters_by_book (artifacts gate) !! id))]> result).
  assert (G : forall (m : gmap string (list chapter)),
    foldl f m book_ids !! x =
      if decide (x ∈ book_ids)
      then Some (py.slice_to max_chapters_per_book
                   (default [] (chapters_by_book (artifacts gate) !! x)))
      else m !! x).
  { induction book_ids as [|b l IH]; intros m; cbn [foldl].
    - rewrite decide_False; [reflexivity | by intros H; inversion H].
    - rewrite IH. destruct (decide (x ∈ l)) as [Hin|Hnin].
      + rewrite decide_True by (by right). reflexivity.
      + unfold f at 1. destruct (decide (b = x)) as [->|Hne].
        * rewrite lookup_insert_eq. rewrite decide_True by left. reflexivity.
        * rewrite lookup_insert_ne by done.
          rewrite decide_False; [reflexivity|].
          intros [?|?]%elem_of_cons; congruence. }
  rewrite G. by rewrite lookup_empty.
Qed.

(** C10. [get_candidate_chapters] returns, for any gate, any list of
    book ids and any bound, a mapping whose keys are exactly the
    requested ids; each id maps to a slice of its book's chapters in the
    index, the empty list when the index has none for it; for a bound
    [max_chapters_per_book >= 0] the slice is the first
    [max_chapters_per_book] chapters and no list is longer than the
    bound; for a negative bound it is all but the last
    [-max_chapters_per_book] chapters. *)
Theorem C10_get_candidate_chapters_total gate (book_ids : list string)
    (max_chapters_per_book : Z) :
  let result := get_candidate_chapters gate book_ids max_chapters_per_book in
  let indexed := fun x => default [] (chapters_by_book (artifacts gate) !! x) in
  dom result = list_to_set book_ids
  /\ (forall x, x ∈ book_ids ->
        exists chapters,
          result !! x = Some chapters /\ chapters `sublist_of` indexed x)
  /\ ((0 <= max_chapters_per_book)%Z ->
      forall x, x ∈ book_ids ->
        exists chapters,
          result !! x = Some chapters
          /\ chapters = take (Z.to_nat max_chapters_per_book) (indexed x)
          /\ (Z.of_nat (length chapters) <= max_chapters_per_book)%Z)
  /\ ((max_chapters_per_book < 0)%Z ->
      forall x, x ∈ book_ids ->
        result !! x
        = Some (take (length (indexed x) - Z.to_nat (- max_chapters_per_book))
                     (indexed x)))
  /\ (forall x, x ∈ book_ids -> chapters_by_book (artifacts gate) !! x = None ->
        result !! x = Some [])
  /\ (forall x, x ∉ book_ids -> result !! x = None).
Proof.
  intros result indexed. subst result indexed. cbv beta.
  split.
  { apply set_eq. intros x. rewrite elem_of_dom, elem_of_list_to_set.
    rewrite get_candidate_chapters_lookup.
    destruct (decide (x ∈ book_ids)); split; intros H; try done.
    all: try by destruct H. }
  split.
  { intros x Hx. eexists. rewrite get_candidate_chapters_lookup.
    rewrite decide_True by done.
    split; [reflexivity|]. apply slice_to_sublist. }
  split.
  { intros Hmax x Hx. eexists. rewrite get_candidate_chapters_lookup.
    rewrite decide_True by done.
    split; [reflexivity|]. split; [by rewrite slice_to_nonneg|].
    by apply slice_to_length. }
  split.
  { intros Hneg x Hx. rewrite get_candidate_chapters_lookup.
    rewrite decide_True by done. by rewrite slice_to_neg. }
  split.
  { intros x Hx Hnone. rewrite get_candidate_chapters_lookup.
    rewrite decide_True by done. rewrite Hnone. simpl.
    unfold py.slice_to. by destruct (0 <=? max_chapters_per_book)%Z; rewrite take_nil. }
  intros x Hx. rewrite get_candidate_chapters_lookup.
  by rewrite decide_False.
Qed.

End gate_claims.

Lemma C9_witness :
  (forall x, x ∈ taxonomy_v2.get_candidate_books elements demo.gate
                   "philosophy" (Some "stoicism") 12 ->
             taxonomy_v2.validate_book_id demo.gate x = true)
  /\ (Z.of_nat (length (taxonomy_v2.get_candidate_books elements demo.gate
                          "philosophy" (Some "stoicism") 12)) <= 12)%Z.
Proof.
  destruct (C9_candidate_books_in_book_index elements demo.dir None demo.gate
              "philosophy" (Some "stoicism") 12) as (H1 & H2 & _).
  - intros X. reflexivity.
  - vm_compute. reflexivity.
  - split; [exact H1|]. apply H2. lia.
Defined.

(** C9 as stated fails for a negative bound: with [max_books = -1] the
    slice drops the last of the two strategy books and returns the other
    one, which is more than [max_books] ids. *)
Lemma C9_counterexample :
  let result := taxonomy_v2.get_candidate_books elements demo.gate "strategy" None (-1) in
  taxonomy_v2.__init__ demo.dir None = Ok demo.gate
  /\ length result = 1
  /\ ~ (Z.of_nat (length result) <= -1)%Z.
Proof.
  cbv zeta. split; [vm_compute; reflexivity|].
  assert (H : length (taxonomy_v2.get_candidate_books elements demo.gate
                        "strategy" None (-1)) = 1) by (vm_compute; reflexivity).
  split; [exact H|]. rewrite H. lia.
Qed.

Lemma C10_witness :
  dom (taxonomy_v2.get_candidate_chapters demo.gate
         ["book_d9d95145167f"; "book_unknown"] 2)
    = list_to_set ["book_d9d95145167f"; "book_unknown"]
  /\ taxonomy_v2.get_candidate_chapters demo.gate
         ["book_d9d95145167f"; "book_unknown"] 2 !! "book_unknown" = Some [].
Proof.
  destruct (C10_get_candidate_chapters_total demo.gate
              ["book_d9d95145167f"; "book_unknown"] 2)
    as (Hdom & _ & _ & _ & Hempty & _).
  split; [exact Hdom|].
  apply Hempty; [by right; left | vm_compute; reflexivity].
Defined.

(** C10 as stated fails for a negative bound: with
    [max_chapters_per_book = -1] the slice drops the last of the three
    chapters of Meditations and returns the other two, more than the
    bound. *)
Lemma C10_counterexample :
  exists chapters,
    taxonomy_v2.get_candidate_chapters demo.gate ["book_d9d95145167f"] (-1)
      !! "book_d9d95145167f" = Some chapters
    /\ length chapters = 2
    /\ ~ (Z.of_nat (length chapters) <= -1)%Z.
Proof.
  eexists. split; [vm_compute; reflexivity|]. split; [reflexivity|]. cbn. lia.
Qed.

Lemma C7_witness :
  taxonomy_v2.get_candidate_books elements demo.gate "strategy" (Some "military") 12
    = take 12 (elements
        (tagged_with taxonomy_v2.subdomain_ids demo.books "military"
         ∪ tagged_with taxonomy_v2.domain_ids demo.books "strategy"))
  /\ NoDup (taxonomy_v2.get_candidate_books elements demo.gate
              "strategy" (Some "military") 12).
Proof.
  destruct (C7_get_candidate_books_union elements demo.dir None demo.gate
              "strategy" (Some "military") 12) as (H1 & _ & H2 & _).
  - intros X. reflexivity.
  - vm_compute. reflexivity.
  - split; [|exact H2]. destruct H1 as [H1 _]; [lia|]. exact H1.
Defined.

(** C7 as stated fails for a negative bound: with [max_books = -1] the
    union of the books tagged "military" or "strategy" has two ids and the
    slice returns one of them: the list is not cut to [max_books] ids. *)
Lemma C7_counterexample :
  let result :=
    taxonomy_v2.get_candidate_books elements demo.gate "strategy" (Some "military") (-1) in
  let union :=
    tagged_with taxonomy_v2.subdomain_ids demo.books "military"
    ∪ tagged_with taxonomy_v2.domain_ids demo.books "strategy" in
  size union = 2
  /\ length result = 1
  /\ ~ (Z.of_nat (length result) <= -1)%Z
  /\ result <> take (Z.to_nat (-1)) (elements union).
Proof.
  cbv zeta.
  assert (H : length (taxonomy_v2.get_candidate_books elements demo.gate
                        "strategy" (Some "military") (-1)) = 1)
    by (vm_compute; reflexivity).
  split; [vm_compute; reflexivity|]. split; [exact H|]. split; [rewrite H; lia|].
  intros E. rewrite E in H. cbn in H. discriminate H.
Qed.

(** ** The hardcoded table (V1) *)

Section taxonomy_v1.

Variable set_iter : gset string -> list string.
Hypothesis set_iter_enumerates : enumerates set_iter.

(** The ids filed under a key of the V1 index. *)
Definition v1_filed (index : gmap string (list string)) (key : string) : gset string :=
  list_to_set (default [] (index !! key)).

(** The V1 lookup has the shape of the V2 one: the ids filed under the
    exact key united with the ids filed under the domain's wildcard key,
    listed without repetition and cut to [max_books]; with no subdomain,
    or one that has no key, the wildcard's ids alone; the empty list when
    neither key exists. *)
Lemma taxonomy_v1_candidates index domain subdomain (max_books : Z) :
  (0 <= max_books)%Z ->
  let exact : gset string :=
    match subdomain with
    | Some s => if String.eqb s "" then ∅ else v1_filed index (domain ++ "::" ++ s)
    | None => ∅
    end in
  let wildcard := v1_filed index (domain ++ "::*") in
  let result := taxonomy.get_candidate_books_in set_iter index domain subdomain max_books in
  result = take (Z.to_nat max_books) (set_iter (exact ∪ wildcard))
  /\ NoDup result
  /\ (forall x, x ∈ result -> x ∈ exact ∪ wildcard)
  /\ (exact = ∅ -> wildcard = ∅ -> result = []).
Proof.
  intros Hmax exact wildcard result.
  assert (Hres : result = take (Z.to_nat max_books) (set_iter (exact ∪ wildcard))).
  { subst result exact wildcard. unfold taxonomy.get_candidate_books_in, v1_filed.
    rewrite slice_to_nonneg by done. f_equal. f_equal.
    destruct subdomain as [s|]; [destruct (String.eqb s "")|]; cbn [negb];
      repeat match goal with
             | |- context [index !! ?k] => destruct (index !! k); cbn [default]
             end; set_solver. }
  split; [exact Hres|]. split.
  { rewrite Hres. eapply sublist_NoDup; [|apply sublist_take].
    by apply enumerates_NoDup. }
  split.
  { intros x Hx. rewrite Hres in Hx.
    apply (enumerates_elem_of _ set_iter_enumerates).
    eapply elem_of_sublist; [exact Hx | apply sublist_take]. }
  intros He Hw. rewrite Hres, He, Hw, (left_id_L ∅ (∪)).
  rewrite (enumerates_empty _ set_iter_enumerates). by rewrite take_nil.
Qed.

End taxonomy_v1.

Example taxonomy_v1_strategy :
  taxonomy.get_candidate_books elements "Strategy" (Some "Military Strategy") 12
    ≡ₚ ["book_e500fb226315"; "book_062ae004ce4a"].
Proof. vm_compute. apply Permutation_refl || apply perm_swap. Qed.

Example taxonomy_v1_unmapped :
  taxonomy.get_candidate_books elements "UnknownDomain" None 12 = [].
Proof. vm_compute. reflexivity. Qed.


(** ** The routing cache *)

Section cache_claims.

Import contracts routing_cache.

Variable sha256_hexdigest : string -> string.

#[local] Abbreviation get := (routing_cache.get sha256_hexdigest).
#[local] Abbreviation set := (routing_cache.set sha256_hexdigest).
#[local] Abbreviation _compute_cache_key :=
  (routing_cache._compute_cache_key sha256_hexdigest).

(** The key and the stored-version check read the gate through
    [get_taxonomy_version] only. *)
Lemma compute_cache_key_version g g' query domain subdomain :
  get_taxonomy_version g = get_taxonomy_version g' ->
  _compute_cache_key g query domain subdomain
    = _compute_cache_key g' query domain subdomain.
Proof. intros H. unfold routing_cache._compute_cache_key. by rewrite H. Qed.

Lemma get_version g g' self now query domain subdomain :
  get_taxonomy_version g = get_taxonomy_version g' ->
  get self g now query domain subdomain = get self g' now query domain subdomain.
Proof.
  intros H. unfold routing_cache.get.
  rewrite (compute_cache_key_version g g') by done. by rewrite H.
Qed.

Lemma set_version g g' self now query domain subdomain result :
  get_taxonomy_version g = get_taxonomy_version g' ->
  set self g now query domain subdomain result
    = set self g' now query domain subdomain result.
Proof.
  intros H. unfold routing_cache.set.
  rewrite (compute_cache_key_version g g') by done. by rewrite H.
Qed.

(** What [get] does right after [set] under the same version: a hit
    within the TTL (the hit counter goes up, the entry stays), a miss
    past it (the entry is evicted). *)
Lemma get_after_set self g g' (now_set now_get : Q)
    query domain subdomain result :
  get_taxonomy_version g' = get_taxonomy_version g ->
  let stored := set self g now_set query domain subdomain result in
  get stored g' now_get query domain subdomain =
    if Qle_bool (now_get - now_set) (inject_Z (ttl_seconds self))
    then (Some result,
          {| cache := cache stored; ttl_seconds := ttl_seconds self;
             hits := S (hits self); misses := misses self |})
    else (None,
          record_miss stored
            (delete (_compute_cache_key g query domain subdomain) (cache stored))).
Proof.
  intros Hv stored. subst stored.
  rewrite (get_version g' g) by done.
  unfold routing_cache.get, routing_cache.set. cbn [cache ttl_seconds hits misses].
  rewrite lookup_insert_eq. cbn [cached_at taxonomy_version routing_result].
  destruct (Qle_bool _ _); cbn [negb]; [|reflexivity].
  rewrite Z.eqb_refl. reflexivity.
Qed.

(** C8. [get] right after [set], for the same question, domain and
    subdomain, under the same version and within the TTL, returns the
    result that was stored. *)
Theorem C8_get_after_set_returns_stored self g g' (now_set now_get : Q)
    query domain subdomain result :
  get_taxonomy_version g' = get_taxonomy_version g ->
  Qle_bool (now_get - now_set) (inject_Z (ttl_seconds self)) = true ->
  fst (get (set self g now_set query domain subdomain result)
           g' now_get query domain subdomain) = Some result.
Proof.
  intros Hv Httl. rewrite get_after_set by done. by rewrite Httl.
Qed.

(** Every entry of the cache was stored under version [v]. *)
Definition stored_under (v : Z) (self : RoutingCache) : Prop :=
  forall k e, cache self !! k = Some e -> taxonomy_version e = v.

Lemma stored_under_set v self g now query domain subdomain result :
  stored_under v self -> get_taxonomy_version g = v ->
  stored_under v (set self g now query domain subdomain result).
Proof.
  intros Hs Hv k e. unfold routing_cache.set. cbn [cache].
  rewrite lookup_insert. destruct (decide _) as [_|_]; [|by apply Hs].
  intros [= <-]. exact Hv.
Qed.

Lemma stored_under_miss v self g now query domain subdomain :
  stored_under v self -> get_taxonomy_version g <> v ->
  fst (get self g now query domain subdomain) = None.
Proof.
  intros Hs Hv. unfold routing_cache.get.
  destruct (cache self !! _) as [e|] eqn:E; [|reflexivity].
  destruct (negb (Qle_bool _ _)); [reflexivity|].
  rewrite (Hs _ _ E).
  destruct (v =? get_taxonomy_version g)%Z eqn:E'; [|reflexivity].
  apply Z.eqb_eq in E'. congruence.
Qed.

(** C3 as the code has it.  The cache reads one version, the gate's
    artifact version (1 when the gate cannot be had): gates that agree on
    it are interchangeable for [get] and [set], whatever their
    taxonomy-definition versions, so a change of the taxonomy-definition
    version alone leaves a stored entry a hit; a change of the artifact
    version makes every entry stored under the old one a miss, whatever
    its age. *)
Theorem C3_artifact_version_invalidates (g g' : taxonomy_v2.TaxonomyGateV2)
    self (now_set now_get : Q) query domain subdomain result :
  get_taxonomy_version (Ok g) = taxonomy_v2.get_artifact_version g
  /\ (taxonomy_v2.get_artifact_version g' = taxonomy_v2.get_artifact_version g ->
      _compute_cache_key (Ok g') query domain subdomain
        = _compute_cache_key (Ok g) query domain subdomain
      /\ get self (Ok g') now_get query domain subdomain
           = get self (Ok g) now_get query domain subdomain
      /\ (Qle_bool (now_get - now_set) (inject_Z (ttl_seconds self)) = true ->
          fst (get (set self (Ok g) now_set query domain subdomain result)
                   (Ok g') now_get query domain subdomain) = Some result))
  /\ (taxonomy_v2.get_artifact_version g' <> taxonomy_v2.get_artifact_version g ->
      stored_under (taxonomy_v2.get_artifact_version g) self ->
      fst (get (set self (Ok g) now_set query domain subdomain result)
               (Ok g') now_get query domain subdomain) = None).
Proof.
  split; [reflexivity|]. split.
  - intros Hv. split; [by apply compute_cache_key_version|].
    split; [by apply get_version|].
    intros Httl. rewrite get_after_set by done. by rewrite Httl.
  - intros Hv Hs. apply (stored_under_miss (taxonomy_v2.get_artifact_version g)).
    + by apply stored_under_set.
    + exact Hv.
Qed.

End cache_claims.

Module demo_cache.

Import contracts routing_cache.

Definition stoic_result : RoutingResult :=
  {| paths :=
       [ {| angle := JStr "Stoic practice";
            recommendations :=
              [ {| book_id := "book_d9d95145167f"; book_title := "Meditations";
                   book_author := "Marcus Aurelius"; chapter_id := "ch_m2";
                   chapter_number := JInt 2; chapter_title := "Book Two";
                   rationale := JStr "On what is in our control" |} ] |} ];
     is_valid := true; refusal_reason := None |}.

(** The demo gate after its taxonomy definition went from version 1 to
    version 2: same books, same chapters, same artifact version. *)
Definition gate_taxonomy_v2 : taxonomy_v2.TaxonomyGateV2 :=
  {| taxonomy_v2.version := 1;
     taxonomy_v2.artifacts :=
       taxonomy_v2.build_indexes {| taxonomy_v2.taxonomy_version := 2 |}
                                 demo.books demo.chapters |}.

(** The demo gate after a rebuild of the artifacts: artifact version 2. *)
Definition gate_artifacts_v2 : taxonomy_v2.TaxonomyGateV2 :=
  {| taxonomy_v2.version := 2;
     taxonomy_v2.artifacts := taxonomy_v2.artifacts demo.gate |}.

Definition question : string := "How do I deal with things I can't control?".

(** A stand-in for the digest where a closed term is needed. *)
Definition plain_digest (s : string) : string := s.

End demo_cache.

Lemma C8_witness :
  fst (routing_cache.get demo_cache.plain_digest
         (routing_cache.set demo_cache.plain_digest (routing_cache.__init__ 3600)
            (Ok demo.gate) 1000 demo_cache.question "Philosophy" (Some "Stoicism")
            demo_cache.stoic_result)
         (Ok demo.gate) 1001 demo_cache.question "Philosophy" (Some "Stoicism"))
    = Some demo_cache.stoic_result.
Proof.
  apply (C8_get_after_set_returns_stored demo_cache.plain_digest
           (routing_cache.__init__ 3600) (Ok demo.gate) (Ok demo.gate) 1000 1001).
  - reflexivity.
  - vm_compute. reflexivity.
Defined.

(** C3 as stated fails: with the taxonomy-definition version incremented
    and nothing else changed, the entry stored before is still returned,
    whatever the digest function. *)
Lemma C3_counterexample :
  taxonomy_v2.get_taxonomy_version demo_cache.gate_taxonomy_v2
    = (taxonomy_v2.get_taxonomy_version demo.gate + 1)%Z
  /\ forall sha256_hexdigest,
       fst (routing_cache.get sha256_hexdigest
              (routing_cache.set sha256_hexdigest (routing_cache.__init__ 3600)
                 (Ok demo.gate) 1000 demo_cache.question "Philosophy" (Some "Stoicism")
                 demo_cache.stoic_result)
              (Ok demo_cache.gate_taxonomy_v2) 1001
              demo_cache.question "Philosophy" (Some "Stoicism"))
       = Some demo_cache.stoic_result.
Proof.
  split; [reflexivity|].
  intros sha. rewrite get_after_set by reflexivity. reflexivity.
Qed.

(** The artifact version does invalidate: the same entry is a miss one
    second later once the gate serves artifact version 2. *)
Example artifact_version_change_misses sha256_hexdigest :
  fst (routing_cache.get sha256_hexdigest
         (routing_cache.set sha256_hexdigest (routing_cache.__init__ 3600)
            (Ok demo.gate) 1000 demo_cache.question "Philosophy" (Some "Stoicism")
            demo_cache.stoic_result)
         (Ok demo_cache.gate_artifacts_v2) 1001
         demo_cache.question "Philosophy" (Some "Stoicism"))
    = None.
Proof.
  apply (stored_under_miss _ 1).
  - apply stored_under_set; [|reflexivity]. intros k e. cbn. by rewrite lookup_empty.
  - cbn. lia.
Qed.

(** ** The routing validator *)

Section validator.

Import contracts reading_router.

Variable set_iter : gset string -> list string.

Lemma eq_int_refl n : py.eq_int n (JInt n) = true.
Proof. apply Z.eqb_refl. Qed.

Lemma resolve_chapter_Some chapters ch_num ch v :
  resolve_chapter chapters ch_num = Some (ch, v) ->
  ch ∈ chapters /\ py.eq_int (ch_number ch) v = true.
Proof.
  unfold resolve_chapter.
  destruct (find _ chapters) as [c|] eqn:E.
  - intros [= -> ->]. apply find_some in E as [Hin Hp].
    split; [by apply list_elem_of_In | exact Hp].
  - destruct chapters as [|c l]; [discriminate|].
    intros [= -> <-]. split; [left | apply eq_int_refl].
Qed.

Lemma resolve_chapter_None chapters ch_num :
  resolve_chapter chapters ch_num = None <-> chapters = [].
Proof.
  unfold resolve_chapter. split.
  - destruct (find _ chapters); [discriminate|]. by destruct chapters.
  - intros ->. reflexivity.
Qed.

(** With no chapter of the proposed number, the first chapter is taken
    and its own number recorded. *)
Lemma resolve_chapter_fallback c chapters ch_num :
  (forall x, x ∈ c :: chapters -> py.eq_int (ch_number x) ch_num = false) ->
  resolve_chapter (c :: chapters) ch_num = Some (c, JInt (ch_number c)).
Proof.
  intros H. unfold resolve_chapter.
  destruct (find _ (c :: chapters)) as [x|] eqn:E; [|reflexivity].
  apply find_some in E as [Hin Hp]. apply list_elem_of_In in Hin.
  rewrite (H x Hin) in Hp. discriminate.
Qed.

(** What a kept recommendation is made of. *)
Definition grounded (gate : taxonomy_v2.TaxonomyGateV2)
    (books_by_id : gmap string book)
    (chapters_by_book : gmap string (list chapter))
    (r : ReadingRecommendation) : Prop :=
  exists b ch,
    books_by_id !! book_id r = Some b
    /\ taxonomy_v2.validate_book_id gate (book_id r) = true
    /\ book_title r = title b /\ book_author r = author b
    /\ ch ∈ default [] (chapters_by_book !! book_id r)
    /\ py.eq_int (ch_number ch) (chapter_number r) = true
    /\ chapter_title r = ch_title ch
    /\ chapter_id r =
         default ("ch_" ++ book_id r ++ "_" ++ py.format (chapter_number r)) (ch_id ch).

Lemma validate_rec_Keep gate_now books_by_id chapters_by_book rec r :
  validate_rec gate_now books_by_id chapters_by_book rec = Ok (Keep r) ->
  exists gate, gate_now = Ok gate /\ grounded gate books_by_id chapters_by_book r.
Proof.
  unfold validate_rec. destruct rec as [| | | |?|d]; try discriminate.
  cbn [py.get mbind outcome_bind].
  destruct (negb (py.truthy _)); [discriminate|].
  destruct (match py.assoc "book_id" d with Some x => x | None => JNull end)
    as [| | |bid| |]; cbn [dict_contains mbind outcome_bind negb]; try discriminate.
  destruct (bool_decide _); cbn [negb]; [|discriminate].
  destruct gate_now as [gate|e]; cbn [mbind outcome_bind]; [|discriminate].
  destruct (taxonomy_v2.validate_book_id gate bid) eqn:Hv; cbn [negb]; [|discriminate].
  destruct (books_by_id !! bid) as [b|] eqn:Hb; [|discriminate].
  destruct (resolve_chapter _ _) as [[ch ch_num]|] eqn:Hr; [|discriminate].
  destruct (py.slice_prefix 200 _) as [rat|e]; cbn [mbind outcome_bind]; [|discriminate].
  intros [= <-]. exists gate. split; [reflexivity|].
  apply resolve_chapter_Some in Hr as [Hin Heq].
  exists b, ch. cbn. auto 10.
Qed.

(** The inner loop only appends, counts what it appends, and stops at
    the total cap. *)
Lemma recs_loop_inv gate books_by_id chapters_by_book recs :
  forall total acc total' acc',
    recs_loop (Ok gate) books_by_id chapters_by_book recs total acc = Ok (total', acc') ->
    exists new,
      acc' = (acc ++ new)%list
      /\ total' = total + length new
      /\ Forall (grounded gate books_by_id chapters_by_book) new
      /\ (total <= 6 -> total' <= 6).
Proof.
  induction recs as [|rec recs IH]; intros total acc total' acc'; cbn [recs_loop].
  - intros [= <- <-]. exists []. rewrite app_nil_r. cbn. auto with lia.
  - destruct (6 <=? total)%nat eqn:E6.
    + intros [= <- <-]. exists []. rewrite app_nil_r. cbn. auto with lia.
    + apply Nat.leb_gt in E6.
      destruct (validate_rec _ _ _ rec) as [[r|]|e] eqn:Ev;
        cbn [mbind outcome_bind]; [| |discriminate].
      * intros H. apply IH in H as (new & -> & -> & Hall & Hb).
        apply validate_rec_Keep in Ev as (g & [= <-] & Hg).
        exists (r :: new). rewrite <- app_assoc. cbn.
        split; [reflexivity|]. split; [lia|]. split; [by constructor|lia].
      * intros H. apply IH in H as (new & -> & -> & Hall & Hb).
        exists new. auto.
Qed.

Definition total_recs_of (paths : list ReadingPath) : nat :=
  sum_list (map (fun p => length (recommendations p)) paths).

Lemma total_recs_of_app paths p :
  total_recs_of (paths ++ [p]) = total_recs_of paths + length (recommendations p).
Proof.
  unfold total_recs_of. induction paths as [|q paths IH]; cbn; [lia|].
  cbn in IH. rewrite IH. lia.
Qed.

(** A path the validator keeps: it has a recommendation, and all of its
    recommendations are grounded. *)
Definition path_ok (gate : taxonomy_v2.TaxonomyGateV2)
    (books_by_id : gmap string book)
    (chapters_by_book : gmap string (list chapter)) (p : ReadingPath) : Prop :=
  1 <= length (recommendations p)
  /\ Forall (grounded gate books_by_id chapters_by_book) (recommendations p).

Lemma paths_loop_inv gate books_by_id chapters_by_book path_items :
  forall path_count total paths paths',
    paths_loop (Ok gate) books_by_id chapters_by_book path_items
               path_count total paths = Ok paths' ->
    path_count = length paths ->
    total = total_recs_of paths ->
    path_count <= 4 -> total <= 6 ->
    Forall (path_ok gate books_by_id chapters_by_book) paths ->
    length paths' <= 4
    /\ total_recs_of paths' <= 6
    /\ Forall (path_ok gate books_by_id chapters_by_book) paths'
    /\ (1 <= length paths -> 1 <= length paths').
Proof.
  induction path_items as [|pd rest IH];
    intros path_count total paths paths'; cbn [paths_loop].
  - intros [= <-] -> -> ? ? ?. auto.
  - destruct (4 <=? path_count)%nat eqn:E4.
    { intros [= <-] -> -> ? ? ?. auto. }
    apply Nat.leb_gt in E4.
    destruct (py.get pd "angle" _) as [angle_v|]; cbn [mbind outcome_bind]; [|discriminate].
    destruct (py.get pd "recommendations" _) as [recs_v|];
      cbn [mbind outcome_bind]; [|discriminate].
    destruct (py.iter recs_v) as [recs|]; cbn [mbind outcome_bind]; [|discriminate].
    destruct (recs_loop _ _ _ recs total []) as [[total' new]|] eqn:Er;
      cbn [mbind outcome_bind fst snd]; [|discriminate].
    apply recs_loop_inv in Er as (new' & Hnew & -> & Hall & Hb).
    cbn in Hnew. subst new'.
    destruct new as [|r new].
    + intros H Hpc Ht H4 H6 Hok. cbn in H. rewrite Nat.add_0_r in H.
      by apply (IH _ _ _ _ H).
    + destruct (py.slice_prefix 100 angle_v) as [a|];
        cbn [mbind outcome_bind]; [|discriminate].
      intros H Hpc Ht H4 H6 Hok.
      apply IH in H as (? & ? & ? & Hge).
      * repeat split; try assumption. intros _. apply Hge.
        rewrite length_app. cbn. lia.
      * rewrite length_app. cbn. lia.
      * rewrite total_recs_of_app. cbn [recommendations]. lia.
      * lia.
      * auto.
      * apply Forall_app. split; [assumption|].
        constructor; [|constructor]. split; [cbn; lia | assumption].
Qed.

Lemma index_by_id_Some candidate_books x b :
  index_by_id candidate_books !! x = Some b -> b ∈ candidate_books /\ id b = x.
Proof.
  unfold index_by_id.
  assert (G : forall (m : gmap string book),
    foldl (fun m b => <[id b := b]> m) m candidate_books !! x = Some b ->
    m !! x = Some b \/ (b ∈ candidate_books /\ id b = x)).
  { induction candidate_books as [|c l IH]; intros m; cbn [foldl]; [auto|].
    intros H. apply IH in H as [H|[H1 H2]].
    - rewrite lookup_insert in H. destruct (decide (id c = x)) as [Heq|Hne]; [|auto].
      injection H as ->. right. split; [left|done].
    - right. split; [by right|done]. }
  intros H. apply G in H as [H|H]; [|exact H].
  by rewrite lookup_empty in H.
Qed.

Lemma merge_fold_lookup (l : list (string * list chapter)) x :
  forall (cbb : gmap string (list chapter)),
    NoDup l.*1 ->
    foldl (fun cbb item =>
             match cbb !! fst item with
             | Some (_ :: _) => cbb
             | _ => <[fst item := snd item]> cbb
             end) cbb l !! x =
      match cbb !! x with
      | Some (c :: t) => Some (c :: t)
      | o => match (list_to_map l : gmap string (list chapter)) !! x with
             | Some chapters => Some chapters
             | None => o
             end
      end.
Proof.
  induction l as [|[k v] l IH]; intros cbb Hnd; cbn [foldl fst snd].
  - rewrite list_to_map_nil, lookup_empty. by destruct (cbb !! x) as [[|? ?]|].
  - cbn in Hnd. apply NoDup_cons in Hnd as [Hk Hnd].
    rewrite (IH _ Hnd). rewrite list_to_map_cons.
    destruct (decide (k = x)) as [->|Hne].
    + rewrite lookup_insert_eq.
      rewrite (not_elem_of_list_to_map_1 _ _ Hk).
      destruct (cbb !! x) as [[|c t]|] eqn:E.
      * rewrite lookup_insert_eq. by destruct v.
      * rewrite E. reflexivity.
      * rewrite lookup_insert_eq. by destruct v.
    + rewrite (lookup_insert_ne (list_to_map l)) by done.
      assert (Hx : (match cbb !! k with
                    | Some (_ :: _) => cbb
                    | _ => <[k:=v]> cbb
                    end) !! x = cbb !! x).
      { destruct (cbb !! k) as [[|? ?]|]; try reflexivity;
          by rewrite lookup_insert_ne. }
      rewrite Hx. reflexivity.
Qed.

(** The caller's chapter list wins when it is non-empty; otherwise the
    gate's list for the book is put in its place. *)
Lemma merge_chapters_lookup (candidate_chapters chapters_by_book : gmap string (list chapter)) x :
  merge_chapters candidate_chapters chapters_by_book !! x =
    match chapters_by_book !! x with
    | Some (c :: l) => Some (c :: l)
    | o => match candidate_chapters !! x with
           | Some chapters => Some chapters
           | None => o
           end
    end.
Proof.
  unfold merge_chapters.
  rewrite merge_fold_lookup by apply NoDup_fst_map_to_list.
  by rewrite list_to_map_to_list.
Qed.

Lemma index_chapters_by_book_lookup chapters x ch :
  ch ∈ default [] (taxonomy_v2.index_chapters_by_book chapters !! x) <->
  ch ∈ chapters /\ ch_book_id ch = x.
Proof.
  unfold taxonomy_v2.index_chapters_by_book.
  assert (G : forall (m : gmap string (list chapter)),
    ch ∈ default [] (foldl (fun m c =>
            <[ch_book_id c := (default [] (m !! ch_book_id c) ++ [c])%list]> m)
            m chapters !! x) <->
    ch ∈ default [] (m !! x) \/ (ch ∈ chapters /\ ch_book_id ch = x)).
  { induction chapters as [|c l IH]; intros m; cbn [foldl].
    - split; [auto|]. intros [H|[H _]]; [done|inversion H].
    - rewrite IH. rewrite lookup_insert.
      destruct (decide (ch_book_id c = x)) as [Heq|Hne]; simpl.
      + rewrite Heq. rewrite elem_of_app, list_elem_of_singleton. split.
        * intros [[H| ->]|[H1 H2]]; [auto| |].
          -- right. split; [left|done].
          -- right. split; [by right|done].
        * intros [H|[H1 H2]]; [auto|].
          apply elem_of_cons in H1 as [->|H1]; auto.
      + split.
        * intros [H|[H1 H2]]; [auto|]. right. split; [by right|done].
        * intros [H|[H1 H2]]; [auto|].
          apply elem_of_cons in H1 as [->|H1]; [done|auto]. }
  rewrite G, lookup_empty. cbn. split; [intros [H|H]; [inversion H|done] | auto].
Qed.

(** ** The mock route *)

Definition mock_recommendation (b : book) (chapters_by_book : gmap string (list chapter))
    (mock_id : string) (r : ReadingRecommendation) : Prop :=
  book_id r = id b /\ book_title r = title b /\ book_author r = author b
  /\ match default [] (chapters_by_book !! id b) with
     | c :: _ =>
         chapter_id r = default mock_id (ch_id c)
         /\ chapter_number r = JInt (ch_number c)
         /\ chapter_title r = ch_title c
     | [] =>
         chapter_id r = mock_id /\ chapter_number r = JInt 1
         /\ chapter_title r = "Chapter 1"
     end.

Lemma mock_path_spec b chapters_by_book mock_id angle_text rationale_text :
  exists r,
    recommendations (mock_path b chapters_by_book mock_id angle_text rationale_text) = [r]
    /\ mock_recommendation b chapters_by_book mock_id r.
Proof.
  unfold mock_path, mock_recommendation, mock_chapter.
  destruct (default [] (chapters_by_book !! id b)) as [|c l]; cbn;
    eexists; (split; [reflexivity|]); cbn; repeat split.
Qed.

(** The mock route is a function of the first two available books and
    their first chapters: always valid, at most two paths with one
    recommendation each, and no path when no book is available. *)
Lemma mock_route_spec question domain subdomain available_books chapters_by_book :
  let r := _mock_route question domain subdomain available_books chapters_by_book in
  is_valid r = true
  /\ length (paths r) = length (take 2 available_books)
  /\ Forall (fun p => length (recommendations p) = 1) (paths r)
  /\ (forall rec, rec ∈ all_recommendations r ->
        exists b mock_id,
          b ∈ take 2 available_books
          /\ (mock_id = "ch_mock_1" \/ mock_id = "ch_mock_2")
          /\ mock_recommendation b chapters_by_book mock_id rec).
Proof.
  unfold _mock_route, all_recommendations.
  destruct available_books as [|b1 [|b2 rest]]; cbn [paths is_valid take length].
  - repeat split; [constructor|]. intros rec H. inversion H.
  - destruct (mock_path_spec b1 chapters_by_book "ch_mock_1" "Foundational understanding"
      "This text addresses the core concepts related to your question.") as (r1 & E1 & M1).
    repeat split.
    + constructor; [by rewrite E1|constructor].
    + intros rec H. cbn in H. rewrite E1 in H. cbn in H.
      apply list_elem_of_singleton in H as ->.
      exists b1, "ch_mock_1". split; [left|]. auto.
  - destruct (mock_path_spec b1 chapters_by_book "ch_mock_1" "Foundational understanding"
      "This text addresses the core concepts related to your question.") as (r1 & E1 & M1).
    destruct (mock_path_spec b2 chapters_by_book "ch_mock_2" "Alternative perspective"
      "A different approach to the same question.") as (r2 & E2 & M2).
    repeat split.
    + constructor; [by rewrite E1|]. constructor; [by rewrite E2|constructor].
    + intros rec H. cbn in H. rewrite E1, E2 in H. cbn in H.
      apply elem_of_cons in H as [->|H].
      * exists b1, "ch_mock_1". split; [left|]. auto.
      * apply list_elem_of_singleton in H as ->.
        exists b2, "ch_mock_2". split; [right; left|]. auto.
Qed.

(** ** The validation path of [_llm_route] *)

(** The books the proposer may name: available and among the gate's
    candidates. *)
Definition candidate_books_of (gate : taxonomy_v2.TaxonomyGateV2)
    (domain : string) (subdomain : option string) (available_books : list book)
  : list book :=
  let ids := domain_mapper.map_to_ids domain subdomain in
  filter (fun b => id b ∈ taxonomy_v2.get_candidate_books set_iter gate (fst ids) (snd ids) 12)
         available_books.

(** The chapter lists the validator resolves against. *)
Definition merged_chapters (gate : taxonomy_v2.TaxonomyGateV2)
    (domain : string) (subdomain : option string)
    (chapters_by_book : gmap string (list chapter)) : gmap string (list chapter) :=
  let ids := domain_mapper.map_to_ids domain subdomain in
  merge_chapters
    (taxonomy_v2.get_candidate_chapters gate
       (taxonomy_v2.get_candidate_books set_iter gate (fst ids) (snd ids) 12) 8)
    chapters_by_book.

(** What the [try] body returns when it returns: a refusal without
    paths, or a valid result within the caps whose recommendations are
    all grounded. *)
Lemma llm_route_try_Ok gate_now proposer question domain subdomain
    available_books chapters_by_book r :
  snd (_llm_route_try set_iter gate_now proposer question domain subdomain
                      available_books chapters_by_book) = Ok r ->
  (is_valid r = false /\ paths r = [])
  \/ (is_valid r = true
      /\ exists gate,
           gate_now = Ok gate
           /\ 1 <= length (paths r) <= 4
           /\ total_count r <= 6
           /\ Forall (path_ok gate
                 (index_by_id (candidate_books_of gate domain subdomain available_books))
                 (merged_chapters gate domain subdomain chapters_by_book))
                 (paths r)).
Proof.
  unfold _llm_route_try, candidate_books_of, merged_chapters.
  destruct gate_now as [gate|e]; [|discriminate].
  cbv zeta.
  destruct (taxonomy_v2.get_candidate_books _ _ _ _ _) as [|c0 cs] eqn:Ec;
    cbn [snd].
  { intros [= <-]. by left. }
  destruct (filter _ available_books) as [|b0 bs] eqn:Ef.
  { intros [= <-]. by left. }
  destruct proposer as [result|e]; cbn [mbind outcome_bind]; [|discriminate].
  destruct (py.get result "paths" _) as [paths_v|]; cbn [mbind outcome_bind]; [|discriminate].
  destruct (py.iter paths_v) as [items|]; cbn [mbind outcome_bind]; [|discriminate].
  destruct (paths_loop _ _ _ items 0 0 []) as [ps|] eqn:Ep;
    cbn [mbind outcome_bind]; [|discriminate].
  apply paths_loop_inv in Ep as (H4 & H6 & Hok & _);
    [|reflexivity|reflexivity|lia|lia|constructor].
  destruct ps as [|p ps].
  { intros [= <-]. by left. }
  intros [= <-]. right. split; [reflexivity|].
  exists gate. cbn [paths]. cbn [length] in *.
  split; [reflexivity|]. split; [lia|]. split; [exact H6|].
  rewrite Ec, Ef. exact Hok.
Qed.

(** A recommendation kept by the validator is about an available book
    that the gate lists as a candidate and has in its index, and it
    carries the number and title of one of that book's chapters: one of
    the caller's when the caller supplied any for the book, else one of
    the first eight the gate has for it. *)
Definition within_candidates (gate : taxonomy_v2.TaxonomyGateV2)
    (domain : string) (subdomain : option string) (available_books : list book)
    (chapters_by_book : gmap string (list chapter)) (r : ReadingRecommendation) : Prop :=
  let ids := domain_mapper.map_to_ids domain subdomain in
  book_id r ∈ taxonomy_v2.get_candidate_books set_iter gate (fst ids) (snd ids) 12
  /\ (exists b, b ∈ available_books /\ id b = book_id r
                /\ book_title r = title b /\ book_author r = author b)
  /\ taxonomy_v2.validate_book_id gate (book_id r) = true
  /\ exists ch,
       py.eq_int (ch_number ch) (chapter_number r) = true
       /\ chapter_title r = ch_title ch
       /\ match chapters_by_book !! book_id r with
          | Some (c :: l) => ch ∈ c :: l
          | _ => ch ∈ take 8 (default []
                   (taxonomy_v2.chapters_by_book (taxonomy_v2.artifacts gate)
                      !! book_id r))
          end.

Lemma grounded_within_candidates gate domain subdomain available_books
    chapters_by_book r :
  grounded gate
    (index_by_id (candidate_books_of gate domain subdomain available_books))
    (merged_chapters gate domain subdomain chapters_by_book) r ->
  within_candidates gate domain subdomain available_books chapters_by_book r.
Proof.
  intros (b & ch & Hb & Hv & Ht & Ha & Hch & Heq & Hti & _).
  apply index_by_id_Some in Hb as [Hb Hid].
  unfold candidate_books_of in Hb. cbv zeta in Hb.
  apply list_elem_of_filter in Hb as [Hc Hav]. rewrite Hid in Hc.
  unfold within_candidates. cbv zeta.
  split; [exact Hc|]. split; [by exists b|]. split; [exact Hv|].
  exists ch. split; [exact Heq|]. split; [exact Hti|].
  unfold merged_chapters in Hch. cbv zeta in Hch.
  rewrite merge_chapters_lookup in Hch.
  rewrite get_candidate_chapters_lookup in Hch.
  rewrite decide_True in Hch by exact Hc.
  rewrite slice_to_nonneg in Hch by lia.
  destruct (chapters_by_book !! book_id r) as [[|c l]|]; exact Hch.
Qed.

Lemma total_recs_of_singletons (ps : list ReadingPath) :
  Forall (fun p => length (recommendations p) = 1) ps ->
  total_recs_of ps = length ps.
Proof.
  unfold total_recs_of. induction 1 as [|p ps Hp _ IH]; cbn; [reflexivity|].
  cbn in IH. rewrite Hp, IH. reflexivity.
Qed.

(** C1 as the code has it.  A result that [_llm_route] returns with
    [is_valid = true] has at most 4 paths, at least one recommendation in
    each path and at most 6 recommendations in all.  Coming from the
    validation path it has at least one path; coming from the handler of
    an exception it is the mock route's result, which has as many paths
    as there are books among the first two available ones: none when no
    book is available. *)
Theorem C1_valid_result_caps gate_now proposer question domain subdomain
    available_books chapters_by_book :
  let body := _llm_route_try set_iter gate_now proposer question domain subdomain
                             available_books chapters_by_book in
  let r := _llm_route set_iter gate_now proposer question domain subdomain
                      available_books chapters_by_book in
  is_valid r = true ->
  length (paths r) <= 4
  /\ Forall (fun p => 1 <= length (recommendations p)) (paths r)
  /\ total_count r <= 6
  /\ match snd body with
     | Ok _ => 1 <= length (paths r)
     | Raise _ =>
         r = _mock_route question domain subdomain available_books (fst body)
         /\ length (paths r) = length (take 2 available_books)
         /\ Forall (fun p => length (recommendations p) = 1) (paths r)
     end.
Proof.
  intros body r. subst r. unfold _llm_route. fold body.
  destruct (snd body) as [r0|e] eqn:Eb.
  - intros Hv. apply llm_route_try_Ok in Eb as [[Hf _]|(_ & gate & _ & H14 & H6 & Hok)];
      [congruence|].
    split; [lia|]. split; [|split; [exact H6|lia]].
    eapply Forall_impl; [exact Hok|]. by intros p [? _].
  - destruct (isinstance_ValueError e); [discriminate|].
    intros _.
    destruct (mock_route_spec question domain subdomain available_books (fst body))
      as (_ & Hlen & Hone & _).
    assert (Hle : length (take 2 available_books) <= 2)
      by (rewrite length_take; lia).
    split; [lia|]. split.
    { eapply Forall_impl; [exact Hone|]. cbn. intros p ->. lia. }
    split.
    { change (total_recs_of (paths (_mock_route question domain subdomain
                                      available_books (fst body))) <= 6).
      rewrite total_recs_of_singletons by exact Hone. lia. }
    auto.
Qed.

(** C2 as the code has it.  A recommendation in a result of the
    validation path names an available book that the gate lists as a
    candidate and has in its index, and carries the number and title of
    a chapter in that book's chapter list.  A recommendation in a result
    made by the exception handler is the mock route's: it names one of
    the first two available books, whatever the gate says, with the
    book's first chapter, or the placeholder chapter 1 when the book has
    no chapter. *)
Theorem C2_recommendations_by_path gate_now proposer question domain subdomain
    available_books chapters_by_book rec :
  let body := _llm_route_try set_iter gate_now proposer question domain subdomain
                             available_books chapters_by_book in
  let r := _llm_route set_iter gate_now proposer question domain subdomain
                      available_books chapters_by_book in
  rec ∈ all_recommendations r ->
  match snd body with
  | Ok _ =>
      exists gate,
        gate_now = Ok gate
        /\ within_candidates gate domain subdomain available_books chapters_by_book rec
  | Raise _ =>
      exists b mock_id,
        b ∈ take 2 available_books
        /\ (mock_id = "ch_mock_1" \/ mock_id = "ch_mock_2")
        /\ mock_recommendation b (fst body) mock_id rec
  end.
Proof.
  intros body r. subst r. unfold _llm_route. fold body.
  destruct (snd body) as [r0|e] eqn:Eb.
  - intros Hin.
    apply llm_route_try_Ok in Eb as [[_ Hp]|(_ & gate & Hg & _ & _ & Hok)].
    { unfold all_recommendations in Hin. rewrite Hp in Hin. inversion Hin. }
    exists gate. split; [exact Hg|].
    apply grounded_within_candidates.
    unfold all_recommendations in Hin.
    apply list_elem_of_In, in_concat in Hin as (l & Hl & Hrec).
    apply in_map_iff in Hl as (p & <- & Hp).
    apply list_elem_of_In in Hp, Hrec.
    rewrite Forall_forall in Hok. destruct (Hok p Hp) as [_ Hall].
    rewrite Forall_forall in Hall. by apply Hall.
  - destruct (isinstance_ValueError e).
    { intros Hin. inversion Hin. }
    intros Hin.
    destruct (mock_route_spec question domain subdomain available_books (fst body))
      as (_ & _ & _ & Hrec).
    by apply Hrec.
Qed.

(** A chapter taken from a loaded gate is a chapter of the catalog,
    filed under the book it is recommended for. *)
Lemma gate_chapter_in_catalog gate x ch n :
  loaded gate ->
  ch ∈ take n (default []
         (taxonomy_v2.chapters_by_book (taxonomy_v2.artifacts gate) !! x)) ->
  ch ∈ taxonomy_v2.chapter_index (taxonomy_v2.artifacts gate) /\ ch_book_id ch = x.
Proof.
  intros Hl Hin. apply index_chapters_by_book_lookup.
  eapply elem_of_sublist in Hin; [|apply sublist_take].
  rewrite Hl in Hin. exact Hin.
Qed.

(** ** The handlers of [_llm_route] *)

(** C4 as the code has it.  Whatever exception ends the [try] body, be
    it raised while loading the gate, by the proposer or while reading
    its response, [_llm_route] returns a result: the refusal "Error
    processing routing request" for a [ValueError] (which is what the
    proposer raises for invalid JSON), and for any other exception the
    mock route's result, a function of the first two available books and
    their first chapters. *)
Theorem C4_exception_policy gate_now proposer question domain subdomain
    available_books chapters_by_book e :
  let body := _llm_route_try set_iter gate_now proposer question domain subdomain
                             available_books chapters_by_book in
  let r := _llm_route set_iter gate_now proposer question domain subdomain
                      available_books chapters_by_book in
  snd body = Raise e ->
  (isinstance_ValueError e = true ->
     r = refusal "Error processing routing request")
  /\ (isinstance_ValueError e = false ->
      r = _mock_route question domain subdomain available_books (fst body)
      /\ is_valid r = true
      /\ length (paths r) = length (take 2 available_books)
      /\ Forall (fun p => length (recommendations p) = 1) (paths r)).
Proof.
  intros body r Hb. subst r. unfold _llm_route. fold body. rewrite Hb.
  split; intros ->; [reflexivity|].
  destruct (mock_route_spec question domain subdomain available_books (fst body))
    as (Hv & Hlen & Hone & _).
  auto.
Qed.

Lemma filter_no_candidates (available_books : list book) :
  filter (fun b => id b ∈ ([] : list string)) available_books = [].
Proof.
  induction available_books as [|b l IH]; [reflexivity|].
  rewrite filter_cons. destruct (decide (id b ∈ [])) as [H|_]; [inversion H|exact IH].
Qed.

(** Where the exceptions come from. *)
Lemma gate_failure_reaches_handler e proposer question domain subdomain
    available_books chapters_by_book :
  _llm_route_try set_iter (Raise e) proposer question domain subdomain
                 available_books chapters_by_book
    = (chapters_by_book, Raise e).
Proof. reflexivity. Qed.

Lemma proposer_failure_reaches_handler gate e question domain subdomain
    available_books chapters_by_book :
  candidate_books_of gate domain subdomain available_books <> [] ->
  _llm_route_try set_iter (Ok gate) (Raise e) question domain subdomain
                 available_books chapters_by_book
    = (merged_chapters gate domain subdomain chapters_by_book, Raise e).
Proof.
  unfold candidate_books_of, merged_chapters, _llm_route_try. cbv zeta.
  intros Hne.
  destruct (taxonomy_v2.get_candidate_books _ _ _ _ _) as [|c0 cs].
  - by rewrite filter_no_candidates in Hne.
  - destruct (filter _ available_books); [done|]. reflexivity.
Qed.

(** A response that is not a JSON object makes [result.get] fail. *)
Lemma malformed_response_reaches_handler gate result question domain subdomain
    available_books chapters_by_book :
  candidate_books_of gate domain subdomain available_books <> [] ->
  (forall d, result <> JDict d) ->
  snd (_llm_route_try set_iter (Ok gate) (Ok result) question domain subdomain
                      available_books chapters_by_book)
    = Raise AttributeError.
Proof.
  unfold candidate_books_of, _llm_route_try. cbv zeta.
  intros Hne Hd.
  destruct (taxonomy_v2.get_candidate_books _ _ _ _ _) as [|c0 cs].
  - by rewrite filter_no_candidates in Hne.
  - destruct (filter _ available_books); [done|]. cbn [snd mbind outcome_bind].
    destruct result; try reflexivity. by destruct (Hd d).
Qed.

(** ** Chapter resolution *)

(** C5. A proposed recommendation for a candidate book (available, and
    in the gate's index), whose chapter number no chapter of the book
    has: when the book has chapters the validator keeps the
    recommendation and points it at the first of them, with that
    chapter's number and title, so the loop over this one proposal ends
    with one more recommendation, that one; when the book has no chapter
    the validator discards the proposal and the loop ends with what it
    had. *)
Theorem C5_missing_chapter_falls_back gate books_by_id chapters_by_book
    (d : list (string * json)) bid b total acc :
  total < 6 ->
  py.assoc "book_id" d = Some (JStr bid) -> bid <> "" ->
  books_by_id !! bid = Some b ->
  taxonomy_v2.validate_book_id gate bid = true ->
  let chapters := default [] (chapters_by_book !! bid) in
  let ch_num := default (JInt 1) (py.assoc "chapter_number" d) in
  (forall x, x ∈ chapters -> py.eq_int (ch_number x) ch_num = false) ->
  (forall first rest rat,
     chapters = first :: rest ->
     py.slice_prefix 200
       (default (JStr "Relevant to your question") (py.assoc "rationale" d)) = Ok rat ->
     let kept :=
       {| book_id := bid;
          book_title := title b;
          book_author := author b;
          chapter_id :=
            default ("ch_" ++ bid ++ "_" ++ py.str_of_int (ch_number first))%string
                    (ch_id first);
          chapter_number := JInt (ch_number first);
          chapter_title := ch_title first;
          rationale := rat |} in
     validate_rec (Ok gate) books_by_id chapters_by_book (JDict d) = Ok (Keep kept)
     /\ recs_loop (Ok gate) books_by_id chapters_by_book [JDict d] total acc
        = Ok (S total, (acc ++ [kept])%list)
     /\ forall recs,
          recs_loop (Ok gate) books_by_id chapters_by_book (JDict d :: recs) total acc
          = recs_loop (Ok gate) books_by_id chapters_by_book recs (S total)
                      (acc ++ [kept])%list)
  /\ (chapters = [] ->
      validate_rec (Ok gate) books_by_id chapters_by_book (JDict d) = Ok Discard
      /\ recs_loop (Ok gate) books_by_id chapters_by_book [JDict d] total acc
         = Ok (total, acc)
      /\ forall recs,
           recs_loop (Ok gate) books_by_id chapters_by_book (JDict d :: recs) total acc
           = recs_loop (Ok gate) books_by_id chapters_by_book recs total acc).
Proof.
  intros Ht Hb Hne Hbook Hv chapters ch_num Hno.
  assert (E6 : (6 <=? total)%nat = false) by (apply Nat.leb_gt; lia).
  assert (Hs : String.eqb bid "" = false) by (by apply String.eqb_neq).
  assert (Hval : forall res,
    resolve_chapter chapters ch_num = res ->
    validate_rec (Ok gate) books_by_id chapters_by_book (JDict d) =
      match res with
      | None => Ok Discard
      | Some (ch, n) =>
          r ← py.slice_prefix 200
                (default (JStr "Relevant to your question") (py.assoc "rationale" d));
          Ok (Keep {| book_id := bid;
                      book_title := title b;
                      book_author := author b;
                      chapter_id := default ("ch_" ++ bid ++ "_" ++ py.format n) (ch_id ch);
                      chapter_number := n;
                      chapter_title := ch_title ch;
                      rationale := r |})
      end).
  { intros res <-. unfold validate_rec. cbn [py.get mbind outcome_bind].
    rewrite Hb. cbn [py.truthy]. rewrite Hs. cbn [negb dict_contains mbind outcome_bind].
    rewrite bool_decide_eq_true_2 by (rewrite Hbook; eauto).
    cbn [negb]. rewrite Hv. cbn [negb]. rewrite Hbook.
    subst chapters ch_num.
    by destruct (py.assoc "chapter_number" d), (py.assoc "rationale" d). }
  split.
  - intros first rest rat Ech Hrat kept.
    assert (Hkeep : validate_rec (Ok gate) books_by_id chapters_by_book (JDict d)
                    = Ok (Keep kept)).
    { rewrite (Hval (Some (first, JInt (ch_number first)))).
      + rewrite Hrat. reflexivity.
      + rewrite Ech. apply resolve_chapter_fallback. by rewrite <- Ech. }
    split; [exact Hkeep|]. split.
    + cbn [recs_loop]. rewrite E6, Hkeep. reflexivity.
    + intros recs. cbn [recs_loop]. rewrite E6, Hkeep. reflexivity.
  - intros Ech.
    assert (Hdrop : validate_rec (Ok gate) books_by_id chapters_by_book (JDict d)
                    = Ok Discard).
    { rewrite (Hval None); [reflexivity|]. by rewrite Ech. }
    split; [exact Hdrop|]. split.
    + cbn [recs_loop]. rewrite E6, Hdrop. reflexivity.
    + intros recs. cbn [recs_loop]. rewrite E6, Hdrop. reflexivity.
Qed.

(** ** The refusal for an unmapped domain *)

Variable sha256_hexdigest : string -> string.

(** C6. When the gate has no candidate book for the domain and
    subdomain, [_llm_route] returns, whatever the proposer would say,
    the refusal that names them: [is_valid = false], no path, a
    non-empty reason; and so does [route] outside mock mode on a cache
    miss, leaving the cache as the lookup left it. *)
Theorem C6_unmapped_domain_refused gate proposer question domain subdomain
    available_books chapters_by_book :
  let ids := domain_mapper.map_to_ids domain subdomain in
  taxonomy_v2.get_candidate_books set_iter gate (fst ids) (snd ids) 12 = [] ->
  let reason := "No books mapped to " ++ domain ++ "/"
                  ++ py.str_or subdomain "general" ++ " in taxonomy" in
  let refused := {| paths := []; is_valid := false; refusal_reason := Some reason |} in
  _llm_route set_iter (Ok gate) proposer question domain subdomain
             available_books chapters_by_book = refused
  /\ reason <> ""
  /\ forall _cache now_get now_set chapters,
       let looked :=
         routing_cache.get sha256_hexdigest
           (fst (routing_cache.get_routing_cache _cache))
           (Ok gate) now_get question domain subdomain in
       fst looked = None ->
       route sha256_hexdigest set_iter false _cache (Ok gate) proposer
             now_get now_set question domain subdomain available_books chapters
         = (refused, Some (snd looked)).
Proof.
  intros ids Hc reason refused.
  assert (Hr : forall cbb,
    _llm_route set_iter (Ok gate) proposer question domain subdomain
               available_books cbb = refused).
  { intros cbb. unfold _llm_route, _llm_route_try. fold ids. rewrite Hc. reflexivity. }
  split; [apply Hr|]. split; [discriminate|].
  intros _cache now_get now_set chapters looked Hmiss.
  unfold route. cbv zeta. fold looked. rewrite Hmiss, Hr. reflexivity.
Qed.

(** ** The caps along [route] *)

(** The caps every valid result respects. *)
Definition capped (r : RoutingResult) : Prop :=
  is_valid r = true ->
  length (paths r) <= 4
  /\ Forall (fun p => 1 <= length (recommendations p)) (paths r)
  /\ total_count r <= 6.

Definition cache_capped (_cache : option routing_cache.RoutingCache) : Prop :=
  forall c k e,
    _cache = Some c -> routing_cache.cache c !! k = Some e ->
    capped (routing_cache.routing_result e).

Lemma llm_route_capped gate_now proposer question domain subdomain
    available_books chapters_by_book :
  capped (_llm_route set_iter gate_now proposer question domain subdomain
                     available_books chapters_by_book).
Proof.
  unfold capped, _llm_route.
  destruct (snd (_llm_route_try _ _ _ _ _ _ _ _)) as [r0|e] eqn:Eb.
  - intros Hv.
    apply llm_route_try_Ok in Eb as [[Hf _]|(_ & gate & _ & H14 & H6 & Hok)];
      [congruence|].
    split; [lia|]. split; [|exact H6].
    eapply Forall_impl; [exact Hok|]. by intros p [? _].
  - destruct (isinstance_ValueError e); [discriminate|]. intros _.
    match goal with
    | |- context [_mock_route ?q ?d ?s ?a ?c] =>
        destruct (mock_route_spec q d s a c) as (_ & Hlen & Hone & _)
    end.
    assert (Hle : length (take 2 available_books) <= 2) by (rewrite length_take; lia).
    split; [lia|]. split.
    + eapply Forall_impl; [exact Hone|]. cbn. intros p ->. lia.
    + unfold total_count. fold (total_recs_of (paths (_mock_route question domain subdomain
        available_books (fst (_llm_route_try set_iter gate_now proposer question domain
        subdomain available_books chapters_by_book))))).
      rewrite total_recs_of_singletons by exact Hone. lia.
Qed.

Lemma mock_route_capped question domain subdomain available_books chapters_by_book :
  capped (_mock_route question domain subdomain available_books chapters_by_book).
Proof.
  intros _.
  destruct (mock_route_spec question domain subdomain available_books chapters_by_book)
    as (_ & Hlen & Hone & _).
  assert (Hle : length (take 2 available_books) <= 2) by (rewrite length_take; lia).
  split; [lia|]. split.
  - eapply Forall_impl; [exact Hone|]. cbn. intros p ->. lia.
  - unfold total_count.
    fold (total_recs_of (paths (_mock_route question domain subdomain
                                  available_books chapters_by_book))).
    rewrite total_recs_of_singletons by exact Hone. lia.
Qed.

(** In mock mode [route] is the mock route and leaves the cache alone;
    otherwise, on a miss, it is [_llm_route], whose result is stored when
    valid. *)
Lemma route_mock_mode _cache gate_now proposer now_get now_set
    question domain subdomain available_books chapters :
  route sha256_hexdigest set_iter true _cache gate_now proposer now_get now_set
        question domain subdomain available_books chapters
    = (_mock_route question domain subdomain available_books (default ∅ chapters),
       _cache).
Proof. reflexivity. Qed.

Lemma route_on_miss _cache gate_now proposer now_get now_set
    question domain subdomain available_books chapters :
  let looked :=
    routing_cache.get sha256_hexdigest (fst (routing_cache.get_routing_cache _cache))
                      gate_now now_get question domain subdomain in
  let result := _llm_route set_iter gate_now proposer question domain subdomain
                           available_books (default ∅ chapters) in
  fst looked = None ->
  route sha256_hexdigest set_iter false _cache gate_now proposer now_get now_set
        question domain subdomain available_books chapters
    = (result,
       Some (if is_valid result
             then routing_cache.set sha256_hexdigest (snd looked) gate_now now_set
                                    question domain subdomain result
             else snd looked)).
Proof.
  intros looked result Hmiss. unfold route. cbv zeta. fold looked. rewrite Hmiss.
  fold result. by destruct (is_valid result).
Qed.

(** A hit returns the result of an entry of the cache, and a lookup
    adds no entry. *)
Lemma cache_get_entries self gate_now now query domain subdomain :
  let looked := routing_cache.get sha256_hexdigest self gate_now now
                                  query domain subdomain in
  (forall r, fst looked = Some r ->
     exists k e, routing_cache.cache self !! k = Some e
                 /\ routing_cache.routing_result e = r)
  /\ (forall k e, routing_cache.cache (snd looked) !! k = Some e ->
        routing_cache.cache self !! k = Some e).
Proof.
  unfold routing_cache.get. cbv zeta.
  destruct (routing_cache.cache self !! _) as [entry|] eqn:E.
  - destruct (negb (Qle_bool _ _)); cbn [fst snd routing_cache.cache routing_cache.record_miss].
    + split; [discriminate|]. intros k e H.
      apply lookup_delete_Some in H as [_ H]. exact H.
    + destruct (negb (_ =? _)%Z);
        cbn [fst snd routing_cache.cache routing_cache.record_miss].
      * split; [discriminate|]. intros k e H.
        apply lookup_delete_Some in H as [_ H]. exact H.
      * split; [|auto]. intros r [= <-]. eauto.
  - cbn [fst snd routing_cache.cache routing_cache.record_miss].
    split; [discriminate|auto].
Qed.

(** Along [route], in mock mode or not, from a hit, from the validator
    or from a handler: every result returned and every result cached is
    within the caps. *)
Lemma route_capped USE_MOCK_AGENTS _cache gate_now proposer now_get now_set
    question domain subdomain available_books chapters :
  cache_capped _cache ->
  let out := route sha256_hexdigest set_iter USE_MOCK_AGENTS _cache gate_now proposer
                   now_get now_set question domain subdomain available_books chapters in
  capped (fst out) /\ cache_capped (snd out).
Proof.
  intros Hc. unfold route. cbv zeta.
  destruct USE_MOCK_AGENTS; cbn [fst snd].
  { split; [apply mock_route_capped | exact Hc]. }
  set (c0 := fst (routing_cache.get_routing_cache _cache)).
  assert (Hc0 : forall k e, routing_cache.cache c0 !! k = Some e ->
                            capped (routing_cache.routing_result e)).
  { subst c0. destruct _cache as [c|]; cbn.
    - intros k e. by apply (Hc c).
    - intros k e H. by rewrite lookup_empty in H. }
  destruct (cache_get_entries c0 gate_now now_get question domain subdomain)
    as [Hhit Hsub].
  cbv zeta in Hhit, Hsub.
  destruct (fst (routing_cache.get _ c0 _ _ _ _ _)) as [cached|] eqn:El; cbn [fst snd].
  - split.
    + destruct (Hhit cached eq_refl) as (k & e & Hk & <-). by apply (Hc0 k).
    + intros c k e [= <-] Hk. apply (Hc0 k). by apply Hsub.
  - pose proof (llm_route_capped gate_now proposer question domain subdomain
                  available_books (default ∅ chapters)) as Hr.
    destruct (is_valid (_llm_route _ _ _ _ _ _ _ _)) eqn:Ev; cbn [fst snd].
    + split; [exact Hr|].
      intros c k e [= <-]. unfold routing_cache.set. cbn [routing_cache.cache].
      rewrite lookup_insert. destruct (decide _) as [_|_].
      * intros [= <-]. exact Hr.
      * intros Hk. apply (Hc0 k). by apply Hsub.
    + split; [exact Hr|].
      intros c k e [= <-] Hk. apply (Hc0 k). by apply Hsub.
Qed.

End validator.

(** ** Running the router on the small catalog *)

Module demo_route.

Import contracts reading_router.

Definition meditations : book :=
  {| id := "book_d9d95145167f"; title := "Meditations"; author := "Marcus Aurelius" |}.

(** A public book of the store that the taxonomy does not know. *)
Definition almanac : book :=
  {| id := "book_0000almanac"; title := "An Almanac"; author := "Anonymous" |}.

Definition proposed (bid : string) (n : Z) (why : string) : json :=
  JDict [ ("book_id", JStr bid); ("chapter_number", JInt n); ("rationale", JStr why) ].

Definition response (paths : list json) : json := JDict [ ("paths", JList paths) ].

Definition path (angle : string) (recs : list json) : json :=
  JDict [ ("angle", JStr angle); ("recommendations", JList recs) ].

Definition one_path : json :=
  response [ path "Stoic practice"
               [ proposed "book_d9d95145167f" 2 "On what is in our control" ] ].

Definition three_in_one_path : json :=
  response [ path "Stoic practice"
               [ proposed "book_d9d95145167f" 1 "Debts and lessons";
                 proposed "book_d9d95145167f" 2 "On what is in our control";
                 proposed "book_d9d95145167f" 3 "On the shortness of life" ] ].

Definition chapter_99 : json :=
  proposed "book_d9d95145167f" 99 "On what is in our control".

Definition question : string := "How do I deal with things I can't control?".

(** The chapters of Meditations as the gate hands them to the router. *)
Definition gate_chapters : gmap string (list chapter) :=
  taxonomy_v2.get_candidate_chapters demo.gate ["book_d9d95145167f"] 8.

End demo_route.

Import contracts reading_router.

Lemma C1_witness :
  let r := _llm_route elements (Ok demo.gate) (Ok demo_route.one_path)
             demo_route.question "Philosophy" (Some "Stoicism")
             [demo_route.meditations] ∅ in
  length (paths r) <= 4
  /\ Forall (fun p => 1 <= length (recommendations p)) (paths r)
  /\ total_count r <= 6.
Proof.
  destruct (C1_valid_result_caps elements (Ok demo.gate) (Ok demo_route.one_path)
              demo_route.question "Philosophy" (Some "Stoicism")
              [demo_route.meditations] ∅) as (H1 & H2 & H3 & _).
  - vm_compute. reflexivity.
  - split; [exact H1|]. split; [exact H2 | exact H3].
Defined.

(** C1 as stated fails: when the gate cannot be loaded (no artifact on
    disk) and no book is available, the handler's mock route returns a
    result with [is_valid = true] and no path; so does [route] in mock
    mode. *)
Lemma C1_counterexample :
  let r := _llm_route elements (Raise FileNotFoundError) (Ok demo_route.one_path)
             demo_route.question "Philosophy" (Some "Stoicism") [] ∅ in
  let r' := fst (route demo_cache.plain_digest elements true None
                   (Ok demo.gate) (Ok demo_route.one_path) 1000 1000
                   demo_route.question "Philosophy" (Some "Stoicism") [] None) in
  (is_valid r = true /\ length (paths r) = 0)
  /\ (is_valid r' = true /\ length (paths r') = 0).
Proof. repeat split; reflexivity. Qed.

(** The caps the validator enforces are the path cap and the total cap:
    three valid recommendations proposed in one path are kept in one
    path. *)
Example three_recommendations_in_one_path :
  let r := _llm_route elements (Ok demo.gate) (Ok demo_route.three_in_one_path)
             demo_route.question "Philosophy" (Some "Stoicism")
             [demo_route.meditations] ∅ in
  is_valid r = true
  /\ map (fun p => length (recommendations p)) (paths r) = [3].
Proof. vm_compute. split; reflexivity. Qed.

Lemma C2_witness :
  exists gate,
    Ok demo.gate = Ok gate
    /\ within_candidates elements gate "Philosophy" (Some "Stoicism")
         [demo_route.meditations] ∅
         {| book_id := "book_d9d95145167f"; book_title := "Meditations";
            book_author := "Marcus Aurelius";
            chapter_id := "ch_book_d9d95145167f_2";
            chapter_number := JInt 2; chapter_title := "Book Two";
            rationale := JStr "On what is in our control" |}.
Proof.
  generalize (C2_recommendations_by_path elements (Ok demo.gate) (Ok demo_route.one_path)
           demo_route.question "Philosophy" (Some "Stoicism")
           [demo_route.meditations] ∅
           {| book_id := "book_d9d95145167f"; book_title := "Meditations";
              book_author := "Marcus Aurelius";
              chapter_id := "ch_book_d9d95145167f_2";
              chapter_number := JInt 2; chapter_title := "Book Two";
              rationale := JStr "On what is in our control" |}).
  cbv zeta.
  destruct (snd (_llm_route_try elements (Ok demo.gate) (Ok demo_route.one_path)
                   demo_route.question "Philosophy" (Some "Stoicism")
                   [demo_route.meditations] ∅)) as [r0|e] eqn:E.
  - intros H. apply H. vm_compute. left.
  - vm_compute in E. discriminate E.
Defined.

(** C2 as stated fails: the proposer times out, the handler answers with
    the mock route, and its first recommendation names the first available
    book, which the gate does not list for the domain, with a chapter id
    and number made up for a book that has no chapter. *)
Lemma C2_counterexample :
  let available_books := [demo_route.almanac; demo_route.meditations] in
  let r := _llm_route elements (Ok demo.gate) (Raise APITimeoutError)
             demo_route.question "Philosophy" (Some "Stoicism") available_books ∅ in
  let chapters := merged_chapters elements demo.gate "Philosophy" (Some "Stoicism") ∅ in
  exists rec,
    rec ∈ all_recommendations r
    /\ book_id rec = "book_0000almanac"
    /\ (book_id rec ∉ taxonomy_v2.get_candidate_books elements demo.gate
                        "philosophy" (Some "stoicism") 12)
    /\ taxonomy_v2.validate_book_id demo.gate (book_id rec) = false
    /\ chapter_id rec = "ch_mock_1" /\ chapter_number rec = JInt 1
    /\ chapters !! book_id rec = None
    /\ taxonomy_v2.chapters_by_book (taxonomy_v2.artifacts demo.gate) !! book_id rec = None.
Proof.
  cbv zeta. eexists. split; [vm_compute; left|]. cbn [book_id chapter_id chapter_number].
  split; [reflexivity|]. split.
  { vm_compute. intros H. apply list_elem_of_singleton in H. discriminate H. }
  repeat split; vm_compute; reflexivity.
Qed.

Lemma C4_witness :
  let r := _llm_route elements (Ok demo.gate) (Raise APITimeoutError)
             demo_route.question "Philosophy" (Some "Stoicism")
             [demo_route.meditations] ∅ in
  r = _mock_route demo_route.question "Philosophy" (Some "Stoicism")
        [demo_route.meditations]
        (merged_chapters elements demo.gate "Philosophy" (Some "Stoicism") ∅)
  /\ is_valid r = true
  /\ length (paths r) = 1.
Proof.
  destruct (C4_exception_policy elements (Ok demo.gate) (Raise APITimeoutError)
              demo_route.question "Philosophy" (Some "Stoicism")
              [demo_route.meditations] ∅ APITimeoutError) as [_ H].
  - vm_compute. reflexivity.
  - destruct (H eq_refl) as (H1 & H2 & H3 & _).
    split; [exact H1|]. split; [exact H2 | exact H3].
Defined.

(** C4 as stated fails for malformed output: when the proposer's text is
    not JSON the provider raises [ValueError], and the router answers with
    a refusal, not with a fallback routing. *)
Lemma C4_counterexample :
  let r := _llm_route elements (Ok demo.gate) (Raise ValueError)
             demo_route.question "Philosophy" (Some "Stoicism")
             [demo_route.meditations] ∅ in
  is_valid r = false
  /\ paths r = []
  /\ refusal_reason r = Some "Error processing routing request"
  /\ r <> _mock_route demo_route.question "Philosophy" (Some "Stoicism")
            [demo_route.meditations]
            (merged_chapters elements demo.gate "Philosophy" (Some "Stoicism") ∅).
Proof.
  cbv zeta. repeat split; try (vm_compute; reflexivity).
  vm_compute. discriminate.
Qed.

Lemma C5_witness :
  recs_loop (Ok demo.gate) (index_by_id [demo_route.meditations]) demo_route.gate_chapters
            [demo_route.chapter_99] 0 []
  = Ok (1, [ {| book_id := "book_d9d95145167f"; book_title := "Meditations";
                book_author := "Marcus Aurelius";
                chapter_id := "ch_book_d9d95145167f_1";
                chapter_number := JInt 1; chapter_title := "Book One";
                rationale := JStr "On what is in our control" |} ]).
Proof.
  pose proof (proj1 (C5_missing_chapter_falls_back demo.gate
                  (index_by_id [demo_route.meditations]) demo_route.gate_chapters
                  [ ("book_id", JStr "book_d9d95145167f"); ("chapter_number", JInt 99);
                    ("rationale", JStr "On what is in our control") ]
                  "book_d9d95145167f" demo_route.meditations 0 []
                  ltac:(lia) eq_refl ltac:(discriminate)
                  ltac:(vm_compute; reflexivity) ltac:(vm_compute; reflexivity)
                  ltac:(intros x Hx; vm_compute in Hx;
                        repeat (apply elem_of_cons in Hx as [->|Hx]; [reflexivity|]);
                        inversion Hx))
           (demo.artifact_chapter "ch_m1" "book_d9d95145167f" 1 "Book One" 0 1000)
           [ demo.artifact_chapter "ch_m2" "book_d9d95145167f" 2 "Book Two" 1000 2500;
             demo.artifact_chapter "ch_m3" "book_d9d95145167f" 3 "Book Three" 2500 4000 ]
           (JStr "On what is in our control")
           ltac:(vm_compute; reflexivity) eq_refl) as H.
  cbv zeta in H. destruct H as (_ & H & _). exact H.
Defined.

Lemma C6_witness :
  _llm_route elements (Ok demo.gate) (Ok demo_route.one_path)
             demo_route.question "UnknownDomain" None [demo_route.meditations] ∅
  = {| paths := []; is_valid := false;
       refusal_reason := Some "No books mapped to UnknownDomain/general in taxonomy" |}.
Proof.
  apply (C6_unmapped_domain_refused elements demo_cache.plain_digest demo.gate
           (Ok demo_route.one_path) demo_route.question "UnknownDomain" None
           [demo_route.meditations] ∅).
  vm_compute. reflexivity.
Defined.

(** * More of the code *)

(** ** The routing cache: eviction, counters, pruning *)

Section cache_more.

Import contracts routing_cache.

Variable sha256_hexdigest : string -> string.

#[local] Abbreviation cget := (routing_cache.get sha256_hexdigest).
#[local] Abbreviation cset := (routing_cache.set sha256_hexdigest).
#[local] Abbreviation ckey := (routing_cache._compute_cache_key sha256_hexdigest).

(** X1. A lookup counts once and never leaves a stale entry behind: a
    hit adds one to [hits] and changes nothing else; a miss adds one to
    [misses], leaves no entry under the looked-up key (an expired entry or
    one of another version is evicted) and leaves every other entry as it
    was.  The TTL is never changed. *)
Theorem X1_get_counts_and_evicts self gate_now (now : Q) query domain subdomain :
  let key := routing_cache._compute_cache_key sha256_hexdigest gate_now
               query domain subdomain in
  let looked := routing_cache.get sha256_hexdigest self gate_now now
                                  query domain subdomain in
  ttl_seconds (snd looked) = ttl_seconds self
  /\ match fst looked with
     | Some r =>
         (exists e, cache self !! key = Some e /\ routing_result e = r
                    /\ is_expired self now e = false
                    /\ taxonomy_version e = get_taxonomy_version gate_now)
         /\ cache (snd looked) = cache self
         /\ hits (snd looked) = S (hits self)
         /\ misses (snd looked) = misses self
     | None =>
         cache (snd looked) !! key = None
         /\ (forall k, k <> key -> cache (snd looked) !! k = cache self !! k)
         /\ hits (snd looked) = hits self
         /\ misses (snd looked) = S (misses self)
     end.
Proof.
  intros key looked. subst looked. unfold routing_cache.get. cbv zeta. fold key.
  destruct (cache self !! key) as [e|] eqn:E.
  - destruct (Qle_bool _ _) eqn:Ettl; cbn [negb].
    + destruct (taxonomy_version e =? get_taxonomy_version gate_now)%Z eqn:Ev;
        cbn [negb fst snd cache hits misses ttl_seconds record_miss].
      * split; [reflexivity|]. split; [|auto].
        exists e. apply Z.eqb_eq in Ev. unfold is_expired. rewrite Ettl. auto.
      * split; [reflexivity|]. split; [apply lookup_delete_eq|].
        split; [|auto]. intros k Hk. by apply lookup_delete_ne.
    + cbn [fst snd cache hits misses ttl_seconds record_miss].
      split; [reflexivity|]. split; [apply lookup_delete_eq|].
      split; [|auto]. intros k Hk. by apply lookup_delete_ne.
  - cbn [fst snd cache hits misses ttl_seconds record_miss]. auto.
Qed.

(** X2. A [set] for one key does not disturb the lookup of another: if
    the two cache keys differ, [get] for the first question sees exactly
    the entries it saw before, and answers the same. *)
Theorem X2_set_other_key_keeps_lookup self g (now_set now_get : Q)
    query domain subdomain query' domain' subdomain' result' :
  routing_cache._compute_cache_key sha256_hexdigest g query' domain' subdomain'
    <> routing_cache._compute_cache_key sha256_hexdigest g query domain subdomain ->
  fst (routing_cache.get sha256_hexdigest
         (routing_cache.set sha256_hexdigest self g now_set
                            query' domain' subdomain' result')
         g now_get query domain subdomain)
    = fst (routing_cache.get sha256_hexdigest self g now_get query domain subdomain).
Proof.
  intros Hne. unfold routing_cache.get, routing_cache.set. cbv zeta.
  cbn [cache ttl_seconds]. rewrite lookup_insert_ne by exact Hne.
  destruct (cache self !! _) as [e|]; [|reflexivity].
  destruct (negb (Qle_bool _ _)); [reflexivity|].
  by destruct (negb (_ =? _)%Z).
Qed.

Lemma foldl_delete_lookup (ks : list string) (m : gmap string CacheEntry) k :
  foldl (fun c key => delete key c) m ks !! k = if decide (k ∈ ks) then None else m !! k.
Proof.
  revert m. induction ks as [|a ks IH]; intros m; cbn [foldl].
  - rewrite decide_False; [reflexivity | by intros H; inversion H].
  - rewrite IH. destruct (decide (k ∈ ks)) as [Hin|Hnin].
    + rewrite decide_True by (by right). reflexivity.
    + destruct (decide (a = k)) as [->|Hne].
      * rewrite decide_True by left. apply lookup_delete_eq.
      * rewrite lookup_delete_ne by done.
        rewrite decide_False; [reflexivity|].
        intros [?|?]%elem_of_cons; congruence.
Qed.

Lemma foldl_delete_size (ks : list string) (m : gmap string CacheEntry) :
  NoDup ks -> (forall k, k ∈ ks -> is_Some (m !! k)) ->
  size (foldl (fun c key => delete key c) m ks) + length ks = size m.
Proof.
  revert m. induction ks as [|a ks IH]; intros m Hnd Hin; cbn [foldl length].
  - lia.
  - apply NoDup_cons in Hnd as [Ha Hnd].
    rewrite Nat.add_succ_r, IH; [| exact Hnd |].
    + destruct (Hin a) as [e He]; [left|].
      rewrite map_size_delete, He.
      assert (size m <> 0); [|lia].
      intros H0. apply map_size_empty_iff in H0. subst m. by rewrite lookup_empty in He.
    + intros k Hk. rewrite lookup_delete_ne; [apply Hin; by right|].
      intros ->. done.
Qed.

(** X3. [prune_expired] removes exactly the entries older than the TTL
    and returns how many they were: afterwards a key holds what it held
    before unless that entry was expired, the number returned is the
    number of entries that went, and counters and TTL are untouched. *)
Theorem X3_prune_expired_removes_expired self (now : Q) :
  let pruned := prune_expired self now in
  (forall k,
     cache (snd pruned) !! k =
       match cache self !! k with
       | Some e => if is_expired self now e then None else Some e
       | None => None
       end)
  /\ fst pruned + size (cache (snd pruned)) = size (cache self)
  /\ (forall k e, cache (snd pruned) !! k = Some e -> is_expired (snd pruned) now e = false)
  /\ ttl_seconds (snd pruned) = ttl_seconds self
  /\ hits (snd pruned) = hits self /\ misses (snd pruned) = misses self.
Proof.
  intros pruned. subst pruned. unfold prune_expired. cbv zeta.
  cbn [fst snd cache ttl_seconds hits misses].
  set (keys := (filter (fun item => is_expired self now (snd item) = true)
                       (map_to_list (cache self))).*1).
  assert (Hkeys : forall k, k ∈ keys <->
            exists e, cache self !! k = Some e /\ is_expired self now e = true).
  { intros k. subst keys. rewrite list_elem_of_fmap. split.
    - intros ([k' e] & -> & H). apply list_elem_of_filter in H as [He Hin].
      apply elem_of_map_to_list in Hin. eauto.
    - intros (e & Hk & He). exists (k, e). split; [reflexivity|].
      apply list_elem_of_filter. split; [exact He|]. by apply elem_of_map_to_list. }
  assert (Hlook : forall k,
    foldl (fun c key => delete key c) (cache self) keys !! k =
      match cache self !! k with
      | Some e => if is_expired self now e then None else Some e
      | None => None
      end).
  { intros k. rewrite foldl_delete_lookup.
    destruct (decide (k ∈ keys)) as [Hin|Hnin].
    - apply Hkeys in Hin as (e & -> & ->). reflexivity.
    - destruct (cache self !! k) as [e|] eqn:E; [|reflexivity].
      destruct (is_expired self now e) eqn:Ee; [|reflexivity].
      destruct Hnin. apply Hkeys. eauto. }
  split; [exact Hlook|]. split.
  { rewrite Nat.add_comm. apply foldl_delete_size.
    - subst keys. eapply NoDup_fmap_fst.
      + intros k e1 e2 H1 H2.
        apply list_elem_of_filter in H1 as [_ H1], H2 as [_ H2].
        apply elem_of_map_to_list in H1, H2. congruence.
      + apply NoDup_filter, NoDup_map_to_list.
    - intros k Hk. apply Hkeys in Hk as (e & -> & _). eauto. }
  split; [|auto].
  intros k e Hk. rewrite Hlook in Hk.
  destruct (cache self !! k) as [e'|]; [|discriminate].
  destruct (is_expired self now e') eqn:Ee; [discriminate|].
  injection Hk as <-. exact Ee.
Qed.

End cache_more.

(** ** Query normalisation *)

Section normalisation.

Import contracts routing_cache.

(** All characters of a string satisfy a test. *)
Fixpoint string_forall (P : ascii -> bool) (s : string) : bool :=
  match s with
  | EmptyString => true
  | String c s' => P c && string_forall P s'
  end.

(** A string of ASCII characters.  On these [py.lower], [py.strip] and
    [py.split] are [str.lower], [str.strip] and [str.split]; beyond them
    Python follows the Unicode tables, which are not modelled: what is
    stated of the values of these functions is stated of ASCII text. *)
Definition is_ascii_char (c : ascii) : bool := (nat_of_ascii c <? 128)%nat.

Definition is_ascii (s : string) : bool := string_forall is_ascii_char s.

(** The six characters [_normalize_query] deletes. *)
Definition is_punct (c : ascii) : bool :=
  existsb (Ascii.eqb c) (list_ascii_of_string "?!.,;:").

Definition remove_punct (s : string) : string :=
  foldl (fun s c => py.remove_char c s) s (list_ascii_of_string "?!.,;:").

(** The words of a query: what is left between spaces once case and
    punctuation are gone. *)
Definition query_words (query : string) : list string :=
  py.split (remove_punct (py.lower query)).

Lemma remove_punct_nil : remove_punct "" = "".
Proof. reflexivity. Qed.

Lemma remove_punct_cons c s :
  remove_punct (String c s) =
    if is_punct c then remove_punct s else String c (remove_punct s).
Proof.
  unfold remove_punct, is_punct.
  cbn [foldl list_ascii_of_string existsb py.remove_char].
  repeat match goal with
         | |- context [Ascii.eqb c ?x] =>
             destruct (Ascii.eqb c x) eqn:?; cbn [orb py.remove_char]
         end; reflexivity.
Qed.

Lemma isspace_not_punct c : py.isspace c = true -> is_punct c = false.
Proof.
  destruct c as [[] [] [] [] [] [] [] []]; vm_compute; congruence.
Qed.

Lemma split_go_remove_punct_rstrip s :
  forall cur,
    py.split_go cur (remove_punct (py.rstrip s)) = py.split_go cur (remove_punct s).
Proof.
  induction s as [|c s IH]; intros cur; [reflexivity|].
  cbn [py.rstrip].
  destruct (py.rstrip s) as [|c' r] eqn:Er.
  - (* everything after [c] is white space *)
    assert (Hs : forall cur, py.split_go cur (remove_punct s) = py.split_go cur "").
    { intros cur'. rewrite <- IH. reflexivity. }
    destruct (py.isspace c) eqn:Ec.
    + rewrite remove_punct_nil, remove_punct_cons, (isspace_not_punct _ Ec).
      cbn [py.split_go]. rewrite Ec, !Hs. cbn [py.split_go].
      by destruct (String.eqb cur "").
    + rewrite !remove_punct_cons. destruct (is_punct c).
      * by rewrite Hs.
      * cbn [py.split_go]. rewrite Ec. by rewrite Hs.
  - rewrite !(remove_punct_cons c). destruct (is_punct c); [apply IH|].
    cbn [py.split_go]. destruct (py.isspace c); [|apply IH].
    rewrite !IH. reflexivity.
Qed.

Lemma split_go_remove_punct_lstrip s :
  py.split_go "" (remove_punct (py.lstrip s)) = py.split_go "" (remove_punct s).
Proof.
  induction s as [|c s IH]; [reflexivity|].
  cbn [py.lstrip]. destruct (py.isspace c) eqn:Ec; [|reflexivity].
  rewrite IH, remove_punct_cons, (isspace_not_punct _ Ec).
  cbn [py.split_go]. rewrite Ec. reflexivity.
Qed.

(** The normal form is the words joined by single spaces: stripping
    first changes nothing once the words are split. *)
Lemma normalize_query_words query :
  _normalize_query query = py.join " " (query_words query).
Proof.
  unfold _normalize_query, query_words, py.split, py.strip. cbv zeta.
  fold (remove_punct (py.rstrip (py.lstrip (py.lower query)))).
  by rewrite split_go_remove_punct_rstrip, split_go_remove_punct_lstrip.
Qed.

Variable sha256_hexdigest : string -> string.

(** X4. The cache does not tell apart two ASCII questions with the
    same words: when the lower-cased questions, with the characters
    [?!.,;:] deleted, split at white space into the same words, the two
    have the same normal form and the same key, so a result stored for
    one is returned for the other (same domain, subdomain and version,
    within the TTL). *)
Theorem X4_same_words_same_entry self g (now_set now_get : Q)
    query query' domain subdomain result :
  is_ascii query = true -> is_ascii query' = true ->
  py.split (remove_punct (py.lower query')) = py.split (remove_punct (py.lower query)) ->
  Qle_bool (now_get - now_set) (inject_Z (ttl_seconds self)) = true ->
  _normalize_query query' = _normalize_query query
  /\ routing_cache._compute_cache_key sha256_hexdigest g query' domain subdomain
     = routing_cache._compute_cache_key sha256_hexdigest g query domain subdomain
  /\ fst (routing_cache.get sha256_hexdigest
            (routing_cache.set sha256_hexdigest self g now_set
                               query domain subdomain result)
            g now_get query' domain subdomain) = Some result.
Proof.
  intros _ _ Hw Httl. change (query_words query' = query_words query) in Hw.
  assert (Hn : _normalize_query query' = _normalize_query query)
    by (by rewrite !normalize_query_words, Hw).
  assert (Hk : routing_cache._compute_cache_key sha256_hexdigest g query' domain subdomain
               = routing_cache._compute_cache_key sha256_hexdigest g query domain subdomain)
    by (unfold routing_cache._compute_cache_key; by rewrite Hn).
  split; [exact Hn|]. split; [exact Hk|].
  unfold routing_cache.get. cbv zeta. rewrite Hk.
  unfold routing_cache.set. cbv zeta. cbn [cache ttl_seconds].
  rewrite lookup_insert_eq. cbn [cached_at taxonomy_version routing_result].
  rewrite Httl. cbn [negb]. by rewrite Z.eqb_refl.
Qed.

End normalisation.

Lemma X4_witness :
  fst (routing_cache.get demo_cache.plain_digest
         (routing_cache.set demo_cache.plain_digest (routing_cache.__init__ 3600)
            (Ok demo.gate) 1000 "How do I focus better?" "Psychology" None
            demo_cache.stoic_result)
         (Ok demo.gate) 1001 "  how do I FOCUS,   better  " "Psychology" None)
    = Some demo_cache.stoic_result.
Proof.
  apply (X4_same_words_same_entry demo_cache.plain_digest (routing_cache.__init__ 3600)
           (Ok demo.gate) 1000 1001
           "How do I focus better?" "  how do I FOCUS,   better  " "Psychology" None).
  - reflexivity.
  - reflexivity.
  - vm_compute. reflexivity.
  - vm_compute. reflexivity.
Defined.

Lemma X2_witness :
  fst (routing_cache.get demo_cache.plain_digest
         (routing_cache.set demo_cache.plain_digest
            (routing_cache.set demo_cache.plain_digest (routing_cache.__init__ 3600)
               (Ok demo.gate) 1000 "How do I focus better?" "Psychology" None
               demo_cache.stoic_result)
            (Ok demo.gate) 1000 "What is virtue?" "Philosophy" None
            demo_cache.stoic_result)
         (Ok demo.gate) 1001 "How do I focus better?" "Psychology" None)
  = fst (routing_cache.get demo_cache.plain_digest
           (routing_cache.set demo_cache.plain_digest (routing_cache.__init__ 3600)
              (Ok demo.gate) 1000 "How do I focus better?" "Psychology" None
              demo_cache.stoic_result)
           (Ok demo.gate) 1001 "How do I focus better?" "Psychology" None).
Proof.
  apply (X2_set_other_key_keeps_lookup demo_cache.plain_digest).
  vm_compute. discriminate.
Defined.

Section normal_form.

Import routing_cache.

(** A character [_normalize_query] leaves alone: not an upper-case
    letter, not one of the deleted punctuation characters. *)
Definition is_clean (c : ascii) : bool :=
  Ascii.eqb (py.lower_ascii c) c && negb (is_punct c).

Definition not_space (c : ascii) : bool := negb (py.isspace c).

(** A word of a normal form: not empty, clean, without white space. *)
Definition is_word (w : string) : Prop :=
  w <> "" /\ string_forall is_clean w = true /\ string_forall not_space w = true.

Lemma string_app_cons c (s t : string) : (String c s ++ t = String c (s ++ t))%string.
Proof. reflexivity. Qed.

Lemma string_app_nil_l (s : string) : ("" ++ s = s)%string.
Proof. reflexivity. Qed.

Lemma string_forall_app P s t :
  string_forall P (s ++ t) = string_forall P s && string_forall P t.
Proof.
  induction s as [|c s IH]; [reflexivity|].
  rewrite string_app_cons. cbn [string_forall]. rewrite IH. by rewrite andb_assoc.
Qed.

Lemma string_app_assoc (s t u : string) : ((s ++ t) ++ u = s ++ (t ++ u))%string.
Proof. induction s as [|c s IH]; [reflexivity|]. rewrite !string_app_cons. by rewrite IH. Qed.

Lemma string_app_nil_r (s : string) : (s ++ "" = s)%string.
Proof. induction s as [|c s IH]; [reflexivity|]. rewrite !string_app_cons. by rewrite IH. Qed.

Lemma string_app_not_nil_l c (s t : string) : (String c s ++ t)%string <> "".
Proof. discriminate. Qed.

Lemma string_app_not_nil (s : string) c : (s ++ String c "")%string <> "".
Proof. by destruct s. Qed.

Lemma lower_ascii_idem c : py.lower_ascii (py.lower_ascii c) = py.lower_ascii c.
Proof. destruct c as [[] [] [] [] [] [] [] []]; reflexivity. Qed.

Lemma lowered_clean_or_punct c :
  is_punct (py.lower_ascii c) = false -> is_clean (py.lower_ascii c) = true.
Proof.
  intros H. unfold is_clean. rewrite lower_ascii_idem, H.
  by rewrite Ascii.eqb_refl.
Qed.

Lemma remove_punct_lower_clean s :
  string_forall is_clean (remove_punct (py.lower s)) = true.
Proof.
  induction s as [|c s IH]; [reflexivity|].
  cbn [py.lower]. rewrite remove_punct_cons.
  destruct (is_punct (py.lower_ascii c)) eqn:E; [exact IH|].
  cbn [string_forall]. by rewrite (lowered_clean_or_punct _ E), IH.
Qed.

Lemma clean_fixed s :
  string_forall is_clean s = true -> py.lower s = s /\ remove_punct s = s.
Proof.
  induction s as [|c s IH]; [by split|].
  cbn [string_forall]. intros [Hc Hs]%andb_true_iff.
  destruct (IH Hs) as [IH1 IH2].
  unfold is_clean in Hc. apply andb_true_iff in Hc as [Hl Hp].
  apply Ascii.eqb_eq in Hl. apply negb_true_iff in Hp.
  split.
  - cbn [py.lower]. by rewrite Hl, IH1.
  - by rewrite remove_punct_cons, Hp, IH2.
Qed.

(** The words [split] finds are words. *)
Lemma split_go_words s :
  forall cur,
    string_forall is_clean cur = true -> string_forall not_space cur = true ->
    string_forall is_clean s = true ->
    Forall is_word (py.split_go cur s).
Proof.
  induction s as [|c s IH]; intros cur Hc Hn Hs; cbn [py.split_go].
  - destruct (String.eqb cur "") eqn:E; [constructor|].
    apply String.eqb_neq in E. repeat constructor; assumption.
  - cbn [string_forall] in Hs. apply andb_true_iff in Hs as [Hcc Hs].
    destruct (py.isspace c) eqn:Ec.
    + destruct (String.eqb cur "") eqn:E.
      * by apply IH.
      * apply String.eqb_neq in E. constructor; [by repeat split|by apply IH].
    + apply IH; [| |exact Hs].
      * rewrite string_forall_app, Hc. cbn. by rewrite Hcc.
      * rewrite string_forall_app, Hn. cbn. unfold not_space. by rewrite Ec.
Qed.

Lemma query_words_words query : Forall is_word (query_words query).
Proof.
  unfold query_words, py.split.
  apply split_go_words; [reflexivity|reflexivity|apply remove_punct_lower_clean].
Qed.

(** Reading a word: it all goes to the current run. *)
Lemma split_go_word w :
  forall cur rest,
    string_forall not_space w = true ->
    py.split_go cur (w ++ rest) = py.split_go (cur ++ w) rest.
Proof.
  induction w as [|c w IH]; intros cur rest Hw.
  - by rewrite string_app_nil_r.
  - cbn [string_forall] in Hw. apply andb_true_iff in Hw as [Hc Hw].
    unfold not_space in Hc. apply negb_true_iff in Hc.
    rewrite string_app_cons. cbn [py.split_go]. rewrite Hc.
    rewrite (IH _ _ Hw). f_equal.
    rewrite string_app_assoc. reflexivity.
Qed.

Lemma split_join_words ws :
  Forall is_word ws -> py.split (py.join " " ws) = ws.
Proof.
  unfold py.split. induction 1 as [|w ws (Hne & _ & Hsp) Hws IH]; [reflexivity|].
  assert (Hw : String.eqb w "" = false) by (by apply String.eqb_neq).
  destruct ws as [|w' ws'].
  - cbn [py.join]. rewrite <- (string_app_nil_r w) at 1.
    rewrite (split_go_word w "" "" Hsp). rewrite string_app_nil_l.
    cbn [py.split_go]. by rewrite Hw.
  - change (py.join " " (w :: w' :: ws'))
      with (w ++ " " ++ py.join " " (w' :: ws'))%string.
    rewrite (split_go_word w "" _ Hsp). rewrite string_app_nil_l, string_app_cons.
    cbn [py.split_go]. change (py.isspace " ") with true. cbv iota.
    rewrite Hw, string_app_nil_l. by rewrite IH.
Qed.

Lemma join_words_clean ws :
  Forall is_word ws -> string_forall is_clean (py.join " " ws) = true.
Proof.
  induction 1 as [|w ws (_ & Hc & _) Hws IH]; [reflexivity|].
  destruct ws as [|w' ws']; [exact Hc|].
  change (py.join " " (w :: w' :: ws'))
    with (w ++ " " ++ py.join " " (w' :: ws'))%string.
  rewrite !string_forall_app, Hc, IH. reflexivity.
Qed.

Lemma lower_ascii_is_ascii c :
  is_ascii_char (py.lower_ascii c) = is_ascii_char c.
Proof. destruct c as [[] [] [] [] [] [] [] []]; reflexivity. Qed.

Lemma lower_is_ascii s : is_ascii (py.lower s) = is_ascii s.
Proof.
  unfold is_ascii. induction s as [|c s IH]; [reflexivity|].
  cbn [py.lower string_forall]. by rewrite lower_ascii_is_ascii, IH.
Qed.

Lemma remove_punct_forall P s :
  string_forall P s = true -> string_forall P (remove_punct s) = true.
Proof.
  induction s as [|c s IH]; [done|].
  cbn [string_forall]. intros [Hc Hs]%andb_true_iff.
  rewrite remove_punct_cons. destruct (is_punct c); [by apply IH|].
  cbn [string_forall]. by rewrite Hc, IH.
Qed.

Lemma split_go_forall P s :
  forall cur,
    string_forall P cur = true -> string_forall P s = true ->
    Forall (fun w => string_forall P w = true) (py.split_go cur s).
Proof.
  induction s as [|c s IH]; intros cur Hc Hs; cbn [py.split_go].
  - destruct (String.eqb cur ""); repeat constructor; assumption.
  - cbn [string_forall] in Hs. apply andb_true_iff in Hs as [Hcc Hs].
    destruct (py.isspace c).
    + destruct (String.eqb cur ""); [by apply IH|].
      constructor; [exact Hc|by apply IH].
    + apply IH; [|exact Hs]. rewrite string_forall_app, Hc. cbn. by rewrite Hcc.
Qed.

Lemma join_forall P ws :
  P " "%char = true ->
  Forall (fun w => string_forall P w = true) ws ->
  string_forall P (py.join " " ws) = true.
Proof.
  intros Hsp. induction 1 as [|w ws Hw Hws IH]; [reflexivity|].
  destruct ws as [|w' ws']; [exact Hw|].
  change (py.join " " (w :: w' :: ws'))
    with (w ++ " " ++ py.join " " (w' :: ws'))%string.
  rewrite !string_forall_app, Hw, IH. cbn. by rewrite Hsp.
Qed.

Lemma normalize_query_is_ascii query :
  is_ascii query = true -> is_ascii (_normalize_query query) = true.
Proof.
  intros Ha. rewrite normalize_query_words. unfold is_ascii.
  apply join_forall; [reflexivity|].
  unfold query_words, py.split. apply split_go_forall; [reflexivity|].
  apply remove_punct_forall. fold (is_ascii (py.lower query)).
  by rewrite lower_is_ascii.
Qed.

(** X5. On an ASCII question [_normalize_query] computes a normal
    form: the result is ASCII again, normalising it once more changes
    nothing, and it has no upper-case letter, none of the punctuation
    characters, and only single spaces between its words. *)
Theorem X5_normalize_query_idempotent query :
  is_ascii query = true ->
  is_ascii (_normalize_query query) = true
  /\ _normalize_query (_normalize_query query) = _normalize_query query
  /\ string_forall is_clean (_normalize_query query) = true
  /\ py.split (_normalize_query query) = query_words query
  /\ _normalize_query query = py.join " " (query_words query)
  /\ Forall is_word (query_words query).
Proof.
  intros Ha.
  pose proof (query_words_words query) as Hw.
  pose proof (join_words_clean _ Hw) as Hc.
  destruct (clean_fixed _ Hc) as [Hl Hp].
  assert (Hq : query_words (py.join " " (query_words query)) = query_words query).
  { unfold query_words at 1. rewrite Hl, Hp. by apply split_join_words. }
  split; [by apply normalize_query_is_ascii|].
  rewrite !normalize_query_words. rewrite Hq.
  split; [reflexivity|]. split; [exact Hc|]. split; [by apply split_join_words|].
  split; [reflexivity|exact Hw].
Qed.

End normal_form.

Lemma X5_witness :
  routing_cache._normalize_query
    (routing_cache._normalize_query "  How do I FOCUS,   better?  ")
    = routing_cache._normalize_query "  How do I FOCUS,   better?  "
  /\ routing_cache._normalize_query "  How do I FOCUS,   better?  "
     = "how do i focus better".
Proof.
  destruct (X5_normalize_query_idempotent "  How do I FOCUS,   better?  " eq_refl)
    as (_ & H & _).
  split; [exact H|reflexivity].
Defined.

(** ** The gate's files and indexes *)

Section gate_files.

Import taxonomy_v2.

Lemma foldr_max_spec (v : Z) (versions : list Z) :
  foldr Z.max v versions ∈ v :: versions
  /\ forall n, n ∈ v :: versions -> (n <= foldr Z.max v versions)%Z.
Proof.
  induction versions as [|w versions [IHin IHle]]; cbn [foldr].
  - split; [left|]. intros n ->%list_elem_of_singleton. lia.
  - split.
    + destruct (Z.max_spec w (foldr Z.max v versions)) as [[_ ->]|[_ ->]].
      * apply elem_of_cons in IHin as [->|?]; [left|right; by right].
      * right; left.
    + intros n Hn.
      assert (n = w \/ n ∈ v :: versions) as [->|H].
      { apply elem_of_cons in Hn as [->|Hn]; [right; left|].
        apply elem_of_cons in Hn as [->|Hn]; [by left|right; by right]. }
      * lia.
      * specialize (IHle n H). lia.
Qed.

(** The latest version: a version that has a book index, and no book
    index has a greater one. *)
Definition latest (dir : artifacts_dir) (v : Z) : Prop :=
  is_Some (book_index_files dir !! v)
  /\ forall n, is_Some (book_index_files dir !! n) -> (n <= v)%Z.

Lemma find_latest_version_spec dir :
  match _find_latest_version dir with
  | Ok v => latest dir v
  | Raise e => e = FileNotFoundError /\ book_index_files dir = ∅
  end.
Proof.
  unfold _find_latest_version, latest.
  destruct (elements (dom (book_index_files dir))) as [|v versions] eqn:E.
  - split; [reflexivity|].
    apply elements_empty_inv in E. apply leibniz_equiv in E.
    by apply dom_empty_inv_L in E.
  - destruct (foldr_max_spec v versions) as [Hin Hle].
    rewrite <- E in Hin, Hle. split.
    + apply elem_of_elements in Hin. by apply elem_of_dom in Hin.
    + intros n Hn. apply Hle. apply elem_of_elements. by apply elem_of_dom.
Qed.

(** X6. [_find_latest_version] returns the greatest version that has a
    book index file, and raises [FileNotFoundError], nothing else, exactly
    when there is no book index file at all. *)
Theorem X6_find_latest_version_is_greatest dir :
  match _find_latest_version dir with
  | Ok v =>
      is_Some (book_index_files dir !! v)
      /\ forall n, is_Some (book_index_files dir !! n) -> (n <= v)%Z
  | Raise e => e = FileNotFoundError /\ book_index_files dir = ∅
  end.
Proof. exact (find_latest_version_spec dir). Qed.

(** X7. A gate built without a version loads the files of the latest
    book index version, and only those: when the chapter index of that
    version (or the taxonomy file) is missing the construction raises
    [FileNotFoundError]; it never falls back to an older version. *)
Theorem X7_init_loads_latest_or_fails dir :
  match __init__ dir None with
  | Ok gate =>
      latest dir (version gate)
      /\ taxonomy_file dir = Some (taxonomy (artifacts gate))
      /\ book_index_files dir !! version gate = Some (book_index (artifacts gate))
      /\ chapter_index_files dir !! version gate
           = Some (chapter_index (artifacts gate))
      /\ loaded gate
  | Raise e =>
      e = FileNotFoundError
      /\ (book_index_files dir = ∅
          \/ taxonomy_file dir = None
          \/ exists v, latest dir v /\ chapter_index_files dir !! v = None)
  end.
Proof.
  unfold __init__, _load_artifacts.
  pose proof (find_latest_version_spec dir) as Hl.
  destruct (_find_latest_version dir) as [v|e]; cbn.
  - destruct (taxonomy_file dir) as [tax|]; cbn; [|by split; [|right; left]].
    destruct Hl as [[books Hb] Hmax]. rewrite Hb. cbn.
    destruct (chapter_index_files dir !! v) as [chapters|] eqn:Hc; cbn.
    + split; [split; [by exists books|exact Hmax]|]. by repeat split.
    + split; [reflexivity|]. right; right. exists v.
      split; [split; [by exists books|exact Hmax]|exact Hc].
  - destruct Hl as [-> Hl]. split; [reflexivity|by left].
Qed.

(** The chapters of a book are kept in the order of the chapter index. *)
Lemma index_chapters_by_book_order chapters x :
  default [] (index_chapters_by_book chapters !! x)
    = filter (fun ch => ch_book_id ch = x) chapters.
Proof.
  unfold index_chapters_by_book.
  assert (G : forall (m : gmap string (list chapter)),
    default [] (foldl (fun m ch =>
        <[ch_book_id ch := (default [] (m !! ch_book_id ch) ++ [ch])%list]> m) m chapters !! x)
    = (default [] (m !! x) ++ filter (fun ch => ch_book_id ch = x) chapters)%list).
  { induction chapters as [|c chapters IH]; intros m; cbn [foldl].
    - by rewrite filter_nil, app_nil_r.
    - rewrite IH, filter_cons.
      destruct (decide (ch_book_id c = x)) as [->|Hne].
      + rewrite lookup_insert_eq. cbn [default Datatypes.id]. by rewrite <- app_assoc.
      + by rewrite lookup_insert_ne. }
  rewrite G, lookup_empty. reflexivity.
Qed.

(** X8. The chapters the gate offers for a requested book are the
    first [max_chapters_per_book] chapters of that book in the order of
    the loaded chapter index file. *)
Theorem X8_candidate_chapters_in_index_order dir v gate (book_ids : list string)
    (max_chapters_per_book : Z) x :
  __init__ dir v = Ok gate ->
  (0 <= max_chapters_per_book)%Z ->
  x ∈ book_ids ->
  exists chapters,
    chapter_index_files dir !! version gate = Some chapters
    /\ get_candidate_chapters gate book_ids max_chapters_per_book !! x
       = Some (take (Z.to_nat max_chapters_per_book)
                    (filter (fun ch => ch_book_id ch = x) chapters)).
Proof.
  intros Hinit Hmax Hx.
  exists (chapter_index (artifacts gate)). split.
  - unfold __init__, _load_artifacts in Hinit.
    destruct (match v with
              | Some n => if (n =? 0)%Z then _find_latest_version dir else Ok n
              | None => _find_latest_version dir
              end) as [v'|e]; cbn in Hinit; [|discriminate].
    destruct (taxonomy_file dir); cbn in Hinit; [|discriminate].
    destruct (book_index_files dir !! v'); cbn in Hinit; [|discriminate].
    destruct (chapter_index_files dir !! v') eqn:Hc; cbn in Hinit; [|discriminate].
    injection Hinit as <-. exact Hc.
  - rewrite get_candidate_chapters_lookup, decide_True by done.
    rewrite slice_to_nonneg by done.
    rewrite (init_loaded _ _ _ Hinit). cbn [chapters_by_book build_indexes chapter_index].
    by rewrite index_chapters_by_book_order.
Qed.

(** In [{book["book_id"]: book for book in books}] a later entry
    replaces an earlier one with the same id. *)
Lemma index_books_by_id_last books x :
  index_books_by_id books !! x = last (filter (fun b => book_id b = x) books).
Proof.
  unfold index_books_by_id.
  assert (G : forall (m : gmap string book_entry),
    foldl (fun m book => <[book_id book := book]> m) m books !! x
    = match last (filter (fun b => book_id b = x) books) with
      | Some b => Some b
      | None => m !! x
      end).
  { induction books as [|b books IH]; intros m; cbn [foldl]; [reflexivity|].
    rewrite IH, filter_cons.
    destruct (decide (book_id b = x)) as [<-|Hne].
    - rewrite lookup_insert_eq.
      destruct (filter (fun b0 => book_id b0 = book_id b) books) as [|b' l] eqn:E;
        [reflexivity|].
      rewrite !last_cons. by destruct (last l).
    - by rewrite lookup_insert_ne. }
  rewrite G, lookup_empty. by destruct (last _).
Qed.

(** X9. [get_book_metadata] returns the last entry of the loaded book
    index that carries the id, [None] when there is none, and
    [validate_book_id] says whether it returns an entry. *)
Theorem X9_book_metadata_is_last_entry dir v gate x :
  __init__ dir v = Ok gate ->
  get_book_metadata gate x
    = last (filter (fun b => book_id b = x) (book_index (artifacts gate)))
  /\ (validate_book_id gate x = true <-> is_Some (get_book_metadata gate x))
  /\ (validate_book_id gate x = false <->
      forall b, b ∈ book_index (artifacts gate) -> book_id b <> x)
  /\ (forall b, get_book_metadata gate x = Some b ->
        b ∈ book_index (artifacts gate) /\ book_id b = x).
Proof.
  intros Hinit. pose proof (init_loaded _ _ _ Hinit) as Hl.
  assert (Hm : get_book_metadata gate x
    = last (filter (fun b => book_id b = x) (book_index (artifacts gate)))).
  { unfold get_book_metadata. rewrite Hl. cbn [books_by_id book_index build_indexes].
    apply index_books_by_id_last. }
  split; [exact Hm|]. split; [|split].
  - unfold validate_book_id, get_book_metadata. apply bool_decide_eq_true.
  - unfold validate_book_id. etrans; [apply bool_decide_eq_false|].
    rewrite Hl. cbn [books_by_id book_index build_indexes].
    rewrite index_books_by_id_lookup. split.
    + intros Hn b Hb He. apply Hn. by exists b.
    + intros Hn (b & Hb & He). by apply (Hn b).
  - intros b Hb. rewrite Hm in Hb. apply last_Some_elem_of in Hb.
    by apply list_elem_of_filter in Hb as [? ?].
Qed.

(** X10. On a gate whose chapter index gives every chapter its
    ["chapter_id"] (without one the comparison raises [KeyError]),
    [validate_chapter_id] holds exactly of the ids of the indexed chapters
    of that book; so every chapter the gate offers as a candidate passes
    it. *)
Theorem X10_validate_chapter_id_indexed dir v gate :
  __init__ dir v = Ok gate ->
  Forall (fun ch => is_Some (ch_chapter_id ch)) (chapter_index (artifacts gate)) ->
  (forall cid x,
     validate_chapter_id gate cid x = true <->
     exists ch, ch ∈ chapter_index (artifacts gate)
                /\ ch_book_id ch = x /\ ch_chapter_id ch = Some cid)
  /\ (forall book_ids max_chapters_per_book x chapters ch,
        (0 <= max_chapters_per_book)%Z ->
        get_candidate_chapters gate book_ids max_chapters_per_book !! x = Some chapters ->
        ch ∈ chapters ->
        exists cid, ch_chapter_id ch = Some cid /\ validate_chapter_id gate cid x = true).
Proof.
  intros Hinit Hids. pose proof (init_loaded _ _ _ Hinit) as Hl.
  assert (Hv : forall cid x,
     validate_chapter_id gate cid x = true <->
     exists ch, ch ∈ chapter_index (artifacts gate)
                /\ ch_book_id ch = x /\ ch_chapter_id ch = Some cid).
  { intros cid x. unfold validate_chapter_id.
    rewrite Hl. cbn [chapters_by_book chapter_index build_indexes].
    rewrite index_chapters_by_book_order, existsb_exists. split.
    - intros (ch & Hin & Heq). apply bool_decide_eq_true in Heq.
      apply list_elem_of_In in Hin. apply list_elem_of_filter in Hin as [? ?].
      by exists ch.
    - intros (ch & Hin & Hb & Hc). exists ch. split.
      + apply list_elem_of_In. by apply list_elem_of_filter.
      + by apply bool_decide_eq_true. }
  split; [exact Hv|].
  intros book_ids max x chapters ch Hmax Hget Hch.
  rewrite get_candidate_chapters_lookup in Hget.
  destruct (decide (x ∈ book_ids)); [|discriminate]. injection Hget as <-.
  rewrite slice_to_nonneg in Hch by done.
  apply (gate_chapter_in_catalog _ _ _ _ Hl) in Hch as [Hin Hb].
  rewrite Forall_forall in Hids. destruct (Hids ch Hin) as [cid Hcid].
  exists cid. split; [exact Hcid|]. apply Hv. by exists ch.
Qed.

End gate_files.

Lemma X8_witness :
  exists chapters,
    taxonomy_v2.chapter_index_files demo.dir !! taxonomy_v2.version demo.gate
      = Some chapters
    /\ taxonomy_v2.get_candidate_chapters demo.gate
         ["book_e500fb226315"; "book_d9d95145167f"] 2 !! "book_d9d95145167f"
       = Some (take (Z.to_nat 2)
                 (filter (fun ch => ch_book_id ch = "book_d9d95145167f") chapters)).
Proof.
  apply (X8_candidate_chapters_in_index_order demo.dir None demo.gate
           ["book_e500fb226315"; "book_d9d95145167f"] 2 "book_d9d95145167f").
  - vm_compute. reflexivity.
  - lia.
  - right; left.
Defined.

Lemma X9_witness :
  taxonomy_v2.get_book_metadata demo.gate "book_e500fb226315"
    = last (filter (fun b => taxonomy_v2.book_id b = "book_e500fb226315")
                   (taxonomy_v2.book_index (taxonomy_v2.artifacts demo.gate)))
  /\ (taxonomy_v2.validate_book_id demo.gate "book_e500fb226315" = true <->
      is_Some (taxonomy_v2.get_book_metadata demo.gate "book_e500fb226315")).
Proof.
  destruct (X9_book_metadata_is_last_entry demo.dir None demo.gate "book_e500fb226315")
    as (H1 & H2 & _).
  - vm_compute. reflexivity.
  - split; [exact H1|exact H2].
Defined.

Lemma X10_witness :
  taxonomy_v2.validate_chapter_id demo.gate "ch_m2" "book_d9d95145167f" = true <->
  exists ch, ch ∈ taxonomy_v2.chapter_index (taxonomy_v2.artifacts demo.gate)
             /\ ch_book_id ch = "book_d9d95145167f" /\ ch_chapter_id ch = Some "ch_m2".
Proof.
  apply (X10_validate_chapter_id_indexed demo.dir None demo.gate).
  - vm_compute. reflexivity.
  - repeat constructor; by eexists.
Defined.

(** ** The hardcoded table (V1): lookups and validation *)

Section taxonomy_v1_validation.

Import taxonomy.

(** The key a mapping is filed under. *)
Definition v1_key (mapping : TaxonomyMapping) : string :=
  domain mapping ++ "::" ++ py.str_or (subdomain mapping) "*".

Lemma build_index_lookup table key x :
  x ∈ default [] (_build_index table !! key) <->
  exists mapping, mapping ∈ table /\ v1_key mapping = key /\ x ∈ book_ids mapping.
Proof.
  unfold _build_index.
  assert (G : forall (idx : gmap string (list string)),
    x ∈ default [] (foldl (fun idx mapping =>
           let key := domain mapping ++ "::" ++ py.str_or (subdomain mapping) "*" in
           <[key := (default [] (idx !! key) ++ book_ids mapping)%list]> idx) idx table !! key)
    <-> x ∈ default [] (idx !! key)
        \/ exists mapping, mapping ∈ table /\ v1_key mapping = key /\ x ∈ book_ids mapping).
  { induction table as [|m table IH]; intros idx; cbn [foldl].
    - split; [by left|]. intros [?|(? & H & _)]; [done|]. by apply elem_of_nil in H.
    - rewrite IH. cbv zeta. fold (v1_key m).
      destruct (decide (v1_key m = key)) as [He|Hne].
      + rewrite He, lookup_insert_eq. cbn [default Datatypes.id].
        rewrite elem_of_app. split.
        * intros [[?|?]|(m' & ? & ? & ?)]; [by left| |].
          -- right. exists m. split; [left|done].
          -- right. exists m'. split; [by right|done].
        * intros [?|(m' & [->|?]%elem_of_cons & ? & ?)].
          -- left; by left.
          -- left; by right.
          -- right. by exists m'.
      + rewrite lookup_insert_ne by done. split.
        * intros [?|(m' & ? & ? & ?)]; [by left|].
          right. exists m'. split; [by right|done].
        * intros [?|(m' & [->|?]%elem_of_cons & ? & ?)]; [by left|done|].
          right. by exists m'. }
  rewrite G, lookup_empty. cbn [default]. split.
  - intros [H|H]; [by apply elem_of_nil in H|exact H].
  - by right.
Qed.

Lemma all_book_ids_in_spec table x :
  x ∈ all_book_ids_in table <-> exists mapping, mapping ∈ table /\ x ∈ book_ids mapping.
Proof.
  unfold all_book_ids_in.
  assert (G : forall (acc : gset string),
    x ∈ foldl (fun all_ids mapping => all_ids ∪ list_to_set (book_ids mapping)) acc table
    <-> x ∈ acc \/ exists mapping, mapping ∈ table /\ x ∈ book_ids mapping).
  { induction table as [|m table IH]; intros acc; cbn [foldl].
    - split; [by left|]. intros [?|(? & H & _)]; [done|]. by apply elem_of_nil in H.
    - rewrite IH, elem_of_union, elem_of_list_to_set. split.
      + intros [[?|?]|(m' & ? & ?)]; [by left| |].
        * right. exists m. split; [left|done].
        * right. exists m'. split; [by right|done].
      + intros [?|(m' & [->|?]%elem_of_cons & ?)].
        * left; by left.
        * left; by right.
        * right. by exists m'. }
  rewrite G. split; [intros [H|H]; [set_solver|exact H]|by right].
Qed.

Lemma validate_book_id_spec x :
  validate_book_id x = true <-> exists mapping, mapping ∈ TAXONOMY /\ x ∈ book_ids mapping.
Proof.
  unfold validate_book_id. rewrite existsb_exists. split.
  - intros (m & Hin & Hx). exists m. split; [by apply list_elem_of_In|].
    by apply bool_decide_eq_true in Hx.
  - intros (m & Hin & Hx). exists m. split; [by apply list_elem_of_In|].
    by apply bool_decide_eq_true.
Qed.

(** X11. The V1 [validate_book_id] accepts exactly the members of
    [get_all_taxonomy_book_ids()]. *)
Theorem X11_v1_validate_is_membership x :
  validate_book_id x = true <-> x ∈ get_all_taxonomy_book_ids.
Proof.
  unfold get_all_taxonomy_book_ids.
  by rewrite validate_book_id_spec, all_book_ids_in_spec.
Qed.

(** X12. Every id the V1 lookup returns passes the V1
    [validate_book_id] and is a member of [get_all_taxonomy_book_ids()],
    for any domain, subdomain and bound (a negative one too), and the
    list has no repetition. *)
Theorem X12_v1_candidates_are_valid (set_iter : gset string -> list string)
    domain subdomain (max_books : Z) :
  enumerates set_iter ->
  let result := get_candidate_books set_iter domain subdomain max_books in
  (forall x, x ∈ result ->
     validate_book_id x = true /\ x ∈ get_all_taxonomy_book_ids)
  /\ NoDup result.
Proof.
  intros Henum result. split.
  - intros x Hx.
    assert (Hv : validate_book_id x = true).
    { subst result. unfold get_candidate_books, get_candidate_books_in in Hx.
      apply slice_to_subseteq in Hx.
      apply (enumerates_elem_of _ Henum) in Hx.
      assert (Hkey : forall key ids,
        _TAXONOMY_INDEX !! key = Some ids -> x ∈ ids -> validate_book_id x = true).
      { intros key ids Hk Hin. apply validate_book_id_spec.
        destruct (proj1 (build_index_lookup TAXONOMY key x)) as (m & Hm & _ & Hxm).
        - fold _TAXONOMY_INDEX. by rewrite Hk.
        - by exists m. }
      destruct subdomain as [s|]; [destruct (String.eqb s "")|]; cbn [negb] in Hx;
        repeat match type of Hx with
               | context [_TAXONOMY_INDEX !! ?k] =>
                   let E := fresh "E" in
                   destruct (_TAXONOMY_INDEX !! k) eqn:E
               end;
        repeat match goal with
               | H : _ ∈ _ ∪ _ |- _ => apply elem_of_union in H as [H|H]
               | H : _ ∈ list_to_set _ |- _ => apply elem_of_list_to_set in H
               | H : _ ∈ ∅ |- _ => by apply elem_of_empty in H
               end; eauto. }
    split; [exact Hv|]. unfold get_all_taxonomy_book_ids.
    apply all_book_ids_in_spec. by apply validate_book_id_spec.
  - subst result. unfold get_candidate_books, get_candidate_books_in, py.slice_to.
    destruct (0 <=? max_books)%Z;
      (eapply sublist_NoDup; [|apply sublist_take]); by apply enumerates_NoDup.
Qed.

End taxonomy_v1_validation.

Lemma X12_witness :
  (forall x, x ∈ taxonomy.get_candidate_books elements "Strategy"
                   (Some "Military Strategy") (-1) ->
     taxonomy.validate_book_id x = true /\ x ∈ taxonomy.get_all_taxonomy_book_ids)
  /\ NoDup (taxonomy.get_candidate_books elements "Strategy"
              (Some "Military Strategy") (-1)).
Proof.
  apply (X12_v1_candidates_are_valid elements "Strategy" (Some "Military Strategy") (-1)).
  intros X. reflexivity.
Defined.

(** ** The validator and the proposal *)

Section validator_proposal.

Variable set_iter : gset string -> list string.

(** A kept recommendation and the proposed one it was made from: the
    book id is the proposed one, the rationale the proposed one (or the
    default text) cut to 200. *)
Definition rec_from (rec : json) (r : ReadingRecommendation) : Prop :=
  py.get rec "book_id" JNull = Ok (JStr (book_id r))
  /\ exists rat,
       py.get rec "rationale" (JStr "Relevant to your question") = Ok rat
       /\ py.slice_prefix 200 rat = Ok (rationale r).

(** A kept path and the proposed one: the angle is the proposed one (or
    the default text) cut to 100, and the recommendations are made, in
    order, from some of the proposed ones. *)
Definition path_from (path_data : json) (p : ReadingPath) : Prop :=
  exists angle_v recs_v recs kept,
    py.get path_data "angle" (JStr "Reading path") = Ok angle_v
    /\ py.slice_prefix 100 angle_v = Ok (angle p)
    /\ py.get path_data "recommendations" (JList []) = Ok recs_v
    /\ py.iter recs_v = Ok recs
    /\ kept `sublist_of` recs
    /\ Forall2 rec_from kept (recommendations p)
    /\ recommendations p <> [].

Lemma validate_rec_from gate_now books_by_id chapters_by_book rec r :
  validate_rec gate_now books_by_id chapters_by_book rec = Ok (Keep r) -> rec_from rec r.
Proof.
  unfold validate_rec, rec_from. destruct rec as [| | | |?|d]; try discriminate.
  cbn [py.get mbind outcome_bind].
  destruct (negb (py.truthy _)); [discriminate|].
  destruct (match py.assoc "book_id" d with Some x => x | None => JNull end)
    as [| | |bid| |]; cbn [dict_contains mbind outcome_bind negb]; try discriminate.
  destruct (bool_decide _); cbn [negb]; [|discriminate].
  destruct gate_now as [gate|e]; cbn [mbind outcome_bind]; [|discriminate].
  destruct (taxonomy_v2.validate_book_id gate bid); cbn [negb]; [|discriminate].
  destruct (books_by_id !! bid) as [b|]; [|discriminate].
  destruct (resolve_chapter _ _) as [[ch ch_num]|]; [|discriminate].
  destruct (py.slice_prefix 200 _) as [rat|e] eqn:Es;
    cbn [mbind outcome_bind]; [|discriminate].
  intros [= <-]. cbn [book_id rationale]. split; [reflexivity|].
  eexists. split; [reflexivity|exact Es].
Qed.

(** The inner loop appends, in order, what the validator keeps of some
    of the proposed recommendations. *)
Lemma recs_loop_kept gate_now books_by_id chapters_by_book recs :
  forall total acc total' acc',
    recs_loop gate_now books_by_id chapters_by_book recs total acc = Ok (total', acc') ->
    exists kept new,
      acc' = (acc ++ new)%list
      /\ total' = total + length new
      /\ kept `sublist_of` recs
      /\ Forall2 (fun rec r =>
           validate_rec gate_now books_by_id chapters_by_book rec = Ok (Keep r)) kept new.
Proof.
  induction recs as [|rec recs IH]; intros total acc total' acc'; cbn [recs_loop].
  - intros [= <- <-]. exists [], []. rewrite app_nil_r. cbn.
    repeat split; [lia|constructor|constructor].
  - destruct (6 <=? total)%nat.
    + intros [= <- <-]. exists [], []. rewrite app_nil_r. cbn.
      repeat split; [lia|apply sublist_nil_l|constructor].
    + destruct (validate_rec _ _ _ rec) as [[r|]|e] eqn:Ev;
        cbn [mbind outcome_bind]; [| |discriminate].
      * intros H. apply IH in H as (kept & new & -> & -> & Hs & Hf).
        exists (rec :: kept), (r :: new). rewrite <- app_assoc. cbn.
        repeat split; [lia|by apply sublist_skip|by constructor].
      * intros H. apply IH in H as (kept & new & -> & -> & Hs & Hf).
        exists kept, new. repeat split; [by apply sublist_cons|done].
Qed.

(** The outer loop appends, in order, paths made from some of the
    proposed ones. *)
Lemma paths_loop_kept gate_now books_by_id chapters_by_book path_items :
  forall path_count total paths paths',
    paths_loop gate_now books_by_id chapters_by_book path_items
               path_count total paths = Ok paths' ->
    exists kept new,
      paths' = (paths ++ new)%list
      /\ kept `sublist_of` path_items
      /\ Forall2 path_from kept new.
Proof.
  induction path_items as [|pd rest IH];
    intros path_count total paths paths'; cbn [paths_loop].
  - intros [= <-]. exists [], []. rewrite app_nil_r.
    repeat split; constructor.
  - destruct (4 <=? path_count)%nat.
    { intros [= <-]. exists [], []. rewrite app_nil_r.
      repeat split; [apply sublist_nil_l|constructor]. }
    destruct (py.get pd "angle" _) as [angle_v|] eqn:Ea;
      cbn [mbind outcome_bind]; [|discriminate].
    destruct (py.get pd "recommendations" _) as [recs_v|] eqn:Eg;
      cbn [mbind outcome_bind]; [|discriminate].
    destruct (py.iter recs_v) as [recs|] eqn:Ei; cbn [mbind outcome_bind]; [|discriminate].
    destruct (recs_loop _ _ _ recs total []) as [[total' new]|] eqn:Er;
      cbn [mbind outcome_bind fst snd]; [|discriminate].
    apply recs_loop_kept in Er as (keptr & new' & Hnew & -> & Hs & Hf).
    cbn in Hnew. subst new'.
    destruct new as [|r new].
    + intros H. apply IH in H as (kept & newp & -> & Hsp & Hfp).
      exists kept, newp. repeat split; [by apply sublist_cons|done].
    + destruct (py.slice_prefix 100 angle_v) as [a|] eqn:Es;
        cbn [mbind outcome_bind]; [|discriminate].
      intros H. apply IH in H as (kept & newp & -> & Hsp & Hfp).
      exists (pd :: kept), ({| angle := a; recommendations := r :: new |} :: newp).
      rewrite <- app_assoc. cbn [app].
      repeat split; [by apply sublist_skip|].
      constructor; [|exact Hfp].
      exists angle_v, recs_v, recs, keptr. cbn [angle recommendations].
      repeat split; try done.
      eapply Forall2_impl; [exact Hf|]. intros ? ?. apply validate_rec_from.
Qed.

Lemma llm_route_try_follows gate_now proposer question domain subdomain
    available_books chapters_by_book r :
  snd (_llm_route_try set_iter gate_now proposer question domain subdomain
                      available_books chapters_by_book) = Ok r ->
  is_valid r = true ->
  exists result paths_v path_items kept,
    proposer = Ok result
    /\ py.get result "paths" (JList []) = Ok paths_v
    /\ py.iter paths_v = Ok path_items
    /\ kept `sublist_of` path_items
    /\ Forall2 path_from kept (paths r).
Proof.
  unfold _llm_route_try.
  destruct gate_now as [gate|e]; [|discriminate].
  cbv zeta.
  destruct (taxonomy_v2.get_candidate_books _ _ _ _ _) as [|c0 cs]; cbn [snd].
  { intros [= <-]. discriminate. }
  destruct (filter _ available_books) as [|b0 bs].
  { intros [= <-]. discriminate. }
  destruct proposer as [result|e]; cbn [mbind outcome_bind]; [|discriminate].
  destruct (py.get result "paths" _) as [paths_v|] eqn:Eg;
    cbn [mbind outcome_bind]; [|discriminate].
  destruct (py.iter paths_v) as [items|] eqn:Ei; cbn [mbind outcome_bind]; [|discriminate].
  destruct (paths_loop _ _ _ items 0 0 []) as [ps|] eqn:Ep;
    cbn [mbind outcome_bind]; [|discriminate].
  apply paths_loop_kept in Ep as (kept & new & -> & Hs & Hf).
  cbn [app] in *.
  destruct new as [|p ps].
  { intros [= <-]. discriminate. }
  intros [= <-] _. exists result, paths_v, items, kept. by repeat split.
Qed.

(** X13. A valid result of the [try] body of [_llm_route] invents
    nothing and reorders nothing: its paths are made, in order, from some
    of the paths the proposer returned, each with the proposed angle cut
    to 100 and recommendations made, in order, from some of those proposed
    for that path, each with the proposed book id and the proposed
    rationale cut to 200. *)
Theorem X13_valid_result_follows_proposal gate_now proposer question domain subdomain
    available_books chapters_by_book r :
  snd (_llm_route_try set_iter gate_now proposer question domain subdomain
                      available_books chapters_by_book) = Ok r ->
  is_valid r = true ->
  exists result paths_v path_items kept,
    proposer = Ok result
    /\ py.get result "paths" (JList []) = Ok paths_v
    /\ py.iter paths_v = Ok path_items
    /\ kept `sublist_of` path_items
    /\ Forall2 path_from kept (paths r).
Proof. apply llm_route_try_follows. Qed.

(** A text of at most [n] characters, or a list of at most [n] items. *)
Definition text_within (n : nat) (v : json) : Prop :=
  match v with
  | JStr s => String.length s <= n
  | JList l => length l <= n
  | _ => False
  end.

Lemma substring_length n s : String.length (String.substring 0 n s) <= n.
Proof.
  revert s. induction n as [|n IH]; intros [|c s]; cbn; try lia.
  specialize (IH s). lia.
Qed.

Lemma slice_prefix_within n v w : py.slice_prefix n v = Ok w -> text_within n w.
Proof.
  destruct v; cbn; try discriminate; intros [= <-]; cbn.
  - apply substring_length.
  - rewrite length_take. lia.
Qed.

(** The texts of a path fit: the angle in 100, each rationale in 200. *)
Definition texts_fit (p : ReadingPath) : Prop :=
  text_within 100 (angle p)
  /\ Forall (fun rec => text_within 200 (rationale rec)) (recommendations p).

Lemma path_from_texts_fit pd p : path_from pd p -> texts_fit p.
Proof.
  intros (angle_v & recs_v & recs & kept & _ & Ha & _ & _ & _ & Hf & _).
  split; [by eapply slice_prefix_within|].
  induction Hf as [|rec r kept' rs (_ & rat & _ & Hr) _ IH]; constructor;
    [by eapply slice_prefix_within|exact IH].
Qed.

Lemma mock_route_texts_fit question domain subdomain available_books chapters_by_book :
  Forall texts_fit
    (paths (_mock_route question domain subdomain available_books chapters_by_book)).
Proof.
  unfold _mock_route, mock_path, texts_fit.
  destruct available_books as [|b1 [|b2 others]]; cbn [paths app]; [constructor| |];
    repeat match goal with
           | |- context [mock_chapter ?c ?m] => destruct (mock_chapter c m) as [[? ?] ?]
           end;
    repeat constructor; cbn; lia.
Qed.

(** X14. In every result of [_llm_route], whatever the proposer
    returned, an angle has at most 100 characters and a rationale at most
    200 (or, for a proposal that sent lists, as many items). *)
Theorem X14_angle_and_rationale_cut gate_now proposer question domain subdomain
    available_books chapters_by_book :
  Forall texts_fit
    (paths (_llm_route set_iter gate_now proposer question domain subdomain
                       available_books chapters_by_book)).
Proof.
  unfold _llm_route. cbv zeta.
  destruct (snd (_llm_route_try _ _ _ _ _ _ _ _)) as [r|e] eqn:E.
  - destruct (is_valid r) eqn:Hv.
    + destruct (llm_route_try_follows _ _ _ _ _ _ _ _ E Hv)
        as (_ & _ & _ & kept & _ & _ & _ & _ & Hf).
      induction Hf; constructor; [by eapply path_from_texts_fit|assumption].
    + apply llm_route_try_Ok in E as [[_ ->]|[Ht _]]; [constructor|congruence].
  - destruct (isinstance_ValueError e); [constructor|apply mock_route_texts_fit].
Qed.

(** The reasons [_llm_route] refuses with. *)
Definition refusal_reasons (domain : string) (subdomain : option string) : list string :=
  [ "No books mapped to " ++ domain ++ "/" ++ py.str_or subdomain "general"
      ++ " in taxonomy";
    "No candidate books available";
    "Could not identify relevant reading for this question";
    "Error processing routing request" ].

Lemma llm_route_try_shape gate_now proposer question domain subdomain
    available_books chapters_by_book r :
  snd (_llm_route_try set_iter gate_now proposer question domain subdomain
                      available_books chapters_by_book) = Ok r ->
  (is_valid r = true /\ refusal_reason r = None /\ paths r <> [])
  \/ (exists reason, r = refusal reason /\ reason ∈ refusal_reasons domain subdomain).
Proof.
  unfold _llm_route_try, refusal_reasons.
  destruct gate_now as [gate|e]; [|discriminate].
  cbv zeta.
  destruct (taxonomy_v2.get_candidate_books _ _ _ _ _) as [|c0 cs]; cbn [snd].
  { intros [= <-]. right. eexists. split; [reflexivity|]. left. }
  destruct (filter _ available_books) as [|b0 bs].
  { intros [= <-]. right. eexists. split; [reflexivity|]. right; left. }
  destruct proposer as [result|e]; cbn [mbind outcome_bind]; [|discriminate].
  destruct (py.get result "paths" _) as [paths_v|]; cbn [mbind outcome_bind]; [|discriminate].
  destruct (py.iter paths_v) as [items|]; cbn [mbind outcome_bind]; [|discriminate].
  destruct (paths_loop _ _ _ items 0 0 []) as [[|p ps]|];
    cbn [mbind outcome_bind]; [| |discriminate].
  - intros [= <-]. right. eexists. split; [reflexivity|]. right; right; left.
  - intros [= <-]. left. by repeat split.
Qed.

(** X15. The shape of every result of [_llm_route]: it has a refusal
    reason exactly when it has no path; an invalid result has no path and
    one of four reasons; a valid result without a path arises only when
    the body failed with something other than a [ValueError] and no book
    was available. *)
Theorem X15_result_shape gate_now proposer question domain subdomain
    available_books chapters_by_book :
  let body := _llm_route_try set_iter gate_now proposer question domain subdomain
                             available_books chapters_by_book in
  let r := _llm_route set_iter gate_now proposer question domain subdomain
                      available_books chapters_by_book in
  (paths r = [] <-> is_Some (refusal_reason r))
  /\ (is_valid r = false ->
      exists reason, r = refusal reason /\ reason ∈ refusal_reasons domain subdomain)
  /\ (is_valid r = true -> paths r = [] ->
      available_books = []
      /\ refusal_reason r = Some "No books available in this domain."
      /\ exists e, snd body = Raise e /\ isinstance_ValueError e = false).
Proof.
  cbv zeta. unfold _llm_route. cbv zeta.
  destruct (snd (_llm_route_try _ _ _ _ _ _ _ _)) as [r|e] eqn:E.
  - apply llm_route_try_shape in E as [(Hv & Hr & Hp)|(reason & -> & Hin)].
    + rewrite Hv, Hr. split; [|split].
      * split; [done|]. by intros [? ?].
      * discriminate.
      * done.
    + cbn [refusal paths is_valid refusal_reason]. split; [|split].
      * split; [by eexists|done].
      * intros _. by exists reason.
      * discriminate.
  - destruct (isinstance_ValueError e) eqn:Ee.
    + cbn [refusal paths is_valid refusal_reason]. split; [|split].
      * split; [by eexists|done].
      * intros _. eexists. split; [reflexivity|].
        unfold refusal_reasons. do 3 right. left.
      * discriminate.
    + destruct available_books as [|b1 others]; cbn [_mock_route].
      * cbn [paths is_valid refusal_reason]. split; [|split].
        -- split; [by eexists|done].
        -- discriminate.
        -- intros _ _. repeat split. by exists e.
      * cbn [paths is_valid refusal_reason]. split; [|split].
        -- split; [by destruct others|by intros [? ?]].
        -- discriminate.
        -- intros _. by destruct others.
Qed.

End validator_proposal.

Lemma X13_witness :
  exists result paths_v path_items kept,
    Ok demo_route.three_in_one_path = Ok result
    /\ py.get result "paths" (JList []) = Ok paths_v
    /\ py.iter paths_v = Ok path_items
    /\ kept `sublist_of` path_items
    /\ Forall2 path_from kept
         (paths (_llm_route elements (Ok demo.gate) (Ok demo_route.three_in_one_path)
                   demo_route.question "Philosophy" (Some "Stoicism")
                   [demo_route.meditations] ∅)).
Proof.
  apply (X13_valid_result_follows_proposal elements (Ok demo.gate)
           (Ok demo_route.three_in_one_path) demo_route.question
           "Philosophy" (Some "Stoicism") [demo_route.meditations] ∅).
  - vm_compute. reflexivity.
  - vm_compute. reflexivity.
Defined.

(** ** The router and its cache *)

Section route_cache.

Variable sha256_hexdigest : string -> string.
Variable set_iter : gset string -> list string.

(** After a miss the key is not in the cache, and the TTL is the same. *)
Lemma get_miss_absent self gate_now now query domain subdomain :
  let looked := routing_cache.get sha256_hexdigest self gate_now now
                                  query domain subdomain in
  routing_cache.ttl_seconds (snd looked) = routing_cache.ttl_seconds self
  /\ (fst looked = None ->
      routing_cache.cache (snd looked)
        !! routing_cache._compute_cache_key sha256_hexdigest gate_now
             query domain subdomain = None).
Proof.
  cbv zeta. unfold routing_cache.get.
  destruct (routing_cache.cache self !! _) as [entry|] eqn:E; cbn [fst snd].
  - destruct (negb (Qle_bool _ _)); cbn [fst snd routing_cache.record_miss
      routing_cache.cache routing_cache.ttl_seconds].
    { split; [reflexivity|]. intros _. apply lookup_delete_eq. }
    destruct (negb (_ =? _)%Z); cbn [fst snd routing_cache.record_miss
      routing_cache.cache routing_cache.ttl_seconds].
    { split; [reflexivity|]. intros _. apply lookup_delete_eq. }
    split; [reflexivity|discriminate].
  - cbn [routing_cache.record_miss routing_cache.cache routing_cache.ttl_seconds].
    split; [reflexivity|]. intros _. exact E.
Qed.

Lemma get_absent self gate_now now query domain subdomain :
  routing_cache.cache self
    !! routing_cache._compute_cache_key sha256_hexdigest gate_now
         query domain subdomain = None ->
  fst (routing_cache.get sha256_hexdigest self gate_now now query domain subdomain) = None.
Proof. intros H. unfold routing_cache.get. by rewrite H. Qed.

(** X16. Outside mock mode, after a miss: a valid result is stored,
    and a second call for the same question, domain and subdomain under
    the same artifact version and within the TTL returns that result,
    whatever the proposer, the books and the chapters of the second call
    are; an invalid result is not stored, and the second call routes
    again. *)
Theorem X16_repeat_served_from_cache _cache gate_now gate_now' proposer proposer'
    (now_get now_set now_get' now_set' : Q) question domain subdomain
    available_books available_books' chapters chapters' :
  let self := fst (routing_cache.get_routing_cache _cache) in
  let looked := routing_cache.get sha256_hexdigest self gate_now now_get
                                  question domain subdomain in
  let out := route sha256_hexdigest set_iter false _cache gate_now proposer
                   now_get now_set question domain subdomain
                   available_books chapters in
  let again := fun g now =>
    route sha256_hexdigest set_iter false (snd out) g proposer'
          now now_set' question domain subdomain available_books' chapters' in
  fst looked = None ->
  (is_valid (fst out) = true ->
   routing_cache.get_taxonomy_version gate_now'
     = routing_cache.get_taxonomy_version gate_now ->
   Qle_bool (now_get' - now_set) (inject_Z (routing_cache.ttl_seconds self)) = true ->
   fst (again gate_now' now_get') = fst out)
  /\ (is_valid (fst out) = false ->
      snd out = Some (snd looked)
      /\ fst (again gate_now now_get')
         = _llm_route set_iter gate_now proposer' question domain subdomain
                      available_books' (default ∅ chapters')).
Proof.
  intros self looked out again Hmiss.
  assert (Hout : out = (_llm_route set_iter gate_now proposer question domain subdomain
                           available_books (default ∅ chapters),
       Some (if is_valid (_llm_route set_iter gate_now proposer question domain subdomain
                           available_books (default ∅ chapters))
             then routing_cache.set sha256_hexdigest (snd looked) gate_now now_set
                                    question domain subdomain
                    (_llm_route set_iter gate_now proposer question domain subdomain
                           available_books (default ∅ chapters))
             else snd looked))).
  { subst out. by apply route_on_miss. }
  destruct (get_miss_absent self gate_now now_get question domain subdomain)
    as [Httl Habs].
  fold looked in Httl, Habs. specialize (Habs Hmiss).
  subst again. cbv beta. rewrite Hout. cbn [fst snd]. split.
  - intros Hv Hver Hin. rewrite Hv. unfold route.
    cbn [routing_cache.get_routing_cache fst].
    rewrite (get_after_set sha256_hexdigest) by done.
    rewrite Httl, Hin. reflexivity.
  - intros Hv. rewrite Hv. split; [reflexivity|].
    rewrite route_on_miss; [reflexivity|].
    cbn [routing_cache.get_routing_cache fst]. by apply get_absent.
Qed.

End route_cache.

(** ** Proposals the validator keeps whole *)

Section validator_complete.

(** A proposed path the validator accepts as it is: every proposed
    recommendation is kept. *)
Definition accepted (gate_now : outcome taxonomy_v2.TaxonomyGateV2)
    (books_by_id : gmap string book) (chapters_by_book : gmap string (list chapter))
    (path_data : json) (p : ReadingPath) : Prop :=
  exists angle_v recs_v recs,
    py.get path_data "angle" (JStr "Reading path") = Ok angle_v
    /\ py.slice_prefix 100 angle_v = Ok (angle p)
    /\ py.get path_data "recommendations" (JList []) = Ok recs_v
    /\ py.iter recs_v = Ok recs
    /\ Forall2 (fun rec r =>
         validate_rec gate_now books_by_id chapters_by_book rec = Ok (Keep r))
         recs (recommendations p)
    /\ recommendations p <> [].

Lemma recs_loop_all gate_now books_by_id chapters_by_book recs new :
  Forall2 (fun rec r =>
     validate_rec gate_now books_by_id chapters_by_book rec = Ok (Keep r)) recs new ->
  forall total acc,
    total + length new <= 6 ->
    recs_loop gate_now books_by_id chapters_by_book recs total acc
      = Ok (total + length new, (acc ++ new)%list).
Proof.
  induction 1 as [|rec r recs new Hv _ IH]; intros total acc Hle; cbn [recs_loop].
  - cbn. by rewrite Nat.add_0_r, app_nil_r.
  - cbn [length] in Hle.
    destruct (6 <=? total)%nat eqn:E6; [apply Nat.leb_le in E6; lia|].
    rewrite Hv. cbn [mbind outcome_bind].
    rewrite IH by lia. rewrite <- app_assoc. cbn [length app].
    do 2 f_equal. lia.
Qed.

Lemma paths_loop_all gate_now books_by_id chapters_by_book path_items ps :
  Forall2 (accepted gate_now books_by_id chapters_by_book) path_items ps ->
  forall path_count total paths,
    path_count + length ps <= 4 ->
    total + total_recs_of ps <= 6 ->
    paths_loop gate_now books_by_id chapters_by_book path_items path_count total paths
      = Ok (paths ++ ps)%list.
Proof.
  induction 1 as [|pd p items ps Hacc _ IH]; intros path_count total paths H4 H6;
    cbn [paths_loop].
  - by rewrite app_nil_r.
  - cbn [length] in H4.
    change (total_recs_of (p :: ps))
      with (length (recommendations p) + total_recs_of ps) in H6.
    destruct (4 <=? path_count)%nat eqn:E4; [apply Nat.leb_le in E4; lia|].
    destruct Hacc as (angle_v & recs_v & recs & Ha & Hs & Hg & Hi & Hf & Hne).
    rewrite Ha, Hg. cbn [mbind outcome_bind]. rewrite Hi. cbn [mbind outcome_bind].
    rewrite (recs_loop_all _ _ _ _ _ Hf) by lia.
    cbn [mbind outcome_bind fst snd app].
    destruct p as [a rs]. cbn [recommendations angle] in *.
    destruct rs as [|r rs]; [done|].
    rewrite Hs. cbn [mbind outcome_bind].
    rewrite IH by (cbn [length] in *; lia).
    by rewrite <- app_assoc.
Qed.

(** X17. A proposal within the caps whose recommendations the
    validator all keeps comes out whole: with at most 4 proposed paths, at
    most 6 proposed recommendations in all and none of them discarded, the
    outer loop returns one path per proposed path, in order, with one
    recommendation per proposed one. *)
Theorem X17_proposal_within_caps_kept_whole gate_now books_by_id chapters_by_book
    path_items ps :
  Forall2 (accepted gate_now books_by_id chapters_by_book) path_items ps ->
  length ps <= 4 ->
  total_recs_of ps <= 6 ->
  paths_loop gate_now books_by_id chapters_by_book path_items 0 0 [] = Ok ps.
Proof.
  intros Hf H4 H6. by rewrite (paths_loop_all _ _ _ _ _ Hf).
Qed.

End validator_complete.

Lemma X16_witness :
  let out := route demo_cache.plain_digest elements false None (Ok demo.gate)
                   (Ok demo_route.one_path) 1000 1001 demo_route.question
                   "Philosophy" (Some "Stoicism") [demo_route.meditations] None in
  fst (route demo_cache.plain_digest elements false (snd out) (Ok demo.gate)
             (Raise APITimeoutError) 2000 2001 demo_route.question
             "Philosophy" (Some "Stoicism") [] None) = fst out.
Proof.
  cbv zeta.
  apply (proj1 (X16_repeat_served_from_cache demo_cache.plain_digest elements
                  None (Ok demo.gate) (Ok demo.gate)
                  (Ok demo_route.one_path) (Raise APITimeoutError)
                  1000 1001 2000 2001 demo_route.question
                  "Philosophy" (Some "Stoicism") [demo_route.meditations] [] None None
                  ltac:(vm_compute; reflexivity))).
  - vm_compute. reflexivity.
  - reflexivity.
  - vm_compute. reflexivity.
Defined.

Lemma X17_witness :
  paths_loop (Ok demo.gate) (index_by_id [demo_route.meditations])
             demo_route.gate_chapters
             [ demo_route.path "Stoic practice"
                 [ demo_route.proposed "book_d9d95145167f" 2 "On what is in our control" ] ]
             0 0 []
  = Ok [ {| angle := JStr "Stoic practice";
            recommendations :=
              [ {| book_id := "book_d9d95145167f"; book_title := "Meditations";
                   book_author := "Marcus Aurelius";
                   chapter_id := "ch_book_d9d95145167f_2";
                   chapter_number := JInt 2; chapter_title := "Book Two";
                   rationale := JStr "On what is in our control" |} ] |} ].
Proof.
  apply X17_proposal_within_caps_kept_whole.
  - constructor; [|constructor].
    exists (JStr "Stoic practice"),
           (JList [ demo_route.proposed "book_d9d95145167f" 2 "On what is in our control" ]),
           [ demo_route.proposed "book_d9d95145167f" 2 "On what is in our control" ].
    split; [reflexivity|]. split; [reflexivity|]. split; [reflexivity|].
    split; [reflexivity|]. split; [|discriminate].
    constructor; [vm_compute; reflexivity|constructor].
  - cbn. lia.
  - cbn. lia.
Defined.

(** ** Results and their flattened view *)

Section flattened.

(** X18. The two views of a result agree: [total_count] is the length
    of the flattened [recommendations], path after path in order, and a
    result without paths has none. *)
Theorem X18_total_count_is_flattened_length (r : RoutingResult) :
  total_count r = length (all_recommendations r)
  /\ (forall rec, rec ∈ all_recommendations r <->
        exists p, p ∈ paths r /\ rec ∈ recommendations p)
  /\ (paths r = [] -> total_count r = 0 /\ all_recommendations r = []).
Proof.
  unfold total_count, all_recommendations. split; [|split].
  - induction (paths r) as [|p ps IH]; [reflexivity|].
    cbn. rewrite length_app. by rewrite IH.
  - intros rec. induction (paths r) as [|p ps IH]; cbn [map concat].
    + split; [by intros ?%elem_of_nil|]. by intros (? & ?%elem_of_nil & _).
    + rewrite elem_of_app, IH. split.
      * intros [H|(q & Hq & H)]; [exists p; split; [left|done]|].
        exists q. split; [by right|done].
      * intros (q & [->|Hq]%elem_of_cons & H); [by left|]. right. by exists q.
  - intros ->. by split.
Qed.

End flattened.

(** ** The domain mapper *)

Section mapper.

Import domain_mapper.

Lemma lower_idem s : py.lower (py.lower s) = py.lower s.
Proof.
  induction s as [|c s IH]; [reflexivity|].
  cbn [py.lower]. by rewrite lower_ascii_idem, IH.
Qed.

Lemma lower_nonempty s : s <> "" -> py.lower s <> "".
Proof. by destruct s. Qed.

(** An id: in lower case and not one of the display names. *)
Definition is_id (table : gmap string string) (s : string) : Prop :=
  py.lower s = s /\ table !! s = None.

Lemma lowercase_not_a_name (l : list (string * string)) s :
  Forall (fun kv => py.lower (fst kv) <> fst kv) l ->
  py.lower s = s ->
  (list_to_map l : gmap string string) !! s = None.
Proof.
  intros Hall Hs. apply not_elem_of_list_to_map_1. intros Hin.
  apply list_elem_of_fmap in Hin as ([k v] & -> & Hin).
  rewrite Forall_forall in Hall. by apply (Hall _ Hin).
Qed.

Lemma table_value (l : list (string * string)) (P : string -> Prop) s v :
  Forall (fun kv => P (snd kv)) l ->
  (list_to_map l : gmap string string) !! s = Some v -> P v.
Proof.
  intros Hall Hs. apply elem_of_list_to_map_2 in Hs.
  rewrite Forall_forall in Hall. by apply (Hall _ Hs).
Qed.

Lemma domain_id_is_id name : is_id DOMAIN_NAME_TO_ID (domain_name_to_id name).
Proof.
  assert (Hlow : forall s, py.lower s = s -> DOMAIN_NAME_TO_ID !! s = None).
  { intros s. apply lowercase_not_a_name. repeat constructor; discriminate. }
  unfold domain_name_to_id.
  destruct (DOMAIN_NAME_TO_ID !! name) as [v|] eqn:E; cbn [default].
  - assert (py.lower v = v) as Hv.
    { revert E. apply (table_value _ (fun v => py.lower v = v)). repeat constructor. }
    split; [exact Hv|by apply Hlow].
  - split; [apply lower_idem|apply Hlow, lower_idem].
Qed.

Lemma subdomain_id_is_id name :
  match subdomain_name_to_id name with
  | Some id => id <> "" /\ is_id SUBDOMAIN_NAME_TO_ID id
  | None => name = None \/ name = Some ""
  end.
Proof.
  assert (Hlow : forall s, py.lower s = s -> SUBDOMAIN_NAME_TO_ID !! s = None).
  { intros s. apply lowercase_not_a_name. repeat constructor; discriminate. }
  unfold subdomain_name_to_id. destruct name as [s|]; [|by left].
  destruct (String.eqb s "") eqn:Es.
  { apply String.eqb_eq in Es as ->. by right. }
  apply String.eqb_neq in Es.
  destruct (SUBDOMAIN_NAME_TO_ID !! s) as [v|] eqn:E; cbn [default].
  - assert (v <> "" /\ py.lower v = v) as [Hne Hv].
    { revert E. apply (table_value _ (fun v => v <> "" /\ py.lower v = v)).
      repeat constructor; discriminate. }
    split; [exact Hne|]. split; [exact Hv|by apply Hlow].
  - split; [by apply lower_nonempty|].
    split; [apply lower_idem|apply Hlow, lower_idem].
Qed.

Definition is_ascii_option (s : option string) : bool :=
  match s with
  | Some x => is_ascii x
  | None => true
  end.

Lemma domain_id_is_ascii name :
  is_ascii name = true -> is_ascii (domain_name_to_id name) = true.
Proof.
  intros Ha. unfold domain_name_to_id.
  destruct (DOMAIN_NAME_TO_ID !! name) as [v|] eqn:E; cbn [default].
  - revert E. apply (table_value _ (fun v => is_ascii v = true)). repeat constructor.
  - by rewrite lower_is_ascii.
Qed.

Lemma subdomain_id_is_ascii name :
  is_ascii_option name = true -> is_ascii_option (subdomain_name_to_id name) = true.
Proof.
  unfold subdomain_name_to_id. destruct name as [s|]; [|reflexivity].
  cbn [is_ascii_option]. intros Ha. destruct (String.eqb s ""); [reflexivity|].
  cbn [is_ascii_option].
  destruct (SUBDOMAIN_NAME_TO_ID !! s) as [v|] eqn:E; cbn [default].
  - revert E. apply (table_value _ (fun v => is_ascii v = true)). repeat constructor.
  - by rewrite lower_is_ascii.
Qed.

(** X19. For ASCII names, the ids [map_to_ids] returns are ASCII, in
    lower case, and pass through it unchanged: mapping the result again
    returns the result.  The subdomain id is [None] exactly when the
    subdomain name is [None] or empty, and it is never the empty
    string. *)
Theorem X19_map_to_ids_stable domain_name subdomain_name :
  is_ascii domain_name = true ->
  is_ascii_option subdomain_name = true ->
  let ids := map_to_ids domain_name subdomain_name in
  (py.lower (fst ids) = fst ids /\ is_ascii (fst ids) = true)
  /\ (snd ids = None <-> subdomain_name = None \/ subdomain_name = Some "")
  /\ (forall id, snd ids = Some id ->
        id <> "" /\ py.lower id = id /\ is_ascii id = true)
  /\ map_to_ids (fst ids) (snd ids) = ids.
Proof.
  intros Had Has. cbv zeta. unfold map_to_ids. cbn [fst snd].
  destruct (domain_id_is_id domain_name) as [Hd1 Hd2].
  pose proof (subdomain_id_is_id subdomain_name) as Hs.
  split; [split; [exact Hd1|by apply domain_id_is_ascii]|]. split; [|split].
  - split.
    + intros Hn. by rewrite Hn in Hs.
    + intros [-> | ->]; reflexivity.
  - intros id Hid. rewrite Hid in Hs. destruct Hs as (Hne & Hl & _).
    split; [exact Hne|]. split; [exact Hl|].
    pose proof (subdomain_id_is_ascii _ Has) as Ha. by rewrite Hid in Ha.
  - f_equal.
    + unfold domain_name_to_id at 1. by rewrite Hd2; cbn [default].
    + destruct (subdomain_name_to_id subdomain_name) as [id|]; [|reflexivity].
      destruct Hs as (Hne & Hl & Hn). unfold subdomain_name_to_id.
      apply String.eqb_neq in Hne. rewrite Hne, Hn. cbn [default]. by rewrite Hl.
Qed.

End mapper.

Lemma X19_witness :
  domain_mapper.map_to_ids "Self-Improvement" (Some "Game Theory")
    = ("psychology", Some "negotiation")
  /\ domain_mapper.map_to_ids "psychology" (Some "negotiation")
     = ("psychology", Some "negotiation").
Proof.
  pose proof (X19_map_to_ids_stable "Self-Improvement" (Some "Game Theory")
                eq_refl eq_refl) as H.
  cbv zeta in H. destruct H as (_ & _ & _ & H).
  split; [reflexivity|exact H].
Defined.

(** ** The provider's retry loop *)

Section provider_retries.

Import llm_provider.

Variable json_loads : string -> outcome json.
Variable create : nat -> outcome string.

#[local] Abbreviation attempt_body := (llm_provider.attempt_body json_loads create).
#[local] Abbreviation call_from := (llm_provider.call_from json_loads create).
#[local] Abbreviation call := (llm_provider.call json_loads create).

(** The local [content] after the requests [a], ..., [a + n - 1]. *)
Definition content_after (content : option string) (a n : nat) : option string :=
  foldl (bind_content create) content (seq a n).

(** What the handlers make of a failure that is not retried. *)
Definition reraised (content : option string) (e : exn) : exn :=
  match e with
  | JSONDecodeError => invalid_json_error content
  | _ => e
  end.

(** The seconds slept before attempts [a], ..., [a + n - 1] failed. *)
Definition backoff (a n : nat) : list Z := map (fun j => 2 ^ Z.of_nat j)%Z (seq a n).

Lemma content_after_reply content a n reply :
  create (a + n) = Ok reply -> content_after content a (S n) = Some reply.
Proof.
  intros H. unfold content_after. rewrite seq_S, foldl_app. cbn [foldl].
  unfold bind_content at 1. by rewrite H.
Qed.

Lemma content_after_no_reply content a n :
  (forall j, a <= j < a + n -> exists e, create j = Raise e) ->
  content_after content a n = content.
Proof.
  unfold content_after. revert a content.
  induction n as [|n IH]; intros a content H; [reflexivity|].
  cbn [seq foldl]. destruct (H a) as [e He]; [lia|].
  unfold bind_content at 2. rewrite He. apply IH. intros j Hj. apply H. lia.
Qed.

Lemma call_from_seq max_retries response_format n :
  forall a content slept,
    Z.of_nat (a + S n) = max_retries ->
    exists k,
      a <= k < a + S n
      /\ (forall j, a <= j < k ->
            exists e, attempt_body response_format j = Raise e /\ is_transient e = true)
      /\ snd (call_from max_retries response_format (seq a (S n)) content slept)
         = (slept ++ backoff a (k - a))%list
      /\ match attempt_body response_format k with
         | Ok parsed =>
             fst (call_from max_retries response_format (seq a (S n)) content slept)
               = Ok parsed
         | Raise e =>
             fst (call_from max_retries response_format (seq a (S n)) content slept)
               = Raise (reraised (content_after content a (S (k - a))) e)
             /\ (is_transient e = true -> Z.of_nat k = (max_retries - 1)%Z)
         end.
Proof.
  induction n as [|n IH]; intros a content slept Hmax.
  - exists a. split; [lia|]. split; [intros j ?; lia|].
    rewrite Nat.sub_diag. unfold backoff, content_after.
    cbn [seq map foldl llm_provider.call_from].
    rewrite app_nil_r.
    destruct (attempt_body response_format a) as [parsed|e]; [by split|].
    destruct (is_transient e) eqn:Et.
    + assert ((Z.of_nat a <? max_retries - 1)%Z = false) as -> by (apply Z.ltb_ge; lia).
      cbn [fst snd]. split; [reflexivity|]. split; [by destruct e|]. intros _. lia.
    + destruct e; try discriminate Et; cbn [fst snd reraised];
        (split; [reflexivity|]); split; try reflexivity; discriminate.
  - change (seq a (S (S n))) with (a :: seq (S a) (S n)).
    cbn [llm_provider.call_from].
    destruct (attempt_body response_format a) as [parsed|e] eqn:Ea.
    + exists a. split; [lia|]. split; [intros j ?; lia|].
      rewrite Nat.sub_diag, Ea. unfold backoff. cbn [seq map fst snd].
      by rewrite app_nil_r.
    + destruct (is_transient e) eqn:Et.
      * assert ((Z.of_nat a <? max_retries - 1)%Z = true) as -> by (apply Z.ltb_lt; lia).
        destruct (IH (S a) (bind_content create content a)
                     (slept ++ [2 ^ Z.of_nat a]%Z)%list)
          as (k & Hk & Hbefore & Hs & Hat); [lia|].
        exists k. split; [lia|]. split.
        { intros j Hj. destruct (decide (j = a)) as [->|Hne]; [by exists e|].
          apply Hbefore. lia. }
        split.
        { rewrite Hs, <- app_assoc. f_equal.
          replace (k - a) with (S (k - S a)) by lia. reflexivity. }
        replace (content_after content a (S (k - a)))
          with (content_after (bind_content create content a) (S a) (S (k - S a)));
          [exact Hat|].
        replace (k - a) with (S (k - S a)) by lia. reflexivity.
      * exists a. split; [lia|]. split; [intros j ?; lia|].
        rewrite Nat.sub_diag, Ea. unfold backoff, content_after. cbn [seq map foldl].
        rewrite app_nil_r.
        destruct e; try discriminate Et; cbn [fst snd reraised];
          (split; [reflexivity|]); split; try reflexivity; discriminate.
Qed.

(** X20. With at least one attempt allowed, [call] is decided by one
    attempt [k]: every attempt before it timed out or was rate limited,
    the seconds slept are 1, 2, 4, ... one wait per failed attempt, and
    attempt [k] either returned (its parse is the result), or failed with
    an error that is raised again; in place of a [JSONDecodeError] the
    handler raises [ValueError] when a reply had been received, and
    [UnboundLocalError] when the request itself raised it before any
    reply; a timeout or rate limit is raised again only at the last
    attempt, so the loop is never left at its end. *)
Theorem X20_call_decided_by_one_attempt self response_format :
  (1 <= max_retries self)%Z ->
  exists k,
    (Z.of_nat k < max_retries self)%Z
    /\ (forall j, j < k ->
          exists e, attempt_body response_format j = Raise e /\ is_transient e = true)
    /\ snd (call self response_format) = backoff 0 k
    /\ match attempt_body response_format k with
       | Ok parsed => fst (call self response_format) = Ok parsed
       | Raise e =>
           fst (call self response_format)
             = Raise (reraised (content_after None 0 (S k)) e)
           /\ (is_transient e = true -> Z.of_nat k = (max_retries self - 1)%Z)
       end
    /\ (forall reply,
          create k = Ok reply ->
          attempt_body response_format k = Raise JSONDecodeError ->
          fst (call self response_format) = Raise ValueError)
    /\ (create k = Raise JSONDecodeError ->
        (forall j, j < k -> exists e, create j = Raise e) ->
        fst (call self response_format) = Raise UnboundLocalError).
Proof.
  intros Hmax. unfold llm_provider.call.
  destruct (Z.to_nat (max_retries self)) as [|n] eqn:En; [lia|].
  destruct (call_from_seq (max_retries self) response_format n 0 None []) as
    (k & Hk & Hbefore & Hs & Hat); [lia|].
  rewrite Nat.sub_0_r in Hs, Hat. cbn [app] in Hs.
  exists k. split; [lia|]. split; [intros j Hj; apply Hbefore; lia|].
  split; [exact Hs|]. split; [exact Hat|]. split.
  - intros reply Hreply Hbody. rewrite Hbody in Hat. destruct Hat as [-> _].
    cbn [reraised]. by rewrite (content_after_reply None 0 k reply Hreply).
  - intros Hreq Hnone.
    assert (Hbody : attempt_body response_format k = Raise JSONDecodeError).
    { unfold llm_provider.attempt_body. by rewrite Hreq. }
    rewrite Hbody in Hat. destruct Hat as [-> _]. cbn [reraised].
    rewrite content_after_no_reply; [reflexivity|].
    intros j Hj. destruct (decide (j = k)) as [->|Hne]; [by eexists|].
    apply Hnone. lia.
Qed.

Lemma call_from_never_decode_error max_retries response_format attempts :
  forall content slept,
    fst (call_from max_retries response_format attempts content slept)
      <> Raise JSONDecodeError.
Proof.
  induction attempts as [|attempt rest IH]; intros content slept;
    cbn [llm_provider.call_from].
  - discriminate.
  - destruct (attempt_body response_format attempt) as [parsed|e]; [discriminate|].
    destruct (is_transient e) eqn:Et.
    + destruct (_ <? _)%Z; [apply IH|]. by destruct e.
    + destruct e; try discriminate.
      by destruct (bind_content create content attempt).
Qed.

(** X21. [call] never raises [json.JSONDecodeError]: the only
    [ValueError] that leaves it is the plain one; and a provider that
    allows no attempt asks nothing and raises [Exception]. *)
Theorem X21_call_never_raises_decode_error self response_format :
  fst (call self response_format) <> Raise JSONDecodeError
  /\ (forall e, fst (call self response_format) = Raise e ->
        isinstance_ValueError e = true -> e = ValueError)
  /\ ((max_retries self <= 0)%Z ->
      call self response_format = (Raise OtherException, [])).
Proof.
  split; [apply call_from_never_decode_error|]. split.
  - intros e He Hv. destruct e; try discriminate Hv; [reflexivity|].
    by apply call_from_never_decode_error in He.
  - intros Hle. unfold llm_provider.call.
    replace (Z.to_nat (max_retries self)) with 0 by lia. reflexivity.
Qed.

Lemma string_length_app (s t : string) :
  String.length (s ++ t) = String.length s + String.length t.
Proof.
  induction s as [|c s IH]; [reflexivity|].
  rewrite string_app_cons. cbn [String.length]. by rewrite IH.
Qed.

Lemma substring_app_prefix (s t : string) :
  String.substring 0 (String.length s) (s ++ t) = s.
Proof.
  induction s as [|c s IH].
  - rewrite string_app_nil_l. cbn [String.length]. by destruct t.
  - rewrite string_app_cons. cbn [String.length String.substring]. by rewrite IH.
Qed.

Lemma substring_app_suffix (s t : string) :
  String.substring (String.length s) (String.length t) (s ++ t) = t.
Proof.
  induction s as [|c s IH].
  - rewrite string_app_nil_l. cbn [String.length].
    induction t as [|c t IH]; [reflexivity|].
    cbn [String.length String.substring]. by rewrite IH.
  - rewrite string_app_cons. cbn [String.length String.substring]. exact IH.
Qed.

Lemma endswith_app (s t : string) : endswith t (s ++ t) = true.
Proof.
  unfold endswith. rewrite string_length_app.
  replace (String.length s + String.length t - String.length t)
    with (String.length s) by lia.
  rewrite substring_app_suffix, String.eqb_refl.
  rewrite andb_true_r. apply Nat.leb_le. lia.
Qed.

Lemma drop_suffix_app (s t : string) :
  drop_suffix (String.length t) (s ++ t) = s.
Proof.
  unfold drop_suffix. rewrite string_length_app.
  replace (String.length s + String.length t - String.length t)
    with (String.length s) by lia.
  apply substring_app_prefix.
Qed.

(** X22. A reply that is not JSON as it stands but is JSON inside a
    fence is accepted: the parse is that of the text between the opening
    fence and the closing one, stripped. *)
Theorem X22_fenced_json_is_parsed content body :
  json_loads content = Raise JSONDecodeError ->
  py.strip content = "```json" ++ body ++ "```" ->
  startswith "```" (body ++ "```") = false ->
  parse_json json_loads content = json_loads (py.strip body).
Proof.
  intros Hbad Hfence Hinner. unfold parse_json. rewrite Hbad, Hfence. cbv zeta.
  assert (startswith "```json" ("```json" ++ body ++ "```") = true) as ->.
  { unfold startswith. rewrite !string_app_cons, string_app_nil_l.
    by destruct (body ++ "```")%string. }
  assert (drop_chars 7 ("```json" ++ body ++ "```") = body ++ "```") as ->.
  { rewrite !string_app_cons, string_app_nil_l. reflexivity. }
  rewrite Hinner, endswith_app.
  change 3 with (String.length "```"). by rewrite drop_suffix_app.
Qed.

End provider_retries.

(** ** The provider behind the router *)

Section provider_router.

Variable set_iter : gset string -> list string.
Variable json_loads : string -> outcome json.
Variable create : nat -> outcome string.

(** X23. What the router makes of a provider that fails, once the
    gate has let a book through: without an API key, or when the reply is
    not JSON even inside a fence, the answer is the refusal "Error
    processing routing request"; any failure that is not a [ValueError]
    (a timeout, a rate limit, an API error) is answered with the mock
    route. *)
Theorem X23_provider_failures_in_router gate OPENAI_API_KEY _provider
    question domain subdomain available_books chapters_by_book :
  candidate_books_of set_iter gate domain subdomain available_books <> [] ->
  let proposer :=
    llm_provider.provider_call json_loads create OPENAI_API_KEY _provider in
  let r := _llm_route set_iter (Ok gate) proposer question domain subdomain
                      available_books chapters_by_book in
  (_provider = None -> OPENAI_API_KEY = None \/ OPENAI_API_KEY = Some "" ->
   r = refusal "Error processing routing request")
  /\ (forall p content,
        fst (llm_provider.get_llm_provider OPENAI_API_KEY _provider) = Ok p ->
        (1 <= llm_provider.max_retries p)%Z ->
        create 0 = Ok content ->
        llm_provider.parse_json json_loads content = Raise JSONDecodeError ->
        r = refusal "Error processing routing request")
  /\ (forall e, proposer = Raise e -> isinstance_ValueError e = false ->
        r = _mock_route question domain subdomain available_books
              (merged_chapters set_iter gate domain subdomain chapters_by_book)).
Proof.
  intros Hcand proposer r.
  assert (Hr : forall e, proposer = Raise e ->
    r = if isinstance_ValueError e then refusal "Error processing routing request"
        else _mock_route question domain subdomain available_books
               (merged_chapters set_iter gate domain subdomain chapters_by_book)).
  { intros e He. subst r. unfold _llm_route. cbv zeta. rewrite He.
    by rewrite proposer_failure_reaches_handler. }
  split; [|split].
  - intros -> Hkey. apply (Hr ValueError). subst proposer.
    unfold llm_provider.provider_call, llm_provider.get_llm_provider,
      llm_provider.__init__.
    by destruct Hkey as [->| ->].
  - intros p content Hp Hmax Hc Hparse. apply (Hr ValueError). subst proposer.
    unfold llm_provider.provider_call. rewrite Hp. cbn [mbind outcome_bind].
    unfold llm_provider.call.
    destruct (Z.to_nat (llm_provider.max_retries p)) as [|n] eqn:En; [lia|].
    cbn [seq llm_provider.call_from].
    unfold llm_provider.attempt_body, llm_provider.bind_content.
    rewrite Hc. cbn [mbind outcome_bind String.eqb].
    change (String.eqb "json" "json") with true. cbv iota.
    rewrite Hparse. reflexivity.
  - intros e He Hv. rewrite (Hr e He), Hv. reflexivity.
Qed.

End provider_router.

Module demo_provider.

(** A parser that knows one document. *)
Definition json_loads (s : string) : outcome json :=
  if String.eqb s "{}" then Ok (JDict []) else Raise JSONDecodeError.

(** Two timeouts, then a fenced reply. *)
Definition create (attempt : nat) : outcome string :=
  match attempt with
  | 0 | 1 => Raise APITimeoutError
  | _ => Ok "  ```json {} ```  "
  end.

Definition provider : llm_provider.LLMProvider :=
  {| llm_provider.api_key := "sk-test"; llm_provider.max_retries := 3;
     llm_provider.timeout := 30 |}.

End demo_provider.

Lemma X20_witness :
  exists k,
    (Z.of_nat k < 3)%Z
    /\ llm_provider.call demo_provider.json_loads demo_provider.create
         demo_provider.provider "json" = (Ok (JDict []), backoff 0 k).
Proof.
  destruct (X20_call_decided_by_one_attempt demo_provider.json_loads
              demo_provider.create demo_provider.provider "json" ltac:(cbn; lia))
    as (k & Hk & _ & Hs & _).
  exists k. split; [exact Hk|].
  rewrite <- Hs. vm_compute. reflexivity.
Defined.

Lemma X22_witness :
  llm_provider.parse_json demo_provider.json_loads "  ```json {} ```  "
    = demo_provider.json_loads (py.strip " {} ").
Proof.
  apply (X22_fenced_json_is_parsed demo_provider.json_loads "  ```json {} ```  " " {} ").
  - reflexivity.
  - reflexivity.
  - reflexivity.
Defined.

Lemma X23_witness :
  _llm_route elements (Ok demo.gate)
    (llm_provider.provider_call demo_provider.json_loads demo_provider.create None None)
    demo_route.question "Philosophy" (Some "Stoicism") [demo_route.meditations] ∅
  = refusal "Error processing routing request".
Proof.
  assert (Hc : candidate_books_of elements demo.gate "Philosophy" (Some "Stoicism")
                 [demo_route.meditations] <> [])
    by (vm_compute; intros H; inversion H).
  pose proof (X23_provider_failures_in_router elements demo_provider.json_loads
                demo_provider.create demo.gate None None demo_route.question
                "Philosophy" (Some "Stoicism") [demo_route.meditations] ∅ Hc) as H0.
  cbv zeta in H0. destruct H0 as [H _].
  apply H; [reflexivity|by left].
Defined.

(** ** Routing a question *)

Section question_routing.

Variable sha256_hexdigest : string -> string.
Variable set_iter : gset string -> list string.
Variable get_books_by_domain : string -> list book.
Variable get_chapters : string -> list chapter.

(** A result within the caps, valid or not. *)
Definition within_caps (r : RoutingResult) : Prop :=
  length (paths r) <= 4
  /\ Forall (fun p => 1 <= length (recommendations p)) (paths r)
  /\ total_count r <= 6.

Definition cache_within_caps (_cache : option routing_cache.RoutingCache) : Prop :=
  forall c k e,
    _cache = Some c -> routing_cache.cache c !! k = Some e ->
    within_caps (routing_cache.routing_result e).

Lemma no_paths_within_caps r : paths r = [] -> within_caps r.
Proof.
  intros H. unfold within_caps, total_count. rewrite H. cbn.
  split; [lia|]. split; [constructor|lia].
Qed.

Lemma llm_route_within_caps gate_now proposer question domain subdomain
    available_books chapters_by_book :
  within_caps (_llm_route set_iter gate_now proposer question domain subdomain
                          available_books chapters_by_book).
Proof.
  pose proof (llm_route_capped set_iter gate_now proposer question domain subdomain
                available_books chapters_by_book) as Hcap.
  destruct (is_valid (_llm_route set_iter gate_now proposer question domain subdomain
                        available_books chapters_by_book)) eqn:Ev.
  { by apply Hcap. }
  apply no_paths_within_caps. revert Ev. unfold _llm_route. cbv zeta.
  destruct (snd (_llm_route_try _ _ _ _ _ _ _ _)) as [r|e] eqn:E.
  - apply llm_route_try_Ok in E as [[_ Hp]|[Ht _]]; [done|congruence].
  - destruct (isinstance_ValueError e); [done|].
    match goal with
    | |- context [_mock_route ?q ?d ?s ?a ?c] =>
        destruct (mock_route_spec q d s a c) as (Hv & _)
    end.
    cbv zeta in Hv. congruence.
Qed.

Lemma mock_route_within_caps question domain subdomain available_books chapters_by_book :
  within_caps (_mock_route question domain subdomain available_books chapters_by_book).
Proof.
  apply mock_route_capped.
  by destruct (mock_route_spec question domain subdomain available_books chapters_by_book).
Qed.

(** [route] hands out and stores only results within the caps, when
    the cache held only such results. *)
Lemma route_within_caps USE_MOCK_AGENTS _cache gate_now proposer now_get now_set
    question domain subdomain available_books chapters :
  cache_within_caps _cache ->
  let out := route sha256_hexdigest set_iter USE_MOCK_AGENTS _cache gate_now proposer
                   now_get now_set question domain subdomain available_books chapters in
  within_caps (fst out) /\ cache_within_caps (snd out).
Proof.
  intros Hc. unfold route. cbv zeta.
  destruct USE_MOCK_AGENTS; cbn [fst snd].
  { split; [apply mock_route_within_caps | exact Hc]. }
  set (c0 := fst (routing_cache.get_routing_cache _cache)).
  assert (Hc0 : forall k e, routing_cache.cache c0 !! k = Some e ->
                            within_caps (routing_cache.routing_result e)).
  { subst c0. destruct _cache as [c|]; cbn.
    - intros k e. by apply (Hc c).
    - intros k e H. by rewrite lookup_empty in H. }
  destruct (cache_get_entries sha256_hexdigest c0 gate_now now_get question domain subdomain)
    as [Hhit Hsub].
  cbv zeta in Hhit, Hsub.
  destruct (fst (routing_cache.get _ c0 _ _ _ _ _)) as [cached|] eqn:El; cbn [fst snd].
  - split.
    + destruct (Hhit cached eq_refl) as (k & e & Hk & <-). by apply (Hc0 k).
    + intros c k e [= <-] Hk. apply (Hc0 k). by apply Hsub.
  - pose proof (llm_route_within_caps gate_now proposer question domain subdomain
                  available_books (default ∅ chapters)) as Hr.
    destruct (is_valid (_llm_route _ _ _ _ _ _ _ _)) eqn:Ev; cbn [fst snd].
    + split; [exact Hr|].
      intros c k e [= <-]. unfold routing_cache.set. cbn [routing_cache.cache].
      rewrite lookup_insert. destruct (decide _) as [_|_].
      * intros [= <-]. exact Hr.
      * intros Hk. apply (Hc0 k). by apply Hsub.
    + split; [exact Hr|].
      intros c k e [= <-] Hk. apply (Hc0 k). by apply Hsub.
Qed.

Lemma total_count_flattened (r : RoutingResult) :
  total_count r = length (all_recommendations r).
Proof.
  unfold total_count, all_recommendations.
  induction (paths r) as [|p ps IH]; [reflexivity|].
  cbn. rewrite length_app. by rewrite IH.
Qed.

Lemma str_or_nonempty s d : d <> "" -> py.str_or s d <> "".
Proof.
  intros Hd. unfold py.str_or. destruct s as [x|]; [|exact Hd].
  destruct (String.eqb x "") eqn:E; [exact Hd|]. by apply String.eqb_neq.
Qed.

(** X24. What [route_question] hands to the page, when the cache held
    only results within the caps: the message is empty exactly when there
    are paths; there are at most 4 paths, none empty, and at most 6
    recommendations, which are the paths' recommendations in order; the
    cache still holds only results within the caps; and when the
    classifier refuses or the domain has no book, nothing is routed and
    the cache is not touched. *)
Theorem X24_route_question_shape USE_MOCK_AGENTS _cache gate_now proposer
    (now_get now_set : Q) classified question :
  cache_within_caps _cache ->
  let out := agent_service.route_question sha256_hexdigest set_iter
               get_books_by_domain get_chapters USE_MOCK_AGENTS _cache gate_now
               proposer now_get now_set classified question in
  (agent_service.message (fst out) = "" <-> agent_service.paths (fst out) <> [])
  /\ length (agent_service.paths (fst out)) <= 4
  /\ Forall (fun p => 1 <= length (recommendations p)) (agent_service.paths (fst out))
  /\ agent_service.recommendations (fst out)
     = concat (map recommendations (agent_service.paths (fst out)))
  /\ length (agent_service.recommendations (fst out)) <= 6
  /\ cache_within_caps (snd out)
  /\ (agent_service.is_valid classified = false
      \/ get_books_by_domain (agent_service.domain classified) = [] ->
      agent_service.paths (fst out) = [] /\ snd out = _cache).
Proof.
  intros Hc. cbv zeta. unfold agent_service.route_question. cbv zeta.
  destruct (agent_service.is_valid classified) eqn:Ev; cbn [negb].
  2:{ cbn [fst snd agent_service.message agent_service.paths
           agent_service.recommendations length concat map].
      split; [split; [|done]|].
      { intros H. by apply str_or_nonempty in H. }
      split; [lia|]. split; [constructor|]. split; [reflexivity|]. split; [lia|].
      split; [exact Hc|]. by intros _. }
  destruct (get_books_by_domain (agent_service.domain classified)) as [|b books] eqn:Eb.
  { cbn [fst snd agent_service.message agent_service.paths
         agent_service.recommendations length concat map].
    split; [split; [|done]|].
    { intros H. by apply string_app_not_nil_l in H. }
    split; [lia|]. split; [constructor|]. split; [reflexivity|]. split; [lia|].
    split; [exact Hc|]. by intros _. }
  match goal with
  | |- context [route ?sha ?si ?u ?c ?g ?p ?n1 ?n2 ?q ?d ?s ?a ?ch] =>
      destruct (route_within_caps u c g p n1 n2 q d s a ch Hc) as [Hr Hcache];
      cbv zeta in Hr, Hcache;
      set (routed := route sha si u c g p n1 n2 q d s a ch) in *
  end.
  destruct Hr as (H4 & Hne & H6).
  rewrite total_count_flattened in H6.
  destruct (paths (fst routed)) as [|p ps] eqn:Ep.
  - cbn [fst snd agent_service.message agent_service.paths
         agent_service.recommendations length concat map].
    split; [split; [discriminate|done]|].
    split; [lia|]. split; [constructor|]. split; [reflexivity|]. split; [lia|].
    split; [exact Hcache|]. intros [?|?]; discriminate.
  - cbn [fst snd agent_service.message agent_service.paths
         agent_service.recommendations].
    split; [split; [discriminate|done]|].
    split; [exact H4|]. split; [exact Hne|].
    split; [unfold all_recommendations; by rewrite Ep|].
    split; [exact H6|]. split; [exact Hcache|]. intros [?|?]; discriminate.
Qed.

End question_routing.

Module demo_service.

Definition get_books_by_domain (domain : string) : list book :=
  if String.eqb domain "Philosophy" then [demo_route.meditations] else [].

Definition get_chapters (book_id : string) : list chapter := [].

Definition stoic_intent : agent_service.IntentResult :=
  {| agent_service.domain := "Philosophy";
     agent_service.subdomain := Some "Stoicism";
     agent_service.confidence := 85 # 100;
     agent_service.is_valid := true;
     agent_service.refusal_reason := None |}.

End demo_service.

Lemma X24_witness :
  let out := agent_service.route_question demo_cache.plain_digest elements
               demo_service.get_books_by_domain demo_service.get_chapters
               false None (Ok demo.gate) (Ok demo_route.one_path) 1000 1001
               demo_service.stoic_intent demo_route.question in
  (agent_service.message (fst out) = "" <-> agent_service.paths (fst out) <> [])
  /\ length (agent_service.paths (fst out)) <= 4
  /\ length (agent_service.recommendations (fst out)) <= 6.
Proof.
  assert (Hc : cache_within_caps None) by (intros c k e H; discriminate H).
  pose proof (X24_route_question_shape demo_cache.plain_digest elements
                demo_service.get_books_by_domain demo_service.get_chapters
                false None (Ok demo.gate) (Ok demo_route.one_path) 1000 1001
                demo_service.stoic_intent demo_route.question Hc) as H.
  cbv zeta in H. destruct H as (H1 & H2 & _ & _ & H5 & _).
  cbv zeta. split; [exact H1|]. split; [exact H2|exact H5].
Defined.
